(** * Shared agent tools of whastra: the Airtable XML tools, the web tools,
      the SQL bridge and the webhook trigger

    A shallow embedding of [core/shared/tools/airtable-xml.ts]
    ([airtableGetHydratedContentContext], [airtableGetContentBundle], the
    create and write-back tools and the lookups by slug),
    [core/shared/tools/web.ts] ([webSearch], [webScrape]) and the SQL bridge
    [mindsdbQuery] and webhook trigger [n8nTrigger] with [joinWebhookUrl]
    (the tools imported as [mindsdb.js] and [n8n.js]), together with
    [airtableFetchPersona], the later airtable.ts (query, bulk create, bulk
    update, persona lookup), the Tavily web search and [pickModel] of the
    research agent.

    - JavaScript values read out of JSON bodies are the inductive [value];
      the coercions the tools rely on ([||], [if (x)], template literals,
      [Array.prototype.join], [for ... of]) are functions on it.
    - [process.env] is a [gmap string string].
    - A tool body is a program [prog A] over one effect, [fetch]; running it
      against a [network] gives a completion (returned value or thrown
      error) and the list of requests it sent, in order.
    - Strings are sequences of code units below 256: every character of a
      [string] stands for the UTF-16 code unit with the same number. *)

From Stdlib Require Import ZArith Ascii.
From stdpp Require Import gmap strings list pretty.

Local Open Scope Z_scope.
Set Warnings "-register-all".

(** ** Characters and strings *)

Definition dquote : string := String (Ascii.ascii_of_nat 34) "".
Definition newline : string := String (Ascii.ascii_of_nat 10) "".

Definition is_slash (c : ascii) : bool := bool_decide (c = "/"%char).

(** [String.prototype.trim] removes WhiteSpace and LineTerminator code units
    at both ends; below 256 these are TAB, LF, VT, FF, CR, SP and NBSP. *)
Definition is_js_space (c : ascii) : bool :=
  bool_decide (Ascii.nat_of_ascii c ∈ [9; 10; 11; 12; 13; 32; 160]%nat).

Fixpoint trim_start (s : string) : string :=
  match s with
  | String c s' => if is_js_space c then trim_start s' else s
  | EmptyString => EmptyString
  end.

Fixpoint trim_end (s : string) : string :=
  match s with
  | EmptyString => EmptyString
  | String c s' =>
      match trim_end s' with
      | EmptyString => if is_js_space c then EmptyString else String c EmptyString
      | r => String c r
      end
  end.

Definition trim (s : string) : string := trim_end (trim_start s).

Definition str_nonempty (s : string) : bool :=
  match s with EmptyString => false | String _ _ => true end.

Fixpoint chars (s : string) : list ascii :=
  match s with
  | EmptyString => []
  | String c s' => c :: chars s'
  end.

Fixpoint join (sep : string) (l : list string) : string :=
  match l with
  | [] => ""
  | [x] => x
  | x :: rest => x +:+ sep +:+ join sep rest
  end.

(** [s.replace(/^\/+/, '')] *)
Fixpoint strip_leading_slashes (s : string) : string :=
  match s with
  | String c s' => if is_slash c then strip_leading_slashes s' else s
  | EmptyString => EmptyString
  end.

(** [s.replace(/\/+$/, '')]: the leftmost match of [\/+$] is the maximal
    run of slashes that reaches the end of the input. *)
Fixpoint strip_trailing_slashes (s : string) : string :=
  match s with
  | EmptyString => EmptyString
  | String c s' =>
      match strip_trailing_slashes s' with
      | EmptyString => if is_slash c then EmptyString else String c EmptyString
      | r => String c r
      end
  end.

(** [/<suffix>$/.test(s)] for a literal suffix. *)
Fixpoint ends_with (suffix s : string) : bool :=
  bool_decide (s = suffix) ||
  match s with
  | EmptyString => false
  | String _ s' => ends_with suffix s'
  end.

(** *** [encodeURIComponent] on code units below 256 *)

Definition uri_unreserved (c : ascii) : bool :=
  let n := Ascii.nat_of_ascii c in
  (bool_decide (65 ≤ n ≤ 90) || bool_decide (97 ≤ n ≤ 122) ||
   bool_decide (48 ≤ n ≤ 57) ||
   bool_decide (c ∈ chars "-_.!~*'()"))%nat.

Definition hex_digit (n : nat) : ascii :=
  Ascii.ascii_of_nat (if bool_decide (n < 10)%nat then 48 + n else 55 + n).

Definition percent_byte (n : nat) : string :=
  String "%" (String (hex_digit (n / 16)) (String (hex_digit (n mod 16)) "")).

Definition encode_unit (c : ascii) : string :=
  let n := Ascii.nat_of_ascii c in
  if uri_unreserved c then String c ""
  else if bool_decide (n < 128)%nat then percent_byte n
  else percent_byte (192 + n / 64) +:+ percent_byte (128 + n mod 64).

Fixpoint encodeURIComponent (s : string) : string :=
  match s with
  | EmptyString => EmptyString
  | String c s' => encode_unit c +:+ encodeURIComponent s'
  end.

(** ** JavaScript values *)

(** The values a parsed JSON body can hold, and [undefined], which a property
    read produces.  Numbers are the integers that print in plain decimal
    notation; numbers with a fraction or an exponent are outside the model. *)
Inductive value : Type :=
| VUndef
| VNull
| VBool (b : bool)
| VNum (n : Z)
| VStr (s : string)
| VArr (items : list value)
| VObj (props : gmap string value).

(** ToBoolean *)
Definition truthy (v : value) : bool :=
  match v with
  | VUndef | VNull => false
  | VBool b => b
  | VNum n => negb (n =? 0)
  | VStr s => str_nonempty s
  | VArr _ | VObj _ => true
  end.

(** [a || b] *)
Definition js_or (a b : value) : value := if truthy a then a else b.

(** ToString, as a template literal and [Array.prototype.join] apply it: an
    array prints its elements joined by commas, with [null] and [undefined]
    elements printed as the empty string.  A number prints as its decimal
    digits, which is what JavaScript prints for an integer below 10^21 in
    absolute value. *)
Fixpoint to_string (v : value) : string :=
  match v with
  | VUndef => "undefined"
  | VNull => "null"
  | VBool b => if b then "true" else "false"
  | VNum n => pretty n
  | VStr s => s
  | VArr items =>
      join "," (map (fun x => match x with
                              | VUndef | VNull => ""
                              | _ => to_string x
                              end) items)
  | VObj _ => "[object Object]"
  end.

Definition join_element (x : value) : string :=
  match x with
  | VUndef | VNull => ""
  | _ => to_string x
  end.

(** [typeof v === 'string'] *)
Definition is_string (v : value) : bool :=
  match v with VStr _ => true | _ => false end.

(** Property read [v[k]] for a key [k] that is neither an array index nor the
    name of a member of a built-in prototype: the keys the tools spell out
    are such field names, or [length].  A field name taken from the
    environment (AIRTABLE_FIELD_...) can be any string; a statement about
    such a read assumes that the name is not [inherited_name].  Reading a
    property of [null] or [undefined] throws a TypeError, signalled here by
    [None]. *)
Definition get_prop (v : value) (k : string) : option value :=
  match v with
  | VUndef | VNull => None
  | VObj props => Some (default VUndef (props !! k))
  | VArr items =>
      Some (if bool_decide (k = "length") then VNum (Z.of_nat (length items))
            else VUndef)
  | VStr s =>
      Some (if bool_decide (k = "length") then VNum (Z.of_nat (String.length s))
            else VUndef)
  | VBool _ | VNum _ => Some VUndef
  end.

(** Optional chaining [v?.[k]] *)
Definition get_opt (v : value) (k : string) : value :=
  default VUndef (get_prop v k).

(** The names of the members every object inherits from [Object.prototype]:
    a read of such a name on an object without an own property of that name
    yields the inherited member, not [undefined]. *)
Definition inherited_name (k : string) : bool :=
  bool_decide (k ∈ ["constructor"; "__proto__"; "hasOwnProperty";
                    "isPrototypeOf"; "propertyIsEnumerable"; "toLocaleString";
                    "toString"; "valueOf"; "__defineGetter__";
                    "__defineSetter__"; "__lookupGetter__";
                    "__lookupSetter__"]).

(** The values a [for (const x of v)] loop visits; [None] when [v] is not
    iterable (a TypeError).  A string is visited character by character. *)
Definition iterate (v : value) : option (list value) :=
  match v with
  | VArr items => Some items
  | VStr s => Some (map (fun c => VStr (String c "")) (chars s))
  | _ => None
  end.

(** ** Errors, requests and responses *)

(** A thrown [Error] object; the tools only ever read its [message]. *)
Record js_error : Type := Error { message : string }.

Inductive completion (A : Type) : Type :=
| Normal (a : A)
| Throw (e : js_error).
Arguments Normal {A} a.
Arguments Throw {A} e.

(** The argument of [fetch]: the URL and the [method], [headers] and [body]
    of the init object.  [req_body] is the value handed to [JSON.stringify]
    ([VUndef] when there is no body). *)
Record request : Type := Request {
  req_method : string;
  req_url : string;
  req_headers : list (string * string);
  req_body : value;
}.

(** A [Response]: [status], the body as [res.text()] gives it, and what
    [res.json()] settles to (a parsed value, or a thrown SyntaxError). *)
Record response : Type := Response {
  status : Z;
  text : string;
  json : completion value;
}.

(** [res.ok] *)
Definition ok (r : response) : bool := (200 <=? status r) && (status r <=? 299).

(** What awaiting [fetch] gives: a response, whatever its status, or a
    rejection (a network-level failure). *)
Inductive fetch_outcome : Type :=
| Responds (r : response)
| Rejects (e : js_error).

Definition network : Type := request -> fetch_outcome.

(** ** Tool programs *)

Inductive prog (A : Type) : Type :=
| Ret (a : A)
| Raise (e : js_error)
| Fetch (req : request) (k : fetch_outcome -> prog A).
Arguments Ret {A} a.
Arguments Raise {A} e.
Arguments Fetch {A} req k.

Fixpoint bind {A B : Type} (m : prog A) (f : A -> prog B) : prog B :=
  match m with
  | Ret a => f a
  | Raise e => Raise e
  | Fetch req k => Fetch req (fun o => bind (k o) f)
  end.

Notation "'let!' x ':=' m 'in' k" := (bind m (fun x => k))
  (at level 10, x name, m at level 100, k at level 200).

(** [try { m } catch (error) { h error }] *)
Fixpoint try_catch {A : Type} (m : prog A) (h : js_error -> prog A) : prog A :=
  match m with
  | Ret a => Ret a
  | Raise e => h e
  | Fetch req k => Fetch req (fun o => try_catch (k o) h)
  end.

(** [await fetch(url, init)] *)
Definition fetch (req : request) : prog response :=
  Fetch req (fun o => match o with
                      | Responds r => Ret r
                      | Rejects e => Raise e
                      end).

Arguments fetch : simpl never.

(** [await res.json()] *)
Definition res_json (r : response) : prog value :=
  match json r with
  | Normal v => Ret v
  | Throw e => Raise e
  end.

Definition type_error (msg : string) : js_error := Error msg.

(** [v[k]] as a statement of a tool body. *)
Definition read (v : value) (k : string) : prog value :=
  match get_prop v k with
  | Some x => Ret x
  | None =>
      Raise (type_error ("Cannot read properties of " +:+ to_string v +:+
                         " (reading '" +:+ k +:+ "')"))
  end.

(** Running a program against a network: the completion and the requests
    sent, oldest first. *)
Fixpoint run {A : Type} (net : network) (m : prog A)
  : completion A * list request :=
  match m with
  | Ret a => (Normal a, [])
  | Raise e => (Throw e, [])
  | Fetch req k =>
      let '(c, sent) := run net (k (net req)) in (c, req :: sent)
  end.

Definition outcome {A : Type} (net : network) (m : prog A) : completion A :=
  fst (run net m).

Definition requests {A : Type} (net : network) (m : prog A) : list request :=
  snd (run net m).

(** ** Environment, inputs and results *)

(** [process.env.K]: a string when the variable is set, else [undefined]. *)
Definition env_read (env : gmap string string) (k : string) : value :=
  match env !! k with
  | Some s => VStr s
  | None => VUndef
  end.

(** An optional string property of the validated tool input. *)
Definition opt_value (o : option string) : value :=
  match o with
  | Some s => VStr s
  | None => VUndef
  end.

Record linked_counts : Type := LinkedCounts {
  personas : nat;
  domains : nat;
  entities : nat;
  references : nat;
}.

Record linked_resources : Type := LinkedResources {
  linked_personas : value;
  linked_domains : value;
  linked_entities : value;
  linked_references : value;
}.

(** The object a tool's [execute] returns, by shape. *)
Inductive tool_result : Type :=
| Skipped (reason : string)
    (* { ok: false, skipped: true, reason } *)
| HttpFailure (st : Z) (reason : string)
    (* { ok: false, status, reason } *)
| Failed (error : string)
    (* { ok: false, error } *)
| Hydrated (initiatorId xml : string) (linkedCounts : linked_counts)
    (* { ok: true, mode: 'hydrated', initiatorId, xml, linkedCounts } *)
| Prebuilt (initiatorId xml source : string)
    (* { ok: true, mode: 'prebuilt', initiatorId, xml, source } *)
| Assembled (initiatorId xml : string) (linkedResources : linked_resources)
    (* { ok: true, mode: 'assembled', initiatorId, xml, linkedResources } *)
| SqlRows (rows columnNames rowCount : value)
    (* { ok: true, rows, columnNames, rowCount } *)
| WebhookData (data : value)
    (* { ok: true, data } *)
| SearchResults (query : string) (results : list value) (note : string)
                (recommendation : option string)
    (* { results, query, note } and { query, results, note, recommendation } *)
| ScrapedPage (url content note : string).
    (* { url, content, note } *)

(** The [ok] property of a result, when it has one. *)
Definition result_ok (r : tool_result) : option bool :=
  match r with
  | Skipped _ | HttpFailure _ _ | Failed _ => Some false
  | Hydrated _ _ _ | Prebuilt _ _ _ | Assembled _ _ _
  | SqlRows _ _ _ | WebhookData _ => Some true
  | SearchResults _ _ _ _ | ScrapedPage _ _ _ => None
  end.

(** The [skipped] property of a result, when it has one. *)
Definition result_skipped (r : tool_result) : option bool :=
  match r with
  | Skipped _ => Some true
  | _ => None
  end.

(** ** airtable-xml.ts *)

Definition airtableHeadersOrNull (env : gmap string string)
  : option (list (string * string)) :=
  let token := js_or (js_or (env_read env "AIRTABLE_PAT")
                            (env_read env "AIRTABLE_API_KEY"))
                     (env_read env "AIRTABLE_TOKEN") in
  if negb (truthy token) then None
  else Some [("Authorization", "Bearer " +:+ to_string token);
             ("Content-Type", "application/json")].

(** [fetch(url, { headers })] *)
Definition get_request (url : string) (headers : list (string * string))
  : request :=
  Request "GET" url headers VUndef.

(** [`https://api.airtable.com/v0/${baseId}/${encodeURIComponent(table)}/${id}`] *)
Definition record_url (baseId table id : value) : string :=
  "https://api.airtable.com/v0/" +:+ to_string baseId +:+ "/" +:+
  encodeURIComponent (to_string table) +:+ "/" +:+ to_string id.

Record bundle_input : Type := BundleInput {
  initiatorId : string;
  baseId : option string;
}.

(** [context.baseId || process.env.AIRTABLE_BASE_ID ||
     process.env.AIRTABLE_CONTENT_BASE_ID] *)
Definition resolve_base (env : gmap string string) (context : bundle_input)
  : value :=
  js_or (js_or (opt_value (baseId context)) (env_read env "AIRTABLE_BASE_ID"))
        (env_read env "AIRTABLE_CONTENT_BASE_ID").

Definition push (xmlParts : list string) (part : string) : list string :=
  xmlParts ++ [part].

(** [record.fields[k]] *)
Definition field (record : value) (k : string) : prog value :=
  let! fields := read record "fields" in
  read fields k.

(** [if (record.fields[k]) xmlParts.push(`    <tag>${record.fields[k]}</tag>`)],
    the statement both bundle tools use for Goal, Content Type and Output
    Type. *)
Definition push_scalar (record : value) (k tag : string)
  (xmlParts : list string) : prog (list string) :=
  let! v := field record k in
  if truthy v then
    let! v' := field record k in
    Ret (push xmlParts
           ("    <" +:+ tag +:+ ">" +:+ to_string v' +:+ "</" +:+ tag +:+ ">"))
  else Ret xmlParts.

Section Hydrate.
Variable env : gmap string string.
Variable context : bundle_input.
(** The two constants the body closes over once the guards have passed. *)
Variable headers : list (string * string).
Variable base : value.

(** The loop of [fetchByIds]: one request per id, in order; a record is
    kept only when its response is [ok]. *)
Fixpoint fetch_each (table : value) (ids results : list value)
  : prog (list value) :=
  match ids with
  | [] => Ret results
  | id :: rest =>
      let u := record_url base table id in
      let! r := fetch (get_request u headers) in
      if ok r then
        let! record := res_json r in
        fetch_each table rest (results ++ [record])
      else fetch_each table rest results
  end.

(** [(r?.fields?.[xmlField] || '')] *)
Definition xml_of (xmlField : string) (r : value) : value :=
  js_or (get_opt (get_opt r "fields") xmlField) (VStr "").

Definition fetchByIds (table ids : value) (xmlField : string)
  : prog (list value) :=
  match iterate ids with
  | None => Raise (type_error "ids is not iterable")
  | Some l =>
      let! results := fetch_each table l [] in
      Ret (List.filter truthy (map (xml_of xmlField) results))
  end.

(** One of the four [if (xs.length > 0) { ... }] blocks, which differ only
    in the tag. *)
Definition embed (tag : string) (xs : list value) (xmlParts : list string)
  : list string :=
  if (0 <? length xs)%nat then
    let xmlParts := push xmlParts ("  <" +:+ tag +:+ ">") in
    let xmlParts :=
      fold_left (fun parts xml => push parts ("    " +:+ to_string xml))
                xs xmlParts in
    push xmlParts ("  </" +:+ tag +:+ ">")
  else xmlParts.

Definition hydrate_body : prog tool_result :=
  (* 1) Fetch initiator by ID *)
  let initiatorTable :=
    js_or (env_read env "AIRTABLE_TABLE_CONTENT_INITIATORS")
          (VStr "Content Initiators") in
  let initUrl :=
    record_url base initiatorTable (VStr (initiatorId context)) in
  let! initRes := fetch (get_request initUrl headers) in
  if negb (ok initRes) then
    Ret (HttpFailure (status initRes) (text initRes))
  else
  let! init := res_json initRes in
  (* 2) Gather linked IDs *)
  let! v := field init "Personas" in
  let personas := js_or v (VArr []) in
  let! v := field init "Content Domains" in
  let domains := js_or v (VArr []) in
  let! v := field init "Entity" in
  let entities := js_or v (VArr []) in
  let! v := field init "References" in
  let references := js_or v (VArr []) in
  (* 4) Fetch XML snippets from linked resources *)
  let! personaXml :=
    fetchByIds (js_or (env_read env "AIRTABLE_TABLE_PERSONAS") (VStr "Personas"))
               personas "XML Bundle" in
  let! domainXml :=
    fetchByIds (js_or (env_read env "AIRTABLE_TABLE_DOMAINS")
                      (VStr "Content Domains"))
               domains "XML Bundle" in
  let! entityXml :=
    fetchByIds (js_or (env_read env "AIRTABLE_TABLE_ENTITIES") (VStr "Entity"))
               entities "XML" in
  let! referenceXml :=
    fetchByIds (js_or (env_read env "AIRTABLE_TABLE_REFERENCES")
                      (VStr "References"))
               references "XML" in
  (* 5) Assemble bundle with embedded XML content *)
  let xmlParts :=
    ["<bundle>";
     "  <initiator id=" +:+ dquote +:+ initiatorId context +:+ dquote +:+ ">"] in
  let! xmlParts := push_scalar init "Goal" "goal" xmlParts in
  let! xmlParts := push_scalar init "Content Type" "contentType" xmlParts in
  let! xmlParts := push_scalar init "Output Type" "outputType" xmlParts in
  let xmlParts := push xmlParts "  </initiator>" in
  let xmlParts := embed "personas" personaXml xmlParts in
  let xmlParts := embed "domains" domainXml xmlParts in
  let xmlParts := embed "entities" entityXml xmlParts in
  let xmlParts := embed "references" referenceXml xmlParts in
  let xmlParts := push xmlParts "</bundle>" in
  let xml := join newline (List.filter str_nonempty xmlParts) in
  Ret (Hydrated (initiatorId context) xml
         (LinkedCounts (length personaXml) (length domainXml)
                       (length entityXml) (length referenceXml))).
End Hydrate.

(** [airtableGetHydratedContentContext.execute] *)
Definition airtableGetHydratedContentContext
  (env : gmap string string) (context : bundle_input) : prog tool_result :=
  match airtableHeadersOrNull env with
  | None => Ret (Skipped "Airtable not configured (no PAT/API key)")
  | Some headers =>
      let base := resolve_base env context in
      if negb (truthy base) then Ret (Skipped "No Airtable Base ID configured")
      else
        try_catch (hydrate_body env context headers base)
                  (fun error => Ret (Failed (message error)))
  end.

Section Bundle.
(** Whether the ECMAScript StringToNumber conversion of a string is a
    number greater than zero.  The language defines it; the tools never
    depend on which strings it accepts. *)
Variable string_gt_zero : string -> bool.

(** [x > 0] *)
Definition js_gt_zero (x : value) : bool :=
  match x with
  | VUndef | VNull => false
  | VBool b => b
  | VNum n => 0 <? n
  | VStr s => string_gt_zero s
  | VArr _ => string_gt_zero (to_string x)
  | VObj _ => false
  end.

(** [v.join(sep)]: only an array has the method. *)
Definition call_join (name : string) (v : value) (sep : string)
  : prog string :=
  match v with
  | VArr items => Ret (join sep (map join_element items))
  | _ => Raise (type_error (name +:+ ".join is not a function"))
  end.

(** [prebuiltXml && typeof prebuiltXml === 'string' && prebuiltXml.trim()] *)
Definition prebuilt_usable (prebuiltXml : value) : bool :=
  truthy prebuiltXml && is_string prebuiltXml &&
  str_nonempty (trim (to_string prebuiltXml)).

(** [if (xs.length > 0) xmlParts.push(`  <tag linkedIds="${xs.join(',')}" />`)] *)
Definition push_linked (tag : string) (xs : value) (xmlParts : list string)
  : prog (list string) :=
  let! len := read xs "length" in
  if js_gt_zero len then
    let! ids := call_join tag xs "," in
    Ret (push xmlParts
           ("  <" +:+ tag +:+ " linkedIds=" +:+ dquote +:+ ids +:+ dquote +:+ " />"))
  else Ret xmlParts.

(** The statements after the prebuilt check: assemble from linked
    resources (IDs only). *)
Definition assemble_bundle (context : bundle_input) (record : value)
  : prog tool_result :=
  let! v := field record "Personas" in
  let personas := js_or v (VArr []) in
  let! v := field record "Content Domains" in
  let domains := js_or v (VArr []) in
  let! v := field record "Entity" in
  let entities := js_or v (VArr []) in
  let! v := field record "References" in
  let references := js_or v (VArr []) in
  let xmlParts :=
    ["<bundle>";
     "  <initiator id=" +:+ dquote +:+ initiatorId context +:+ dquote +:+ ">"] in
  let! xmlParts := push_scalar record "Goal" "goal" xmlParts in
  let! xmlParts := push_scalar record "Content Type" "contentType" xmlParts in
  let! xmlParts := push_scalar record "Output Type" "outputType" xmlParts in
  let xmlParts := push xmlParts "  </initiator>" in
  (* Add linked resources (IDs only) *)
  let! xmlParts := push_linked "personas" personas xmlParts in
  let! xmlParts := push_linked "domains" domains xmlParts in
  let! xmlParts := push_linked "entities" entities xmlParts in
  let! xmlParts := push_linked "references" references xmlParts in
  let xmlParts := push xmlParts "</bundle>" in
  Ret (Assembled (initiatorId context) (join newline xmlParts)
         (LinkedResources personas domains entities references)).

(** The body of the [try] block.  [bundleField] is configured with the name
    of a field of the store (see [get_prop]). *)
Definition bundle_body (env : gmap string string) (context : bundle_input)
  (headers : list (string * string)) (base : value) : prog tool_result :=
  let initiatorTable :=
    js_or (env_read env "AIRTABLE_TABLE_CONTENT_INITIATORS")
          (VStr "Content Initiators") in
  let bundleField :=
    js_or (env_read env "AIRTABLE_FIELD_XML_BUNDLE")
          (VStr "BUNDLE of the XML BUNDLES") in
  (* Fetch the Content Initiator record *)
  let url := record_url base initiatorTable (VStr (initiatorId context)) in
  let! res := fetch (get_request url headers) in
  if negb (ok res) then Ret (HttpFailure (status res) (text res))
  else
  let! record := res_json res in
  (* Check for prebuilt XML bundle *)
  let! prebuiltXml := field record (to_string bundleField) in
  if prebuilt_usable prebuiltXml then
    Ret (Prebuilt (initiatorId context) (to_string prebuiltXml)
           "Content Initiator bundle field")
  else assemble_bundle context record.

(** [airtableGetContentBundle.execute] *)
Definition airtableGetContentBundle
  (env : gmap string string) (context : bundle_input) : prog tool_result :=
  match airtableHeadersOrNull env with
  | None => Ret (Skipped "Airtable not configured (no PAT/API key)")
  | Some headers =>
      let base := resolve_base env context in
      if negb (truthy base) then Ret (Skipped "No Airtable Base ID configured")
      else
        try_catch (bundle_body env context headers base)
                  (fun error => Ret (Failed (message error)))
  end.
End Bundle.

(** ** mindsdb.ts *)

(** [fetch(url, { method: 'POST', headers, body: JSON.stringify(payload) })] *)
Definition post_request (url : string) (headers : list (string * string))
  (payload : value) : request :=
  Request "POST" url headers payload.

(** [mindsdbQuery.execute] *)
Definition mindsdbQuery (env : gmap string string) (sql : string)
  : prog tool_result :=
  if negb (truthy (env_read env "MINDSDB_URL")) then
    Ret (Skipped "MINDSDB_URL not set")
  else
    let headers := [("Content-Type", "application/json")] in
    let headers :=
      if truthy (env_read env "MINDSDB_KEY") then
        headers ++
        [("Authorization", "Bearer " +:+ to_string (env_read env "MINDSDB_KEY"))]
      else headers in
    let! response :=
      fetch (post_request
               (to_string (env_read env "MINDSDB_URL") +:+ "/api/sql/query")
               headers (VObj {[ "query" := VStr sql ]})) in
    if negb (ok response) then
      Ret (HttpFailure (status response) (text response))
    else
      let! data := res_json response in
      let! rows := read data "data" in
      let! columns := read data "column_names" in
      let! rows' := read data "data" in
      Ret (SqlRows (js_or rows (VArr [])) (js_or columns (VArr []))
                   (js_or (get_opt rows' "length") (VNum 0))).

(** ** n8n.ts *)

Definition joinWebhookUrl (base scenario : string) : string :=
  (* Strip trailing slashes *)
  let b := strip_trailing_slashes base in
  (* Ensure exactly one '/webhook' segment *)
  let hasWebhook := ends_with "/webhook" b in
  let root := if hasWebhook then b else b +:+ "/webhook" in
  (* Strip leading slashes from scenario *)
  let path := strip_leading_slashes scenario in
  root +:+ "/" +:+ path.

(** [n8nTrigger.execute] *)
Definition n8nTrigger (env : gmap string string) (scenario : string)
  (payload : value) : prog tool_result :=
  let base := env_read env "N8N_WEBHOOK_BASE" in
  if negb (truthy base) then Ret (Skipped "N8N_WEBHOOK_BASE not set")
  else
    let webhookUrl := joinWebhookUrl (to_string base) scenario in
    let! response :=
      fetch (post_request webhookUrl [("Content-Type", "application/json")]
                          payload) in
    if negb (ok response) then
      Ret (HttpFailure (status response) (text response))
    else
      try_catch (let! data := res_json response in Ret (WebhookData data))
                (fun _ => Ret (WebhookData VNull)).

(** ** web.ts *)

(** [webSearch.execute]; the [console.warn] of the unconfigured branch is
    not a request and is left out. *)
Definition webSearch (env : gmap string string) (query : string)
  : prog tool_result :=
  if negb (truthy (env_read env "BROWSERBASE_API_KEY")) then
    Ret (SearchResults query []
           "Web search requires BROWSERBASE_API_KEY to be configured" None)
  else
    Ret (SearchResults query []
           "Web search tool is a placeholder. Integrate with Tavily, SerpAPI, or similar service."
           (Some "Add TAVILY_API_KEY to .env and implement Tavily integration for production use.")).

(** [webScrape.execute] *)
Definition webScrape (env : gmap string string) (url : string)
  : prog tool_result :=
  if negb (truthy (env_read env "BROWSERBASE_API_KEY")) then
    Raise (Error "BROWSERBASE_API_KEY required for web scraping")
  else
    Ret (ScrapedPage url ""
           "Web scraping requires Browserbase integration to be implemented").

(** ** Vocabulary of the statements about the hydrated bundle *)

Inductive category : Type := Persona | Domain | Entity | Reference.

(** The relation field of the initiator that lists a category's ids. *)
Definition relation_field (c : category) : string :=
  match c with
  | Persona => "Personas"
  | Domain => "Content Domains"
  | Entity => "Entity"
  | Reference => "References"
  end.

(** The table [fetchByIds] is given for a category. *)
Definition category_table (env : gmap string string) (c : category) : value :=
  match c with
  | Persona => js_or (env_read env "AIRTABLE_TABLE_PERSONAS") (VStr "Personas")
  | Domain =>
      js_or (env_read env "AIRTABLE_TABLE_DOMAINS") (VStr "Content Domains")
  | Entity => js_or (env_read env "AIRTABLE_TABLE_ENTITIES") (VStr "Entity")
  | Reference =>
      js_or (env_read env "AIRTABLE_TABLE_REFERENCES") (VStr "References")
  end.

(** The knowledge-text field [fetchByIds] is given for a category. *)
Definition knowledge_field (c : category) : string :=
  match c with
  | Persona | Domain => "XML Bundle"
  | Entity | Reference => "XML"
  end.

Definition container_tag (c : category) : string :=
  match c with
  | Persona => "personas"
  | Domain => "domains"
  | Entity => "entities"
  | Reference => "references"
  end.

Definition count_of (c : category) (counts : linked_counts) : nat :=
  match c with
  | Persona => personas counts
  | Domain => domains counts
  | Entity => entities counts
  | Reference => references counts
  end.

(** The request for the initiator record. *)
Definition initiator_request (env : gmap string string)
  (context : bundle_input) (headers : list (string * string)) (base : value)
  : request :=
  get_request
    (record_url base
       (js_or (env_read env "AIRTABLE_TABLE_CONTENT_INITIATORS")
              (VStr "Content Initiators"))
       (VStr (initiatorId context)))
    headers.

(** The request for one linked record. *)
Definition child_request (headers : list (string * string))
  (base table id : value) : request :=
  get_request (record_url base table id) headers.

(** [record.fields[k]] when neither read throws. *)
Definition field_value (record : value) (k : string) : option value :=
  match get_prop record "fields" with
  | Some fields => get_prop fields k
  | None => None
  end.

(** The ids a category's loop visits, when the relation can be iterated. *)
Definition linked_ids (init : value) (c : category) : option (list value) :=
  match field_value init (relation_field c) with
  | Some v => iterate (js_or v (VArr []))
  | None => None
  end.

Section Children.
Variable net : network.
Variable headers : list (string * string).
Variable base : value.

(** The record a linked id contributes: its fetch answers with a 2xx
    status and a body that parses. *)
Definition kept_record (table id : value) : option value :=
  match net (child_request headers base table id) with
  | Responds r =>
      if ok r then
        match json r with
        | Normal record => Some record
        | Throw _ => None
        end
      else None
  | Rejects _ => None
  end.

(** A child fetch settles without throwing: the network answers, with any
    status, and a 2xx answer carries a body that parses. *)
Definition settles (table id : value) : bool :=
  match net (child_request headers base table id) with
  | Responds r =>
      if ok r then
        match json r with
        | Normal _ => true
        | Throw _ => false
        end
      else true
  | Rejects _ => false
  end.

(** A child fetch fails at HTTP level: the network answers with a status
    outside 200..299. *)
Definition fails_http (table id : value) : bool :=
  match net (child_request headers base table id) with
  | Responds r => negb (ok r)
  | Rejects _ => false
  end.

(** The id resolves to a non-empty knowledge text. *)
Definition resolves_nonempty (table : value) (xmlField : string) (id : value)
  : bool :=
  match kept_record table id with
  | Some record => truthy (xml_of xmlField record)
  | None => false
  end.

(** The texts a category collects from a list of ids. *)
Definition collected (table : value) (xmlField : string) (ids : list value)
  : list value :=
  List.filter truthy (map (xml_of xmlField) (omap (kept_record table) ids)).
End Children.

(** The line a scalar attribute of the initiator contributes. *)
Definition scalar_part (init : value) (k tag : string) : list string :=
  match field_value init k with
  | Some v =>
      if truthy v then
        ["    <" +:+ tag +:+ ">" +:+ to_string v +:+ "</" +:+ tag +:+ ">"]
      else []
  | None => []
  end.

Definition initiator_block (id : string) (init : value) : list string :=
  ["<bundle>"; "  <initiator id=" +:+ dquote +:+ id +:+ dquote +:+ ">"] ++
  scalar_part init "Goal" "goal" ++
  scalar_part init "Content Type" "contentType" ++
  scalar_part init "Output Type" "outputType" ++
  ["  </initiator>"].

(** A category container: nothing for an empty list, else the opening line,
    one line per text and the closing line. *)
Definition container (c : category) (texts : list value) : list string :=
  match texts with
  | [] => []
  | _ =>
      ["  <" +:+ container_tag c +:+ ">"] ++
      map (fun xml => "    " +:+ to_string xml) texts ++
      ["  </" +:+ container_tag c +:+ ">"]
  end.

(** The lines of the hydrated document, given the texts of each category. *)
Definition document_lines (id : string) (init : value)
  (texts : category -> list value) : list string :=
  initiator_block id init ++
  container Persona (texts Persona) ++
  container Domain (texts Domain) ++
  container Entity (texts Entity) ++
  container Reference (texts Reference) ++
  ["</bundle>"].

(** The texts every category collects, the counts reported for them and the
    child requests sent, given the ids of each category. *)
Definition category_texts (net : network) (env : gmap string string)
  (headers : list (string * string)) (base : value)
  (ids : category -> list value) (c : category) : list value :=
  collected net headers base (category_table env c) (knowledge_field c) (ids c).

Definition counts_of (texts : category -> list value) : linked_counts :=
  LinkedCounts (length (texts Persona)) (length (texts Domain))
               (length (texts Entity)) (length (texts Reference)).

Definition category_requests (env : gmap string string)
  (headers : list (string * string)) (base : value)
  (ids : category -> list value) (c : category) : list request :=
  map (child_request headers base (category_table env c)) (ids c).

Definition child_requests (env : gmap string string)
  (headers : list (string * string)) (base : value)
  (ids : category -> list value) : list request :=
  category_requests env headers base ids Persona ++
  category_requests env headers base ids Domain ++
  category_requests env headers base ids Entity ++
  category_requests env headers base ids Reference.

Definition ids_of (p d e r : list value) (c : category) : list value :=
  match c with
  | Persona => p
  | Domain => d
  | Entity => e
  | Reference => r
  end.

(** The initiator record a run reads: the fetch answers with a 2xx status
    and a body that parses. *)
Definition initiator_record (net : network) (env : gmap string string)
  (context : bundle_input) (headers : list (string * string)) (base : value)
  : option value :=
  match net (initiator_request env context headers base) with
  | Responds r =>
      if ok r then
        match json r with
        | Normal init => Some init
        | Throw _ => None
        end
      else None
  | Rejects _ => None
  end.

(** ** Vocabulary of the statements about the legacy bundle *)

(** The name of the prebuilt bundle field. *)
Definition bundle_field (env : gmap string string) : string :=
  to_string (js_or (env_read env "AIRTABLE_FIELD_XML_BUNDLE")
                   (VStr "BUNDLE of the XML BUNDLES")).

(** The string has a character that is not white space. *)
Definition has_visible_char (s : string) : bool :=
  existsb (fun c => negb (is_js_space c)) (chars s).

(** The value is a string with a character that is not white space. *)
Definition is_visible_string (v : value) : bool :=
  match v with
  | VStr s => has_visible_char s
  | _ => false
  end.

(** The value of a relation after [|| []]. *)
Definition relation_value (record : value) (c : category) : value :=
  js_or (default VUndef (field_value record (relation_field c))) (VArr []).

(** The relation is absent, falsy or an array. *)
Definition relation_is_array (record : value) (c : category) : bool :=
  match relation_value record c with
  | VArr _ => true
  | _ => false
  end.

(** The line the assembled mode writes for a relation: nothing for an empty
    array, else the ids as a [linkedIds] attribute. *)
Definition linked_line (c : category) (xs : value) : list string :=
  match xs with
  | VArr (x :: rest) =>
      ["  <" +:+ container_tag c +:+ " linkedIds=" +:+ dquote +:+
       join "," (map join_element (x :: rest)) +:+ dquote +:+ " />"]
  | _ => []
  end.

Definition assembled_lines (id : string) (record : value) : list string :=
  initiator_block id record ++
  linked_line Persona (relation_value record Persona) ++
  linked_line Domain (relation_value record Domain) ++
  linked_line Entity (relation_value record Entity) ++
  linked_line Reference (relation_value record Reference) ++
  ["</bundle>"].

(** ** Vocabulary of the statements about the guards and the webhook URL *)

(** The string starts with a slash. *)
Definition starts_with_slash (s : string) : bool :=
  match s with
  | String c _ => is_slash c
  | EmptyString => false
  end.

(** A run of [n] slashes. *)
Fixpoint slashes (n : nat) : string :=
  match n with
  | O => ""
  | S n' => String "/" (slashes n')
  end.

(** Two networks give the same answer to each request of a list. *)
Definition agree_on (sent : list request) (net1 net2 : network) : Prop :=
  Forall (fun req => net1 req = net2 req) sent.

(** ** Example stores *)

Module Examples.
Definition env : gmap string string :=
  {[ "AIRTABLE_PAT" := "patKEY"; "AIRTABLE_BASE_ID" := "app1" ]}.

Definition rec1 : bundle_input := BundleInput "rec1" None.

Definition record (id : string) (fields : list (string * value)) : value :=
  VObj {[ "id" := VStr id; "fields" := VObj (list_to_map fields) ]}.

Definition found (record : value) : fetch_outcome :=
  Responds (Response 200 "" (Normal record)).

Definition not_found : fetch_outcome :=
  Responds (Response 404 "NOT_FOUND"
              (Normal (VObj {[ "error" := VStr "NOT_FOUND" ]}))).

(** The store answers [o] at [url] and as [net] elsewhere. *)
Definition at_url (url : string) (o : fetch_outcome) (net : network)
  : network :=
  fun req => if bool_decide (req_url req = url) then o else net req.

Definition empty_store : network := fun _ => not_found.

Definition api : string := "https://api.airtable.com/v0/app1/".

(** [rec1] links personas [p1], [p2], [p3] and entity [e1]; [p2] has an
    empty knowledge text and [p3] does not exist. *)
Definition store : network :=
  at_url (api +:+ "Content%20Initiators/rec1")
    (found (record "rec1"
              [("Goal", VStr "Launch post");
               ("Personas", VArr [VStr "p1"; VStr "p2"; VStr "p3"]);
               ("Entity", VArr [VStr "e1"])])) $
  at_url (api +:+ "Personas/p1")
    (found (record "p1" [("XML Bundle", VStr "<persona>A</persona>")])) $
  at_url (api +:+ "Personas/p2")
    (found (record "p2" [("XML Bundle", VStr "")])) $
  at_url (api +:+ "Entity/e1")
    (found (record "e1" [("XML", VStr "<entity>B</entity>")])) $
  empty_store.

Definition rec1_fields : value :=
  record "rec1"
    [("Goal", VStr "Launch post");
     ("Personas", VArr [VStr "p1"; VStr "p2"; VStr "p3"]);
     ("Entity", VArr [VStr "e1"])].

Definition rec1_ids : category -> list value :=
  ids_of [VStr "p1"; VStr "p2"; VStr "p3"] [] [VStr "e1"] [].

Definition headers : list (string * string) :=
  [("Authorization", "Bearer patKEY"); ("Content-Type", "application/json")].

(** The same store, with the connection dropped while [p1] is fetched. *)
Definition store_p1_unreachable : network :=
  at_url (api +:+ "Personas/p1") (Rejects (Error "fetch failed")) store.

(** The same store, with an unrelated record changed. *)
Definition store_other_record_changed : network :=
  at_url (api +:+ "Personas/p9")
    (found (record "p9" [("XML Bundle", VStr "<persona>Z</persona>")])) store.

(** A store without [rec1]. *)
Definition store_without_rec1 : network := empty_store.

(** A store whose [rec1] carries the given prebuilt bundle field. *)
Definition rec1_with_bundle (bundle : value) : value :=
  record "rec1"
    [("Goal", VStr "Launch post");
     ("Personas", VArr [VStr "p1"; VStr "p2"]);
     ("BUNDLE of the XML BUNDLES", bundle)].

Definition store_with_bundle (bundle : value) : network :=
  at_url (api +:+ "Content%20Initiators/rec1")
    (found (rec1_with_bundle bundle)) empty_store.

(** An instance of the StringToNumber parameter for the examples, none of
    which compares a string with zero. *)
Definition never_positive : string -> bool := fun _ => false.
End Examples.

(** ** airtable-xml.ts, the write tools *)

(** [v[0]], with the conventions of [get_prop]; the first element of an
    array, the first character of a string. *)
Definition get_first (v : value) : option value :=
  match v with
  | VUndef | VNull => None
  | VArr items => Some (default VUndef (head items))
  | VStr s =>
      Some (match s with
            | String c _ => VStr (String c "")
            | EmptyString => VUndef
            end)
  | VObj props => Some (default VUndef (props !! "0"))
  | VBool _ | VNum _ => Some VUndef
  end.

Definition read_first (v : value) : prog value :=
  match get_first v with
  | Some x => Ret x
  | None =>
      Raise (type_error ("Cannot read properties of " +:+ to_string v +:+
                         " (reading '0')"))
  end.

(** [result.records[0][k]] *)
Definition first_record_prop (result : value) (k : string) : prog value :=
  let! records := read result "records" in
  let! first := read_first records in
  read first k.

(** The object the write tools return, by shape. *)
Inductive write_result : Type :=
| WriteSkipped (reason : string)
    (* { ok: false, skipped: true, reason } *)
| WriteHttpFailure (st : Z) (reason : string)
    (* { ok: false, status, reason } *)
| WriteFailed (error : string)
    (* { ok: false, error } *)
| Created (recordId fields : value)
    (* { ok: true, recordId, fields } *)
| Updated (recordId : string) (fields : value).
    (* { ok: true, updated: true, recordId, fields } *)

Record create_input : Type := CreateInput {
  create_baseId : option string;
  goal : string;
  contentType : option string;
  outputType : option string;
  personaSlugs : option (list string);
  domainSlugs : option (list string);
}.

(** [context.baseId || process.env.AIRTABLE_BASE_ID ||
     process.env.AIRTABLE_CONTENT_BASE_ID], for an input with an optional
    [baseId]. *)
Definition resolve_base_id (env : gmap string string) (baseId : option string)
  : value :=
  js_or (js_or (opt_value baseId) (env_read env "AIRTABLE_BASE_ID"))
        (env_read env "AIRTABLE_CONTENT_BASE_ID").

(** [`https://api.airtable.com/v0/${baseId}/${encodeURIComponent(table)}`] *)
Definition table_url (baseId table : value) : string :=
  "https://api.airtable.com/v0/" +:+ to_string baseId +:+ "/" +:+
  encodeURIComponent (to_string table).

(** [if (xs && xs.length > 0) fields[k] = xs.join(', ')] *)
Definition note_slugs (k : string) (xs : option (list string))
  (fields : gmap string value) : gmap string value :=
  match xs with
  | Some l =>
      if (0 <? length l)%nat then <[k := VStr (join ", " l)]> fields else fields
  | None => fields
  end.

(** [if (x) fields[k] = x] for an optional string [x]. *)
Definition set_if_given (k : string) (x : option string)
  (fields : gmap string value) : gmap string value :=
  if truthy (opt_value x) then <[k := opt_value x]> fields else fields.

(** The [fields] object [airtableCreateContentRequest] builds. *)
Definition create_fields (context : create_input) : gmap string value :=
  let fields := {[ "Goal" := VStr (goal context) ]} in
  let fields := set_if_given "Content Type" (contentType context) fields in
  let fields := set_if_given "Output Type" (outputType context) fields in
  (* Linking requires record IDs, not slugs: the slugs go to note fields *)
  let fields := note_slugs "Persona Slugs (Note)" (personaSlugs context) fields in
  note_slugs "Domain Slugs (Note)" (domainSlugs context) fields.

(** [fetch(url, { method, headers, body: JSON.stringify(payload) })] *)
Definition write_request (method url : string)
  (headers : list (string * string)) (payload : value) : request :=
  Request method url headers payload.

(** [airtableCreateContentRequest.execute] *)
Definition airtableCreateContentRequest (env : gmap string string)
  (context : create_input) : prog write_result :=
  match airtableHeadersOrNull env with
  | None => Ret (WriteSkipped "Airtable not configured (no PAT/API key)")
  | Some headers =>
      let base := resolve_base_id env (create_baseId context) in
      if negb (truthy base) then
        Ret (WriteSkipped "No Airtable Base ID configured")
      else
        let initiatorTable :=
          js_or (env_read env "AIRTABLE_TABLE_CONTENT_INITIATORS")
                (VStr "Content Initiators") in
        let fields := create_fields context in
        try_catch
          (let url := table_url base initiatorTable in
           let! res :=
             fetch (write_request "POST" url headers
                      (VObj {[ "records" := VArr [VObj {[ "fields" := VObj fields ]}];
                               "typecast" := VBool true ]})) in
           if negb (ok res) then Ret (WriteHttpFailure (status res) (text res))
           else
             let! result := res_json res in
             let! recordId := first_record_prop result "id" in
             let! fields' := first_record_prop result "fields" in
             Ret (Created recordId fields'))
          (fun error => Ret (WriteFailed (message error)))
  end.

Record update_input : Type := UpdateInput {
  update_baseId : option string;
  update_initiatorId : string;
  output : string;
  update_status : option string;
  metadata : option (gmap string value);
}.

Section Update.
(** [JSON.stringify], applied to the metadata object. *)
Variable JSON_stringify : value -> string.

(** The [fields] object [airtableUpdateContentOutput] builds. *)
Definition update_fields (context : update_input) : gmap string value :=
  let fields := {[ "Output" := VStr (output context) ]} in
  let fields := set_if_given "Status" (update_status context) fields in
  match metadata context with
  | Some m => <["Metadata (JSON)" := VStr (JSON_stringify (VObj m))]> fields
  | None => fields
  end.

(** [airtableUpdateContentOutput.execute] *)
Definition airtableUpdateContentOutput (env : gmap string string)
  (context : update_input) : prog write_result :=
  match airtableHeadersOrNull env with
  | None => Ret (WriteSkipped "Airtable not configured (no PAT/API key)")
  | Some headers =>
      let base := resolve_base_id env (update_baseId context) in
      if negb (truthy base) then
        Ret (WriteSkipped "No Airtable Base ID configured")
      else
        let initiatorTable :=
          js_or (env_read env "AIRTABLE_TABLE_CONTENT_INITIATORS")
                (VStr "Content Initiators") in
        let fields := update_fields context in
        try_catch
          (let url := table_url base initiatorTable in
           let! res :=
             fetch (write_request "PATCH" url headers
                      (VObj {[ "records" :=
                                 VArr [VObj {[ "id" := VStr (update_initiatorId context);
                                               "fields" := VObj fields ]}];
                               "typecast" := VBool true ]})) in
           if negb (ok res) then Ret (WriteHttpFailure (status res) (text res))
           else
             let! result := res_json res in
             let! fields' := first_record_prop result "fields" in
             Ret (Updated (update_initiatorId context) fields'))
          (fun error => Ret (WriteFailed (message error)))
  end.
End Update.

(** ** airtable-xml.ts and airtable.ts, the lookups by slug *)

(** [String.prototype.toLowerCase] on code units below 256: the letters A-Z
    and the capital letters of the Latin-1 supplement (U+00C0 to U+00DE
    without the multiplication sign) move up by 32. *)
Definition lower_unit (c : ascii) : ascii :=
  let n := Ascii.nat_of_ascii c in
  if (bool_decide (65 ≤ n ≤ 90) || bool_decide (192 ≤ n ≤ 214) ||
      bool_decide (216 ≤ n ≤ 222))%nat
  then Ascii.ascii_of_nat (n + 32)
  else c.

Fixpoint toLowerCase (s : string) : string :=
  match s with
  | EmptyString => EmptyString
  | String c s' => String (lower_unit c) (toLowerCase s')
  end.

(** [s.replace(/"/g, '\\"')]: a backslash before every double quote. *)
Fixpoint escape_quotes (s : string) : string :=
  match s with
  | EmptyString => EmptyString
  | String c s' =>
      if bool_decide (c = Ascii.ascii_of_nat 34) then
        String (Ascii.ascii_of_nat 92) (String c (escape_quotes s'))
      else String c (escape_quotes s')
  end.

(** [`LOWER({<column>})="${slug}"`] with
    [slug = context.slug.toLowerCase().replace(/"/g, '\\"')] *)
Definition slug_formula (column slug : string) : string :=
  "LOWER({" +:+ column +:+ "})=" +:+ dquote +:+
  escape_quotes (toLowerCase slug) +:+ dquote.

(** [v === 0] *)
Definition is_zero (v : value) : bool :=
  match v with
  | VNum n => n =? 0
  | _ => false
  end.

(** The object the lookups by slug return, by shape. *)
Inductive lookup_result : Type :=
| LookupSkipped (reason : string)
    (* { ok: false, skipped: true, reason } *)
| LookupHttpFailure (st : Z) (reason : string)
    (* { ok: false, status, reason } *)
| LookupFailed (error : string)
    (* { ok: false, error } *)
| NotFound (reason : string)
    (* { ok: false, reason } *)
| Found (slug : string) (xml name recordId : value)
    (* { ok: true, slug, xml, name, recordId } *)
| Records (records : value).
    (* { ok: true, records } *)

Record slug_input : Type := SlugInput {
  slug_baseId : option string;
  slug : string;
}.

(** The two lookups of airtable-xml.ts are the same code up to the table,
    the field and the noun of the message. *)
Inductive slug_kind : Type := PersonaSlug | DomainSlug.

Definition slug_table (env : gmap string string) (kind : slug_kind) : value :=
  match kind with
  | PersonaSlug => js_or (env_read env "AIRTABLE_TABLE_PERSONAS") (VStr "Personas")
  | DomainSlug =>
      js_or (env_read env "AIRTABLE_TABLE_DOMAINS") (VStr "Content Domains")
  end.

Definition slug_xml_field (env : gmap string string) (kind : slug_kind) : value :=
  match kind with
  | PersonaSlug =>
      js_or (env_read env "AIRTABLE_FIELD_PERSONA_XML") (VStr "XML Bundle")
  | DomainSlug =>
      js_or (env_read env "AIRTABLE_FIELD_DOMAIN_XML") (VStr "XML Bundle")
  end.

Definition slug_noun (kind : slug_kind) : string :=
  match kind with
  | PersonaSlug => "persona"
  | DomainSlug => "domain"
  end.

Record fetch_persona_input : Type := FetchPersonaInput {
  persona_baseId : option string;
  persona_table : string;
  persona_view : option string;
  persona_slug : string;
}.

Section Lookups.
(** The serialisation of [new URL(s)]; [None] when the constructor throws. *)
Variable new_URL : string -> option string.
(** The serialisation of a URL after [url.searchParams.set(k, v)]. *)
Variable search_set : string -> string -> string -> string.

Definition construct_url (s : string) : prog string :=
  match new_URL s with
  | Some url => Ret url
  | None => Raise (type_error "Invalid URL")
  end.

(** The body of the [try] block of [airtableGetPersonaContext] and
    [airtableGetDomainKnowledge]. *)
Definition lookup_body (kind : slug_kind) (env : gmap string string)
  (context : slug_input) (headers : list (string * string)) (base : value)
  : prog lookup_result :=
  let table := slug_table env kind in
  let xmlField := slug_xml_field env kind in
  let! url := construct_url (table_url base table) in
  let url :=
    search_set url "filterByFormula" (slug_formula "Slug" (slug context)) in
  let! res := fetch (get_request url headers) in
  if negb (ok res) then Ret (LookupHttpFailure (status res) (text res))
  else
    let! data := res_json res in
    let! v := read data "records" in
    let records := js_or v (VArr []) in
    let! len := read records "length" in
    if is_zero len then
      Ret (NotFound ("No " +:+ slug_noun kind +:+ " found with slug: " +:+
                     slug context))
    else
      let! found := read_first records in
      let! xml := field found (to_string xmlField) in
      let! name := field found "Name" in
      let! recordId := read found "id" in
      Ret (Found (slug context) (js_or xml (VStr "")) (js_or name (VStr ""))
                 recordId).

Definition lookup_by_slug (kind : slug_kind) (env : gmap string string)
  (context : slug_input) : prog lookup_result :=
  match airtableHeadersOrNull env with
  | None => Ret (LookupSkipped "Airtable not configured (no PAT/API key)")
  | Some headers =>
      let base := resolve_base_id env (slug_baseId context) in
      if negb (truthy base) then
        Ret (LookupSkipped "No Airtable Base ID configured")
      else
        try_catch (lookup_body kind env context headers base)
                  (fun error => Ret (LookupFailed (message error)))
  end.

(** [airtableGetPersonaContext.execute] *)
Definition airtableGetPersonaContext := lookup_by_slug PersonaSlug.

(** [airtableGetDomainKnowledge.execute] *)
Definition airtableGetDomainKnowledge := lookup_by_slug DomainSlug.

(** [airtableFetchPersona.execute] of airtable.ts *)
Definition airtableFetchPersona (env : gmap string string)
  (context : fetch_persona_input) : prog lookup_result :=
  let key := js_or (env_read env "AIRTABLE_API_KEY") (env_read env "AIRTABLE_PAT") in
  let base :=
    js_or (js_or (js_or (js_or (js_or (js_or
      (opt_value (persona_baseId context))
      (env_read env "AIRTABLE_BASE_ID"))
      (env_read env "AIRTABLE_CRM_BASE_ID"))
      (env_read env "AIRTABLE_CONTENT_HUB_BASE_ID"))
      (env_read env "AIRTABLE_AUTOMATION_BASE_ID"))
      (env_read env "AIRTABLE_SOCIAL_MEDIA_BASE_ID"))
      (env_read env "AIRTABLE_NEWSLETTER_BASE_ID") in
  if negb (truthy key) || negb (truthy base) then
    Ret (LookupSkipped "Airtable not configured (missing key or baseId)")
  else
    let apiBase :=
      js_or (env_read env "AIRTABLE_API_BASE_URL")
            (VStr "https://api.airtable.com/v0") in
    let! url :=
      construct_url (to_string apiBase +:+ "/" +:+ to_string base +:+ "/" +:+
                     encodeURIComponent (persona_table context)) in
    (* Case-insensitive match on {slug} *)
    let url :=
      search_set url "filterByFormula"
                 (slug_formula "slug" (persona_slug context)) in
    let url :=
      if truthy (opt_value (persona_view context)) then
        search_set url "view" (to_string (opt_value (persona_view context)))
      else url in
    let! r :=
      fetch (get_request url [("Authorization", "Bearer " +:+ to_string key)]) in
    if negb (ok r) then Ret (LookupHttpFailure (status r) (text r))
    else
      let! json := res_json r in
      let! records := read json "records" in
      (* json.records ?? [] *)
      Ret (Records (match records with
                    | VUndef | VNull => VArr []
                    | _ => records
                    end)).
End Lookups.

(** ** n8n.ts, first version *)

(** [n8nTrigger.execute] before [joinWebhookUrl] was introduced: the URL is
    [`${process.env.N8N_WEBHOOK_BASE}/${context.scenario}`]. *)
Definition n8nTrigger_legacy (env : gmap string string) (scenario : string)
  (payload : value) : prog tool_result :=
  if negb (truthy (env_read env "N8N_WEBHOOK_BASE")) then
    Ret (Skipped "N8N_WEBHOOK_BASE not set")
  else
    let webhookUrl :=
      to_string (env_read env "N8N_WEBHOOK_BASE") +:+ "/" +:+ scenario in
    let! response :=
      fetch (post_request webhookUrl [("Content-Type", "application/json")]
                          payload) in
    if negb (ok response) then
      Ret (HttpFailure (status response) (text response))
    else
      try_catch (let! data := res_json response in Ret (WebhookData data))
                (fun _ => Ret (WebhookData VNull)).

(** ** agents/research/src/agent.ts *)

(** The provider a model is requested from: [openai(id)] or
    [anthropic(id)]. *)
Inductive provider : Type := OpenAI | Anthropic.

Definition pickModel (env : gmap string string) : provider * string :=
  let vendor :=
    toLowerCase (to_string (js_or (env_read env "LLM_VENDOR") (VStr ""))) in
  (* process.env.MODEL?.trim() *)
  let modelId :=
    match env !! "MODEL" with
    | Some s => VStr (trim s)
    | None => VUndef
    end in
  if bool_decide (vendor = "openai") then
    (OpenAI, to_string (js_or modelId (VStr "gpt-4o")))
  else if bool_decide (vendor = "anthropic") then
    (Anthropic, to_string (js_or modelId (VStr "claude-3-5-sonnet-20240620")))
  else
    (* default to OpenAI if not specified *)
    (OpenAI, to_string (js_or modelId (VStr "gpt-4o"))).

(** ** web.ts, the Tavily search (unnamed/part_005) *)

(** [a ?? b] *)
Definition js_nullish_or (a b : value) : value :=
  match a with
  | VUndef | VNull => b
  | _ => a
  end.

(** [items.map(f)] for a callback that may throw: the elements are visited
    in order and the first exception ends the loop. *)
Fixpoint map_items (f : value -> prog value) (items : list value)
  : prog (list value) :=
  match items with
  | [] => Ret []
  | x :: rest =>
      let! y := f x in
      let! ys := map_items f rest in
      Ret (y :: ys)
  end.

Module Tavily.
Inductive search_depth : Type := Basic | Advanced.

Definition depth_name (d : search_depth) : string :=
  match d with
  | Basic => "basic"
  | Advanced => "advanced"
  end.

(** The validated input; [maxResults] is taken to be an integer. *)
Record search_input : Type := SearchInput {
  query : string;
  maxResults : option Z;
  searchDepth : option search_depth;
}.

(** The object the search returns, by shape. *)
Inductive search_result : Type :=
| NotEnabled (query note : string)
    (* { results: [], query, note } *)
| Searched (query : string) (answer : value) (results citations : list value).
    (* { query, answer, results, citations, source: 'tavily' } *)

(** The object handed to [JSON.stringify] for the request body. *)
Definition search_payload (tavilyKey : value) (context : search_input) : value :=
  VObj {[ "api_key" := tavilyKey;
          "query" := VStr (query context);
          "search_depth" := VStr (depth_name (default Advanced (searchDepth context)));
          "max_results" :=
            VNum (Z.max 1 (Z.min (default 5 (maxResults context)) 10));
          "include_answer" := VBool true;
          "include_images" := VBool false;
          "include_raw_content" := VBool true ]}.

(** The callback of the first [map]:
    [{ url: r.url, title: r.title, snippet: r.content, score: r.score ?? null }] *)
Definition search_item (r : value) : prog value :=
  let! url := read r "url" in
  let! title := read r "title" in
  let! snippet := read r "content" in
  let! score := read r "score" in
  Ret (VObj {[ "url" := url; "title" := title; "snippet" := snippet;
               "score" := js_nullish_or score VNull ]}).

Section Search.
(** The TypeError of calling [map] on a value that has no such method; its
    message depends on the engine. *)
Variable not_a_function : value -> js_error.

(** The body of the [try] block. *)
Definition search_body (tavilyKey : value) (context : search_input)
  : prog search_result :=
  let! resp :=
    fetch (post_request "https://api.tavily.com/search"
                        [("Content-Type", "application/json")]
                        (search_payload tavilyKey context)) in
  if negb (ok resp) then
    Raise (Error ("Tavily error: " +:+ pretty (status resp) +:+ " " +:+
                  text resp))
  else
    let! data := res_json resp in
    let listed := js_nullish_or (get_opt data "results") (VArr []) in
    let! results :=
      match listed with
      | VArr items => map_items search_item items
      | _ => Raise (not_a_function listed)
      end in
    Ret (Searched (query context)
                  (js_nullish_or (get_opt data "answer") VNull)
                  results
                  (map (fun r => get_opt r "url") results)).

(** [webSearch.execute] of the Tavily-backed web.ts; the [console.error] of
    the handler is not a request and is left out. *)
Definition webSearch (env : gmap string string) (context : search_input)
  : prog search_result :=
  let tavilyKey := env_read env "TAVILY_API_KEY" in
  if negb (truthy tavilyKey) then
    Ret (NotEnabled (query context)
           "Set TAVILY_API_KEY in .env to enable web search (Tavily REST API).")
  else
    try_catch (search_body tavilyKey context)
              (fun error =>
                 Raise (Error ("Web search failed: " +:+ message error))).
End Search.
End Tavily.

(** ** airtable.ts, the bulk tools (unnamed/part_004) *)

(** The own enumerable properties an object spread [...v] copies: those of
    an object, the indices of an array or of a string, none otherwise. *)
Definition spread (v : value) : gmap string value :=
  match v with
  | VObj props => props
  | VArr items => list_to_map (imap (fun i x => (pretty i, x)) items)
  | VStr s =>
      list_to_map (imap (fun i c => (pretty i, VStr (String c ""))) (chars s))
  | VUndef | VNull | VBool _ | VNum _ => ∅
  end.

Module Bulk.
(** The object the bulk tools return, by shape. *)
Inductive bulk_result : Type :=
| BulkSkipped (reason : string)
    (* { ok: false, skipped: true, reason } *)
| BulkHttpFailure (st : Z) (reason : string)
    (* { ok: false, status, reason } *)
| BulkDone (props : gmap string value).
    (* { ok: true, ...data } *)

Record create_input : Type := CreateInput {
  create_baseId : string;
  create_table : string;
  create_records : list (gmap string value);
  create_typecast : option bool;
}.

Record update_input : Type := UpdateInput {
  update_baseId : string;
  update_table : string;
  updates : list (string * gmap string value);
  update_typecast : option bool;
}.

(** [{ records: records.map(fields => ({ fields })), typecast }] *)
Definition create_payload (context : create_input) : value :=
  VObj {[ "records" :=
            VArr (map (fun fields => VObj {[ "fields" := VObj fields ]})
                      (create_records context));
          "typecast" := VBool (default true (create_typecast context)) ]}.

(** [{ records: updates, typecast }] *)
Definition update_payload (context : update_input) : value :=
  VObj {[ "records" :=
            VArr (map (fun u => VObj {[ "id" := VStr (fst u);
                                        "fields" := VObj (snd u) ]})
                      (updates context));
          "typecast" := VBool (default true (update_typecast context)) ]}.

(** The statements [airtableCreate] and [airtableUpdate] share after the
    guard: the request and the result built from the answer. *)
Definition send (method : string) (url : string)
  (headers : list (string * string)) (payload : value) : prog bulk_result :=
  let! res := fetch (Request method url headers payload) in
  if negb (ok res) then Ret (BulkHttpFailure (status res) (text res))
  else
    let! data := res_json res in
    Ret (BulkDone (spread data ∪ {[ "ok" := VBool true ]})).

(** [airtableCreate.execute] *)
Definition airtableCreate (env : gmap string string) (context : create_input)
  : prog bulk_result :=
  match airtableHeadersOrNull env with
  | None => Ret (BulkSkipped "Airtable not configured (no PAT/API key)")
  | Some headers =>
      send "POST"
           (table_url (VStr (create_baseId context)) (VStr (create_table context)))
           headers (create_payload context)
  end.

(** [airtableUpdate.execute] *)
Definition airtableUpdate (env : gmap string string) (context : update_input)
  : prog bulk_result :=
  match airtableHeadersOrNull env with
  | None => Ret (BulkSkipped "Airtable not configured (no PAT/API key)")
  | Some headers =>
      send "PATCH"
           (table_url (VStr (update_baseId context)) (VStr (update_table context)))
           headers (update_payload context)
  end.
End Bulk.

(** ** airtable.ts, the query tool and the later persona lookup
       (unnamed/part_004) *)

(** [URLSearchParams.prototype.set]: the first pair named [k] takes the
    value and the later pairs of that name are removed; without such a pair
    one is appended. *)
Fixpoint params_set (k v : string) (params : list (string * string))
  : list (string * string) :=
  match params with
  | [] => [(k, v)]
  | (k', v') :: rest =>
      if bool_decide (k' = k) then
        (k, v) :: List.filter (fun p => negb (bool_decide (fst p = k))) rest
      else (k', v') :: params_set k v rest
  end.

(** [URLSearchParams.prototype.append] *)
Definition params_append (k v : string) (params : list (string * string))
  : list (string * string) :=
  params ++ [(k, v)].

Module Query.
Inductive direction : Type := Asc | Desc.

Definition direction_name (d : direction) : string :=
  match d with
  | Asc => "asc"
  | Desc => "desc"
  end.

Record sort_key : Type := SortKey {
  sort_field : string;
  sort_direction : option direction;
}.

(** The validated input; [maxRecords] and [pageSize] are taken to be
    integers. *)
Record query_input : Type := QueryInput {
  query_baseId : string;
  query_table : string;
  query_filterByFormula : option string;
  query_view : option string;
  query_maxRecords : option Z;
  query_pageSize : option Z;
  query_fields : option (list string);
  query_sort : option (list sort_key);
}.

(** The object the query tool returns, by shape. *)
Inductive query_result : Type :=
| QuerySkipped (reason : string)
    (* { ok: false, skipped: true, reason } *)
| QueryHttpFailure (st : Z) (reason : string)
    (* { ok: false, status, reason } *)
| QueryRecords (baseId table : string) (records : value).
    (* { ok: true, baseId, table, records } *)

(** The callback of [(sort ?? []).forEach((s, i) => ...)]. *)
Definition set_sort (params : list (string * string)) (entry : nat * sort_key)
  : list (string * string) :=
  let '(i, s) := entry in
  let params :=
    params_set ("sort[" +:+ pretty i +:+ "][field]") (sort_field s) params in
  match sort_direction s with
  | Some d =>
      params_set ("sort[" +:+ pretty i +:+ "][direction]") (direction_name d)
                 params
  | None => params
  end.

(** The search parameters the tool builds, in order. *)
Definition query_params (context : query_input) : list (string * string) :=
  let maxRecords := VNum (default 100 (query_maxRecords context)) in
  let pageSize := VNum (default 50 (query_pageSize context)) in
  let params := [] in
  let params :=
    if truthy (opt_value (query_filterByFormula context)) then
      params_set "filterByFormula"
                 (to_string (opt_value (query_filterByFormula context))) params
    else params in
  let params :=
    if truthy (opt_value (query_view context)) then
      params_set "view" (to_string (opt_value (query_view context))) params
    else params in
  let params :=
    if truthy maxRecords then
      params_set "maxRecords" (to_string maxRecords) params
    else params in
  let params :=
    if truthy pageSize then params_set "pageSize" (to_string pageSize) params
    else params in
  let params :=
    fold_left (fun params f => params_append "fields[]" f params)
              (default [] (query_fields context)) params in
  fold_left set_sort (imap pair (default [] (query_sort context))) params.

Section Tools.
(** [params.toString()], the serialisation of the pairs as a query string. *)
Variable params_toString : list (string * string) -> string.
(** The serialisation of [new URL(s)]; [None] when the constructor throws. *)
Variable new_URL : string -> option string.
(** The serialisation of a URL after [url.searchParams.set(k, v)]. *)
Variable search_set : string -> string -> string -> string.

(** [airtableQuery.execute] *)
Definition airtableQuery (env : gmap string string) (context : query_input)
  : prog query_result :=
  match airtableHeadersOrNull env with
  | None => Ret (QuerySkipped "Airtable not configured (no PAT/API key)")
  | Some headers =>
      let url :=
        table_url (VStr (query_baseId context)) (VStr (query_table context)) +:+
        "?" +:+ params_toString (query_params context) in
      let! res := fetch (get_request url headers) in
      if negb (ok res) then Ret (QueryHttpFailure (status res) (text res))
      else
        let! data := res_json res in
        let! records := read data "records" in
        Ret (QueryRecords (query_baseId context) (query_table context)
                          (js_nullish_or records (VArr [])))
  end.

(** [airtableFetchPersona.execute] as it stands beside the query tool: the
    token comes from [airtableHeadersOrNull] and the formula names the
    column [Slug]. *)
Definition airtableFetchPersona (env : gmap string string)
  (context : fetch_persona_input) : prog lookup_result :=
  let headers := airtableHeadersOrNull env in
  let base :=
    js_or (js_or (js_or (js_or (js_or (js_or
      (opt_value (persona_baseId context))
      (env_read env "AIRTABLE_BASE_ID"))
      (env_read env "AIRTABLE_CRM_BASE_ID"))
      (env_read env "AIRTABLE_CONTENT_HUB_BASE_ID"))
      (env_read env "AIRTABLE_AUTOMATION_BASE_ID"))
      (env_read env "AIRTABLE_SOCIAL_MEDIA_BASE_ID"))
      (env_read env "AIRTABLE_NEWSLETTER_BASE_ID") in
  match headers with
  | None =>
      Ret (LookupSkipped "Airtable not configured (missing key or baseId)")
  | Some headers =>
      if negb (truthy base) then
        Ret (LookupSkipped "Airtable not configured (missing key or baseId)")
      else
        let apiBase :=
          js_or (env_read env "AIRTABLE_API_BASE_URL")
                (VStr "https://api.airtable.com/v0") in
        let! url :=
          construct_url new_URL
            (to_string apiBase +:+ "/" +:+ to_string base +:+ "/" +:+
             encodeURIComponent (persona_table context)) in
        (* Case-insensitive match on {Slug} *)
        let url :=
          search_set url "filterByFormula"
                     (slug_formula "Slug" (persona_slug context)) in
        let url :=
          if truthy (opt_value (persona_view context)) then
            search_set url "view" (to_string (opt_value (persona_view context)))
          else url in
        let! r := fetch (get_request url headers) in
        if negb (ok r) then Ret (LookupHttpFailure (status r) (text r))
        else
          let! json := res_json r in
          let! records := read json "records" in
          Ret (Records (js_nullish_or records (VArr [])))
  end.
End Tools.
End Query.

(** ** Vocabulary of the statements about configuration and requests *)

(** The first candidate that is set and not the empty string: what a chain
    [a || b || c] of optional strings selects when it selects a usable
    value. *)
Fixpoint first_nonempty (candidates : list (option string)) : option string :=
  match candidates with
  | [] => None
  | Some s :: rest => if str_nonempty s then Some s else first_nonempty rest
  | None :: rest => first_nonempty rest
  end.

(** The token candidates of [airtableHeadersOrNull], in the order tried. *)
Definition token_candidates (env : gmap string string) : list (option string) :=
  [env !! "AIRTABLE_PAT"; env !! "AIRTABLE_API_KEY"; env !! "AIRTABLE_TOKEN"].

(** The base id candidates of the bundle tools, in the order tried. *)
Definition base_candidates (env : gmap string string) (context : bundle_input)
  : list (option string) :=
  [baseId context; env !! "AIRTABLE_BASE_ID"; env !! "AIRTABLE_CONTENT_BASE_ID"].

(** The headers built from a token. *)
Definition bearer_headers (token : string) : list (string * string) :=
  [("Authorization", "Bearer " +:+ token); ("Content-Type", "application/json")].

(** The program sends nothing before it completes. *)
Definition no_fetch {A : Type} (m : prog A) : Prop :=
  match m with
  | Ret _ | Raise _ => True
  | Fetch _ _ => False
  end.

(** The error a child fetch throws: the rejection of the fetch, or the error
    of [json()] on a 2xx answer. *)
Definition child_error (net : network) (headers : list (string * string))
  (base table id : value) : option js_error :=
  match net (child_request headers base table id) with
  | Rejects e => Some e
  | Responds r =>
      if ok r then
        match json r with
        | Throw e => Some e
        | Normal _ => None
        end
      else None
  end.

(** [c1] is fetched before [c2]. *)
Definition precedes (c1 c2 : category) : bool :=
  match c1, c2 with
  | Persona, (Domain | Entity | Reference) => true
  | Domain, (Entity | Reference) => true
  | Entity, Reference => true
  | _, _ => false
  end.

(** The ids fetched when the run stops in category [c] after the ids
    [reached]: all ids of the earlier categories, [reached], and nothing of
    the later categories. *)
Definition ids_until (ids : category -> list value) (c : category)
  (reached : list value) (c' : category) : list value :=
  if precedes c' c then ids c'
  else if precedes c c' then []
  else reached.

(** The text a linked id contributes once its record is kept. *)
Definition text_of (net : network) (headers : list (string * string))
  (base table : value) (xmlField : string) (id : value) : value :=
  xml_of xmlField (default VUndef (kept_record net headers base table id)).

(** The completion is a returned [skipped] result. *)
Definition completion_skipped (c : completion tool_result) : bool :=
  match c with
  | Normal (Skipped _) => true
  | _ => false
  end.

(** ** Vocabulary of the statements about URLs and the SQL bridge *)

(** A character [encodeURIComponent] can produce: an unreserved character or
    the percent sign. *)
Definition url_segment_char (c : ascii) : bool :=
  uri_unreserved c || bool_decide (c = "%"%char).

(** The headers of the SQL bridge: the content type, then the bearer key
    when one is configured. *)
Definition mindsdb_headers (env : gmap string string) : list (string * string) :=
  [("Content-Type", "application/json")] ++
  match first_nonempty [env !! "MINDSDB_KEY"] with
  | Some key => [("Authorization", "Bearer " +:+ key)]
  | None => []
  end.

(** The base id candidates of a tool with an optional [baseId] input. *)
Definition base_id_candidates (env : gmap string string)
  (baseId : option string) : list (option string) :=
  [baseId; env !! "AIRTABLE_BASE_ID"; env !! "AIRTABLE_CONTENT_BASE_ID"].

(** The URL of the initiators table. *)
Definition initiators_url (env : gmap string string) (base : string) : string :=
  table_url (VStr base)
    (js_or (env_read env "AIRTABLE_TABLE_CONTENT_INITIATORS")
           (VStr "Content Initiators")).

(** The payload of the create tool. *)
Definition create_payload (context : create_input) : value :=
  VObj {[ "records" := VArr [VObj {[ "fields" := VObj (create_fields context) ]}];
          "typecast" := VBool true ]}.

(** The payload of the update tool. *)
Definition update_payload (JSON_stringify : value -> string)
  (context : update_input) : value :=
  VObj {[ "records" :=
            VArr [VObj {[ "id" := VStr (update_initiatorId context);
                          "fields" := VObj (update_fields JSON_stringify context) ]}];
          "typecast" := VBool true ]}.

(** Two completions of a lookup by slug that differ at most in the slug
    they echo. *)
Definition same_up_to_slug (c1 c2 : completion lookup_result) : Prop :=
  match c1, c2 with
  | Normal (Found _ xml1 name1 id1), Normal (Found _ xml2 name2 id2) =>
      xml1 = xml2 /\ name1 = name2 /\ id1 = id2
  | Normal (NotFound _), Normal (NotFound _) => True
  | _, _ => c1 = c2
  end.

(** The key candidates of [airtableFetchPersona], in the order tried. *)
Definition fetch_persona_keys (env : gmap string string) : list (option string) :=
  [env !! "AIRTABLE_API_KEY"; env !! "AIRTABLE_PAT"].

(** The base id candidates of [airtableFetchPersona], in the order tried. *)
Definition fetch_persona_bases (env : gmap string string)
  (context : fetch_persona_input) : list (option string) :=
  [persona_baseId context;
   env !! "AIRTABLE_BASE_ID";
   env !! "AIRTABLE_CRM_BASE_ID";
   env !! "AIRTABLE_CONTENT_HUB_BASE_ID";
   env !! "AIRTABLE_AUTOMATION_BASE_ID";
   env !! "AIRTABLE_SOCIAL_MEDIA_BASE_ID";
   env !! "AIRTABLE_NEWSLETTER_BASE_ID"].

(** The string handed to [new URL] by [airtableFetchPersona]. *)
Definition fetch_persona_url (env : gmap string string)
  (context : fetch_persona_input) (base : string) : string :=
  to_string (js_or (env_read env "AIRTABLE_API_BASE_URL")
                   (VStr "https://api.airtable.com/v0")) +:+ "/" +:+
  base +:+ "/" +:+ encodeURIComponent (persona_table context).

(** [json.records ?? []] *)
Definition records_or_empty (records : value) : value :=
  match records with
  | VUndef | VNull => VArr []
  | _ => records
  end.

(** The request of [airtableFetchPersona] for a key and a parsed URL. *)
Definition fetch_persona_request (search_set : string -> string -> string -> string)
  (context : fetch_persona_input) (key url : string) : request :=
  let url :=
    search_set url "filterByFormula"
               (slug_formula "slug" (persona_slug context)) in
  get_request
    (if truthy (opt_value (persona_view context)) then
       search_set url "view" (to_string (opt_value (persona_view context)))
     else url)
    [("Authorization", "Bearer " +:+ key)].

(** The request of the Tavily search. *)
Definition tavily_request (env : gmap string string)
  (context : Tavily.search_input) : request :=
  post_request "https://api.tavily.com/search"
               [("Content-Type", "application/json")]
               (Tavily.search_payload (env_read env "TAVILY_API_KEY") context).

(** The entry of [results] built from an item of the answer that is an
    object. *)
Definition tavily_entry (r : value) : value :=
  VObj {[ "url" := get_opt r "url"; "title" := get_opt r "title";
          "snippet" := get_opt r "content";
          "score" := js_nullish_or (get_opt r "score") VNull ]}.

(** [v] is neither [null] nor [undefined]. *)
Definition not_nullish (v : value) : bool :=
  match v with
  | VUndef | VNull => false
  | _ => true
  end.

(** A call of one of the two bulk tools. *)
Inductive bulk_call : Type :=
| CreateCall (context : Bulk.create_input)
| UpdateCall (context : Bulk.update_input).

Definition bulk_execute (env : gmap string string) (call : bulk_call)
  : prog Bulk.bulk_result :=
  match call with
  | CreateCall context => Bulk.airtableCreate env context
  | UpdateCall context => Bulk.airtableUpdate env context
  end.

(** The request of a bulk call. *)
Definition bulk_request (headers : list (string * string)) (call : bulk_call)
  : request :=
  match call with
  | CreateCall context =>
      Request "POST"
              (table_url (VStr (Bulk.create_baseId context))
                         (VStr (Bulk.create_table context)))
              headers (Bulk.create_payload context)
  | UpdateCall context =>
      Request "PATCH"
              (table_url (VStr (Bulk.update_baseId context))
                         (VStr (Bulk.update_table context)))
              headers (Bulk.update_payload context)
  end.

(** ** Vocabulary of the statement about the guards *)

(** The object a tool returned, whichever tool it was. *)
Inductive returned : Type :=
| OfTool (r : tool_result)
| OfWrite (r : write_result)
| OfLookup (r : lookup_result)
| OfQuery (r : Query.query_result)
| OfBulk (r : Bulk.bulk_result)
| OfSearch (r : Tavily.search_result).

(** The reason of a returned [{ ok: false, skipped: true, reason }]. *)
Definition skipped_reason (r : returned) : option string :=
  match r with
  | OfTool (Skipped reason) | OfWrite (WriteSkipped reason)
  | OfLookup (LookupSkipped reason) | OfQuery (Query.QuerySkipped reason)
  | OfBulk (Bulk.BulkSkipped reason) => Some reason
  | _ => None
  end.

(** A tool's program, with the returned object tagged by its tool family. *)
Definition returning {A : Type} (tag : A -> returned) (m : prog A)
  : prog returned :=
  let! r := m in Ret (tag r).

(** An invocation of one of the integration-backed tools: the six tools of
    airtable-xml.ts, the four tools of the later airtable.ts, the persona
    lookup of airtable.ts, the SQL bridge, the two versions of the webhook
    trigger and the two versions of web search. *)
Inductive tool_call : Type :=
| CallHydrate (context : bundle_input)
| CallBundle (context : bundle_input)
| CallCreate (context : create_input)
| CallUpdate (context : update_input)
| CallPersona (context : slug_input)
| CallDomain (context : slug_input)
| CallQuery (context : Query.query_input)
| CallBulkCreate (context : Bulk.create_input)
| CallBulkUpdate (context : Bulk.update_input)
| CallFetchPersonaLater (context : fetch_persona_input)
| CallFetchPersona (context : fetch_persona_input)
| CallSql (sql : string)
| CallWebhook (scenario : string) (payload : value)
| CallWebhookFirst (scenario : string) (payload : value)
| CallSearch (query : string)
| CallTavilySearch (context : Tavily.search_input).

Section Guards.
Variable string_gt_zero : string -> bool.
Variable JSON_stringify : value -> string.
Variable new_URL : string -> option string.
Variable search_set : string -> string -> string -> string.
Variable params_toString : list (string * string) -> string.
Variable not_a_function : value -> js_error.

Definition execute (env : gmap string string) (call : tool_call)
  : prog returned :=
  match call with
  | CallHydrate context =>
      returning OfTool (airtableGetHydratedContentContext env context)
  | CallBundle context =>
      returning OfTool (airtableGetContentBundle string_gt_zero env context)
  | CallCreate context =>
      returning OfWrite (airtableCreateContentRequest env context)
  | CallUpdate context =>
      returning OfWrite (airtableUpdateContentOutput JSON_stringify env context)
  | CallPersona context =>
      returning OfLookup
        (airtableGetPersonaContext new_URL search_set env context)
  | CallDomain context =>
      returning OfLookup
        (airtableGetDomainKnowledge new_URL search_set env context)
  | CallQuery context =>
      returning OfQuery (Query.airtableQuery params_toString env context)
  | CallBulkCreate context => returning OfBulk (Bulk.airtableCreate env context)
  | CallBulkUpdate context => returning OfBulk (Bulk.airtableUpdate env context)
  | CallFetchPersonaLater context =>
      returning OfLookup
        (Query.airtableFetchPersona new_URL search_set env context)
  | CallFetchPersona context =>
      returning OfLookup (airtableFetchPersona new_URL search_set env context)
  | CallSql sql => returning OfTool (mindsdbQuery env sql)
  | CallWebhook scenario payload =>
      returning OfTool (n8nTrigger env scenario payload)
  | CallWebhookFirst scenario payload =>
      returning OfTool (n8nTrigger_legacy env scenario payload)
  | CallSearch query => returning OfTool (webSearch env query)
  | CallTavilySearch context =>
      returning OfSearch (Tavily.webSearch not_a_function env context)
  end.
End Guards.

(** The configuration keys a tool reads before its first request; the
    Airtable tools that go through [airtableHeadersOrNull] accept a token
    under any of three names, the persona lookup of airtable.ts under two. *)
Definition required_keys (call : tool_call) : list string :=
  match call with
  | CallHydrate _ | CallBundle _ | CallCreate _ | CallUpdate _
  | CallPersona _ | CallDomain _ | CallQuery _ | CallBulkCreate _
  | CallBulkUpdate _ | CallFetchPersonaLater _ =>
      ["AIRTABLE_PAT"; "AIRTABLE_API_KEY"; "AIRTABLE_TOKEN"]
  | CallFetchPersona _ => ["AIRTABLE_API_KEY"; "AIRTABLE_PAT"]
  | CallSql _ => ["MINDSDB_URL"]
  | CallWebhook _ _ | CallWebhookFirst _ _ => ["N8N_WEBHOOK_BASE"]
  | CallSearch _ => ["BROWSERBASE_API_KEY"]
  | CallTavilySearch _ => ["TAVILY_API_KEY"]
  end.

(** None of the keys the tool needs is set. *)
Definition unconfigured (env : gmap string string) (call : tool_call) : bool :=
  forallb (fun k => bool_decide (env !! k = None)) (required_keys call).

(** The tables the hydrate tool reads. *)
Definition hydrate_tables (env : gmap string string) : list value :=
  [js_or (env_read env "AIRTABLE_TABLE_CONTENT_INITIATORS")
         (VStr "Content Initiators");
   category_table env Persona; category_table env Domain;
   category_table env Entity; category_table env Reference].

(** A read of one record: a GET without body, with the given headers, of
    the record URL of the base, one of the tables and some id. *)
Definition is_record_read (headers : list (string * string)) (base : value)
  (tables : list value) (req : request) : Prop :=
  req_method req = "GET" /\ req_headers req = headers /\
  req_body req = VUndef /\
  exists table id, table ∈ tables /\ req_url req = record_url base table id.

(** ** Further example stores *)

Module Cases.
(** [rec2] has a goal and no relation. *)
Definition rec2 : bundle_input := BundleInput "rec2" None.

Definition rec2_fields : value :=
  Examples.record "rec2" [("Goal", VStr "Plain post")].

(** [rec3] is answered with a body that has no [fields]. *)
Definition rec3 : bundle_input := BundleInput "rec3" None.

Definition rec3_body : value := VObj {[ "id" := VStr "rec3" ]}.

Definition store : network :=
  Examples.at_url (Examples.api +:+ "Content%20Initiators/rec2")
    (Examples.found rec2_fields) $
  Examples.at_url (Examples.api +:+ "Content%20Initiators/rec3")
    (Examples.found rec3_body) $
  Examples.store.

(** The store of the examples, with the connection dropped while persona
    [p2] is fetched. *)
Definition store_p2_unreachable : network :=
  Examples.at_url (Examples.api +:+ "Personas/p2")
    (Rejects (Error "socket hang up")) Examples.store.

(** The SQL bridge configured without key, and a bridge that answers two
    rows. *)
Definition sql_env : gmap string string :=
  {[ "MINDSDB_URL" := "http://mindsdb:47334" ]}.

Definition sql_rows : value := VArr [VArr [VNum 1]; VArr [VNum 2]].

Definition sql_store : network :=
  fun _ => Responds
             (Response 200 ""
                (Normal (VObj {[ "data" := sql_rows;
                                 "column_names" := VArr [VStr "n"] ]}))).

(** A request for a blog post in the voice of two personas. *)
Definition blog_request : create_input :=
  CreateInput None "Announce the launch" (Some "blog") (Some "")
              (Some ["nurse-educator"; "recruiter"]) (Some []).

(** A store that creates the record [recNEW]. *)
Definition creating_store : network :=
  fun _ => Responds
             (Response 200 ""
                (Normal (VObj {[ "records" :=
                                   VArr [VObj {[ "id" := VStr "recNEW";
                                                 "fields" := VObj {[ "Goal" := VStr "Announce the launch" ]} ]}] ]}))).

(** A store that answers 2xx without any record. *)
Definition store_without_records : network :=
  fun _ => Responds (Response 200 "" (Normal (VObj {[ "records" := VArr [] ]}))).

(** A write-back of generated text. *)
Definition write_back : update_input :=
  UpdateInput None "rec1" "Generated text" (Some "Generated") None.

(** An instance of [JSON.stringify] for the examples, none of which has
    metadata. *)
Definition no_metadata : value -> string := fun _ => "{}".

(** Instances of the URL parameters for the examples: every string is
    taken as a URL and a search parameter is appended after a question
    mark. *)
Definition any_url : string -> option string := Some.

Definition append_param (url k v : string) : string :=
  url +:+ "?" +:+ k +:+ "=" +:+ v.

(** A store with two personas for every slug. *)
Definition persona_store : network :=
  fun _ => Responds
             (Response 200 ""
                (Normal (VObj {[ "records" :=
                                   VArr [Examples.record "p1"
                                           [("XML Bundle", VStr "<persona>A</persona>");
                                            ("Name", VStr "Nurse educator")];
                                         Examples.record "p2"
                                           [("XML Bundle", VStr "<persona>B</persona>")]] ]}))).

(** An environment with AIRTABLE_TOKEN as its only credential. *)
Definition env_with_token_only : gmap string string :=
  {[ "AIRTABLE_TOKEN" := "tokKEY"; "AIRTABLE_BASE_ID" := "app1" ]}.

(** An environment with both a PAT and an API key. *)
Definition env_with_two_keys : gmap string string :=
  {[ "AIRTABLE_PAT" := "patKEY"; "AIRTABLE_API_KEY" := "apiKEY";
     "AIRTABLE_BASE_ID" := "app1" ]}.

(** A search service with two results, the second without a score. *)
Definition search_env : gmap string string := {[ "TAVILY_API_KEY" := "tvly" ]}.

Definition search_service : network :=
  fun _ => Responds
             (Response 200 ""
                (Normal (VObj {[ "answer" := VStr "Rising";
                                 "results" :=
                                   VArr [VObj {[ "url" := VStr "https://a.example";
                                                 "title" := VStr "A";
                                                 "content" := VStr "aa";
                                                 "score" := VNum 1 ]};
                                         VObj {[ "url" := VStr "https://b.example";
                                                 "title" := VStr "B";
                                                 "content" := VStr "bb" ]}] ]}))).

Definition any_type_error (v : value) : js_error :=
  type_error (to_string v +:+ " has no map").

(** A store that answers every write with an error object under status
    200. *)
Definition soft_failing_store : network :=
  fun _ => Responds
             (Response 200 ""
                (Normal (VObj {[ "ok" := VBool false;
                                 "error" := VStr "INVALID_REQUEST" ]}))).

Definition two_records : bulk_call :=
  CreateCall (Bulk.CreateInput "app1" "Leads"
                [{[ "Name" := VStr "X" ]}; {[ "Name" := VStr "Y" ]}] None).

(** Instances of the remaining parameters for the examples. *)
Definition plain_params (params : list (string * string)) : string :=
  join "&" (map (fun p => fst p +:+ "=" +:+ snd p) params).

Definition plain_json (v : value) : string := to_string v.

(** [rec4] links persona [pB], then [pA], then [pB] again; [pZ] is listed
    last and does not exist. *)
Definition rec4 : bundle_input := BundleInput "rec4" None.

Definition rec4_fields : value :=
  Examples.record "rec4"
    [("Goal", VStr "Weekly digest");
     ("Personas", VArr [VStr "pB"; VStr "pA"; VStr "pB"; VStr "pZ"])].

Definition rec4_ids (c : category) : list value :=
  match c with
  | Persona => [VStr "pB"; VStr "pA"; VStr "pB"; VStr "pZ"]
  | _ => []
  end.

Definition ordered_store : network :=
  Examples.at_url (Examples.api +:+ "Content%20Initiators/rec4")
    (Examples.found rec4_fields) $
  Examples.at_url (Examples.api +:+ "Personas/pA")
    (Examples.found (Examples.record "pA"
                       [("XML Bundle", VStr "<persona>A</persona>")])) $
  Examples.at_url (Examples.api +:+ "Personas/pB")
    (Examples.found (Examples.record "pB"
                       [("XML Bundle", VStr "<persona>B</persona>")])) $
  Examples.empty_store.

(** A token and no base id. *)
Definition env_without_base : gmap string string :=
  {[ "AIRTABLE_API_KEY" := "keyKEY"; "AIRTABLE_PAT" := "" ]}.
End Cases.

(** * Properties *)

(** ** Running programs *)

Lemma run_bind {A B : Type} (net : network) (m : prog A) (f : A -> prog B) :
  run net (bind m f) =
  match run net m with
  | (Normal a, sent) => let '(c, sent') := run net (f a) in (c, sent ++ sent')
  | (Throw e, sent) => (Throw e, sent)
  end.
Proof.
  induction m as [a | e | req k IH]; simpl.
  - by destruct (run net (f a)).
  - done.
  - rewrite IH. destruct (run net (k (net req))) as [[a | e] sent]; simpl.
    + by destruct (run net (f a)).
    + done.
Qed.

Lemma run_bind_normal {A B : Type} net (m : prog A) (f : A -> prog B) b sent :
  run net (bind m f) = (Normal b, sent) ->
  exists a s1 s2,
    run net m = (Normal a, s1) /\ run net (f a) = (Normal b, s2) /\
    sent = s1 ++ s2.
Proof.
  rewrite run_bind. destruct (run net m) as [[a | e] s1]; [| done].
  destruct (run net (f a)) as [c s2] eqn:Hf. intros [= -> <-]. eauto 6.
Qed.

Lemma run_bind_intro {A B : Type} net (m : prog A) (f : A -> prog B) a c s1 s2 :
  run net m = (Normal a, s1) -> run net (f a) = (c, s2) ->
  run net (bind m f) = (c, s1 ++ s2).
Proof. intros Hm Hf. by rewrite run_bind, Hm, Hf. Qed.

Lemma run_bind_throw {A B : Type} net (m : prog A) (f : A -> prog B) e s :
  run net m = (Throw e, s) -> run net (bind m f) = (Throw e, s).
Proof. intros Hm. by rewrite run_bind, Hm. Qed.

Lemma run_try_catch {A : Type} net (m : prog A) (h : js_error -> prog A) :
  run net (try_catch m h) =
  match run net m with
  | (Normal a, sent) => (Normal a, sent)
  | (Throw e, sent) => let '(c, sent') := run net (h e) in (c, sent ++ sent')
  end.
Proof.
  induction m as [a | e | req k IH]; simpl.
  - done.
  - by destruct (run net (h e)).
  - rewrite IH. destruct (run net (k (net req))) as [[a | e] sent]; simpl.
    + done.
    + by destruct (run net (h e)).
Qed.

Lemma run_fetch net req :
  run net (fetch req) =
  (match net req with Responds r => Normal r | Rejects e => Throw e end, [req]).
Proof. unfold fetch. simpl. by destruct (net req). Qed.

Lemma run_fetch_normal net req r sent :
  run net (fetch req) = (Normal r, sent) ->
  net req = Responds r /\ sent = [req].
Proof. rewrite run_fetch. destruct (net req); naive_solver. Qed.

Lemma run_res_json net r :
  run net (res_json r) = (json r, []).
Proof. unfold res_json. by destruct (json r). Qed.

(** A handler that returns a value turns every completion into a normal
    one. *)
Lemma try_catch_returns {A : Type} net (m : prog A) (h : js_error -> A) :
  exists a, outcome net (try_catch m (fun e => Ret (h e))) = Normal a.
Proof.
  unfold outcome. rewrite run_try_catch.
  destruct (run net m) as [[a | e] sent]; simpl; eauto.
Qed.

(** A run only depends on the answers to the requests it sends. *)
Lemma run_agree {A : Type} (net1 net2 : network) (m : prog A) :
  (forall req, req ∈ requests net1 m -> net1 req = net2 req) ->
  run net1 m = run net2 m.
Proof.
  unfold requests.
  induction m as [a | e | req k IH]; simpl; intros Hag; [done | done |].
  destruct (run net1 (k (net1 req))) as [c sent] eqn:Hrun; simpl in Hag.
  rewrite <- (Hag req) by set_solver. rewrite <- IH, Hrun; [done |].
  intros req' Hin. apply Hag. rewrite Hrun in Hin. set_solver.
Qed.

(** ** Steps of the bundle tools *)

Lemma run_field_normal net record k v sent :
  run net (field record k) = (Normal v, sent) ->
  field_value record k = Some v /\ sent = [].
Proof.
  unfold field, field_value, read.
  destruct (get_prop record "fields") as [fields |]; simpl; [| done].
  destruct (get_prop fields k); simpl; naive_solver.
Qed.

Lemma run_field_some net record k v :
  field_value record k = Some v -> run net (field record k) = (Normal v, []).
Proof.
  unfold field, field_value, read.
  destruct (get_prop record "fields") as [fields |]; simpl; [| done].
  by intros ->.
Qed.

Lemma run_push_scalar_normal net record k tag parts parts' sent :
  run net (push_scalar record k tag parts) = (Normal parts', sent) ->
  parts' = parts ++ scalar_part record k tag /\ sent = [].
Proof.
  unfold push_scalar, scalar_part, field, field_value, read, push.
  destruct (get_prop record "fields") as [fields |]; simpl; [| done].
  destruct (get_prop fields k) as [v |]; simpl; [| done].
  destruct (truthy v); simpl; intros [= <- <-]; by rewrite ?app_nil_r.
Qed.

Lemma run_push_scalar_some net record k tag parts :
  is_Some (field_value record k) ->
  run net (push_scalar record k tag parts) =
  (Normal (parts ++ scalar_part record k tag), []).
Proof.
  unfold push_scalar, scalar_part, field, field_value, read, push.
  destruct (get_prop record "fields") as [fields |]; simpl; [| by intros []].
  destruct (get_prop fields k) as [v |]; simpl; [| by intros []].
  intros _. destruct (truthy v); simpl; by rewrite ?app_nil_r.
Qed.

(** Once [record.fields] can be read, so can any of its properties. *)
Lemma field_value_total record k k' :
  is_Some (field_value record k) -> is_Some (field_value record k').
Proof.
  unfold field_value.
  destruct (get_prop record "fields") as [fields |]; [| by intros []].
  destruct fields; simpl; intros []; try done; eauto.
Qed.

Section FetchEach.
Variable net : network.
Variable headers : list (string * string).
Variable base : value.

Lemma fetch_each_cons table id rest acc :
  fetch_each headers base table (id :: rest) acc =
  let! r := fetch (child_request headers base table id) in
  if ok r then
    let! record := res_json r in
    fetch_each headers base table rest (acc ++ [record])
  else fetch_each headers base table rest acc.
Proof. reflexivity. Qed.

Lemma run_fetch_each_normal table ids acc results sent :
  run net (fetch_each headers base table ids acc) = (Normal results, sent) ->
  results = acc ++ omap (kept_record net headers base table) ids /\
  sent = map (child_request headers base table) ids.
Proof.
  revert acc results sent.
  induction ids as [| id rest IH]; intros acc results sent.
  - simpl. intros [= <- <-]. by rewrite app_nil_r.
  - rewrite fetch_each_cons. intros Hrun.
    apply run_bind_normal in Hrun as (r & s1 & s2 & Hf & Hk & ->).
    apply run_fetch_normal in Hf as [Hnet ->].
    cbn [omap list_omap map]. unfold kept_record at 1. rewrite Hnet.
    destruct (ok r).
    + apply run_bind_normal in Hk as (record & s3 & s4 & Hj & Hk & ->).
      rewrite run_res_json in Hj. injection Hj as -> <-.
      apply IH in Hk as [-> ->]. by rewrite <- app_assoc.
    + apply IH in Hk as [-> ->]. done.
Qed.

Lemma run_fetch_each_settled table ids acc :
  forallb (settles net headers base table) ids = true ->
  run net (fetch_each headers base table ids acc) =
  (Normal (acc ++ omap (kept_record net headers base table) ids),
   map (child_request headers base table) ids).
Proof.
  revert acc. induction ids as [| id rest IH]; intros acc Hall.
  - simpl. by rewrite app_nil_r.
  - cbn [forallb] in Hall. apply andb_prop in Hall as [Hid Hall].
    rewrite fetch_each_cons. cbn [omap list_omap map].
    unfold settles in Hid. unfold kept_record at 1.
    destruct (net (child_request headers base table id)) as [r |] eqn:Hnet;
      [| done].
    eapply (run_bind_intro _ _ _ r _ [_]).
    { by rewrite run_fetch, Hnet. }
    destruct (ok r).
    + destruct (json r) as [record |] eqn:Hj; [| done].
      eapply (run_bind_intro _ _ _ record _ []).
      { by rewrite run_res_json, Hj. }
      rewrite IH by done. by rewrite <- app_assoc.
    + by apply IH.
Qed.

Lemma run_fetchByIds_normal table ids xmlField texts sent :
  run net (fetchByIds headers base table ids xmlField) = (Normal texts, sent) ->
  exists l, iterate ids = Some l /\
            texts = collected net headers base table xmlField l /\
            sent = map (child_request headers base table) l.
Proof.
  unfold fetchByIds. destruct (iterate ids) as [l |]; [| done].
  intros Hrun. apply run_bind_normal in Hrun as (rs & s1 & s2 & He & Hr & ->).
  apply run_fetch_each_normal in He as [-> ->]. simpl in Hr.
  injection Hr as <- <-. exists l. by rewrite app_nil_r.
Qed.

Lemma run_fetchByIds_settled table ids xmlField l :
  iterate ids = Some l ->
  forallb (settles net headers base table) l = true ->
  run net (fetchByIds headers base table ids xmlField) =
  (Normal (collected net headers base table xmlField l),
   map (child_request headers base table) l).
Proof.
  intros Hit Hall. unfold fetchByIds. rewrite Hit.
  erewrite run_bind_intro; [| by apply run_fetch_each_settled | done].
  by rewrite app_nil_r.
Qed.

(** Every collected text is non-empty, and there is one per id that
    resolves to a non-empty text. *)
Lemma collected_length table xmlField ids :
  length (collected net headers base table xmlField ids) =
  length (List.filter (resolves_nonempty net headers base table xmlField) ids).
Proof.
  unfold collected.
  induction ids as [| id rest IH]; [done |].
  cbn [omap list_omap List.filter]. unfold resolves_nonempty at 1.
  destruct (kept_record net headers base table id) as [record |].
  - cbn [map List.filter].
    destruct (truthy (xml_of xmlField record)); cbn [length]; by rewrite IH.
  - done.
Qed.
End FetchEach.

(** ** The hydrated document *)

Lemma fold_left_push {A : Type} (g : A -> string) (xs : list A) parts :
  fold_left (fun parts x => push parts (g x)) xs parts = parts ++ map g xs.
Proof.
  revert parts. induction xs as [| x xs IH]; intros parts; simpl.
  - by rewrite app_nil_r.
  - rewrite IH. unfold push. by rewrite <- app_assoc.
Qed.

Lemma embed_container c xs parts :
  embed (container_tag c) xs parts = parts ++ container c xs.
Proof.
  unfold embed, container. destruct xs as [| x xs].
  - by rewrite app_nil_r.
  - cbn [length Nat.ltb Nat.leb]. rewrite fold_left_push. unfold push.
    by rewrite <- !app_assoc.
Qed.

Lemma filter_all {A : Type} (p : A -> bool) (l : list A) :
  Forall (fun x => p x = true) l -> List.filter p l = l.
Proof.
  induction 1 as [| x l Hx _ IH]; simpl; [done |]. by rewrite Hx, IH.
Qed.

Lemma scalar_part_nonempty init k tag :
  Forall (fun s => str_nonempty s = true) (scalar_part init k tag).
Proof.
  unfold scalar_part. destruct (field_value init k) as [v |]; [| done].
  destruct (truthy v); repeat constructor.
Qed.

Lemma container_nonempty c texts :
  Forall (fun s => str_nonempty s = true) (container c texts).
Proof.
  unfold container. destruct texts as [| x xs]; [done |].
  repeat first [apply Forall_app_2 | apply Forall_cons_2 | apply Forall_nil_2];
    try by destruct c.
  apply Forall_map, Forall_true. done.
Qed.

(** [xmlParts.filter(Boolean)] drops nothing: every pushed line starts with
    literal text. *)
Lemma document_lines_nonempty id init texts :
  List.filter str_nonempty (document_lines id init texts) =
  document_lines id init texts.
Proof.
  apply filter_all. unfold document_lines, initiator_block.
  repeat first [apply Forall_app_2 | apply Forall_cons_2 | apply Forall_nil_2];
    auto using scalar_part_nonempty, container_nonempty.
Qed.

Section HydrateBody.
Variable net : network.
Variable env : gmap string string.
Variable context : bundle_input.
Variable headers : list (string * string).
Variable base : value.

(** The two ways the body returns: the initiator fetch answered with a
    status outside 2xx, or every step up to the assembly went through. *)
Lemma hydrate_body_returns result sent :
  run net (hydrate_body env context headers base) = (Normal result, sent) ->
  (exists r,
     net (initiator_request env context headers base) = Responds r /\
     ok r = false /\ result = HttpFailure (status r) (text r) /\
     sent = [initiator_request env context headers base]) \/
  (exists r init ids,
     net (initiator_request env context headers base) = Responds r /\
     ok r = true /\ json r = Normal init /\
     (forall c, linked_ids init c = Some (ids c)) /\
     result =
       Hydrated (initiatorId context)
         (join newline
            (document_lines (initiatorId context) init
               (category_texts net env headers base ids)))
         (counts_of (category_texts net env headers base ids)) /\
     sent = initiator_request env context headers base ::
            child_requests env headers base ids).
Proof.
  unfold hydrate_body. intros Hrun.
  apply run_bind_normal in Hrun as (r & ? & ? & Hf & Hrun & ->).
  apply run_fetch_normal in Hf as [Hnet ->].
  destruct (ok r) eqn:Hok; cbn [negb] in Hrun.
  2: { left. exists r. cbn [run] in Hrun. by injection Hrun as <- <-. }
  right.
  apply run_bind_normal in Hrun as (init & ? & ? & Hj & Hrun & ->).
  rewrite run_res_json in Hj. injection Hj as Hj <-.
  apply run_bind_normal in Hrun as (vp & ? & ? & Hp & Hrun & ->).
  apply run_field_normal in Hp as [Hp ->].
  apply run_bind_normal in Hrun as (vd & ? & ? & Hd & Hrun & ->).
  apply run_field_normal in Hd as [Hd ->].
  apply run_bind_normal in Hrun as (ve & ? & ? & He & Hrun & ->).
  apply run_field_normal in He as [He ->].
  apply run_bind_normal in Hrun as (vr & ? & ? & Hr & Hrun & ->).
  apply run_field_normal in Hr as [Hr ->].
  apply run_bind_normal in Hrun as (xp & ? & ? & Hxp & Hrun & ->).
  apply run_fetchByIds_normal in Hxp as (lp & Hlp & -> & ->).
  apply run_bind_normal in Hrun as (xd & ? & ? & Hxd & Hrun & ->).
  apply run_fetchByIds_normal in Hxd as (ld & Hld & -> & ->).
  apply run_bind_normal in Hrun as (xe & ? & ? & Hxe & Hrun & ->).
  apply run_fetchByIds_normal in Hxe as (le & Hle & -> & ->).
  apply run_bind_normal in Hrun as (xr & ? & ? & Hxr & Hrun & ->).
  apply run_fetchByIds_normal in Hxr as (lr & Hlr & -> & ->).
  apply run_bind_normal in Hrun as (p1 & ? & ? & H1 & Hrun & ->).
  apply run_push_scalar_normal in H1 as [-> ->].
  apply run_bind_normal in Hrun as (p2 & ? & ? & H2 & Hrun & ->).
  apply run_push_scalar_normal in H2 as [-> ->].
  apply run_bind_normal in Hrun as (p3 & ? & ? & H3 & Hrun & ->).
  apply run_push_scalar_normal in H3 as [-> ->].
  cbn [run] in Hrun. injection Hrun as <- <-.
  exists r, init, (ids_of lp ld le lr).
  split_and!; try done.
  - intros []; unfold linked_ids; cbn [relation_field];
      by rewrite ?Hp, ?Hd, ?He, ?Hr.
  - do 2 f_equal. etransitivity; [| apply document_lines_nonempty]. f_equal.
    change (embed "personas") with (embed (container_tag Persona)).
    change (embed "domains") with (embed (container_tag Domain)).
    change (embed "entities") with (embed (container_tag Entity)).
    change (embed "references") with (embed (container_tag Reference)).
    rewrite !embed_container.
    unfold document_lines, initiator_block, push. cbn [app].
    by rewrite <- !app_assoc.
  - cbn [app]. f_equal. unfold child_requests. by rewrite !app_nil_r.
Qed.

(** What a run of the body that ends in a hydrated result went through. *)
Lemma hydrate_body_normal id xml counts sent :
  run net (hydrate_body env context headers base) =
    (Normal (Hydrated id xml counts), sent) ->
  exists r init ids,
    net (initiator_request env context headers base) = Responds r /\
    ok r = true /\ json r = Normal init /\
    (forall c, linked_ids init c = Some (ids c)) /\
    id = initiatorId context /\
    xml = join newline
            (document_lines id init (category_texts net env headers base ids)) /\
    counts = counts_of (category_texts net env headers base ids) /\
    sent = initiator_request env context headers base ::
           child_requests env headers base ids.
Proof.
  intros Hrun.
  apply hydrate_body_returns in Hrun
    as [(r & _ & _ & Hres & _) | (r & init & ids & ? & ? & ? & ? & Hres & ?)];
    [done |].
  injection Hres as -> -> ->. by exists r, init, ids.
Qed.

Lemma linked_ids_inv init c l :
  linked_ids init c = Some l ->
  exists v, field_value init (relation_field c) = Some v /\
            iterate (js_or v (VArr [])) = Some l.
Proof.
  unfold linked_ids. destruct (field_value init (relation_field c)); eauto.
  done.
Qed.

(** A run in which the initiator is read and every child fetch settles. *)
Lemma hydrate_body_settled r init ids :
  net (initiator_request env context headers base) = Responds r ->
  ok r = true -> json r = Normal init ->
  (forall c, linked_ids init c = Some (ids c)) ->
  (forall c,
     forallb (settles net headers base (category_table env c)) (ids c) = true) ->
  run net (hydrate_body env context headers base) =
  (Normal (Hydrated (initiatorId context)
             (join newline
                (document_lines (initiatorId context) init
                   (category_texts net env headers base ids)))
             (counts_of (category_texts net env headers base ids))),
   initiator_request env context headers base ::
   child_requests env headers base ids).
Proof.
  intros Hnet Hok Hj Hids Hall.
  destruct (linked_ids_inv init Persona _ (Hids Persona)) as (vp & Hp & Hlp).
  destruct (linked_ids_inv init Domain _ (Hids Domain)) as (vd & Hd & Hld).
  destruct (linked_ids_inv init Entity _ (Hids Entity)) as (ve & He & Hle).
  destruct (linked_ids_inv init Reference _ (Hids Reference))
    as (vr & Hr & Hlr).
  cbn [relation_field] in Hp, Hd, He, Hr.
  assert (Hsome : forall k, is_Some (field_value init k)).
  { intros k. by apply (field_value_total init "Personas"). }
  unfold hydrate_body.
  rewrite run_bind, run_fetch. unfold initiator_request in Hnet.
  rewrite Hnet. cbv beta iota zeta. rewrite Hok. cbn [negb].
  rewrite run_bind, run_res_json, Hj. cbv beta iota zeta.
  rewrite run_bind, (run_field_some _ _ _ _ Hp). cbv beta iota zeta.
  rewrite run_bind, (run_field_some _ _ _ _ Hd). cbv beta iota zeta.
  rewrite run_bind, (run_field_some _ _ _ _ He). cbv beta iota zeta.
  rewrite run_bind, (run_field_some _ _ _ _ Hr). cbv beta iota zeta.
  rewrite run_bind,
    (run_fetchByIds_settled _ _ _ _ _ _ _ Hlp (Hall Persona)).
  cbv beta iota zeta.
  rewrite run_bind,
    (run_fetchByIds_settled _ _ _ _ _ _ _ Hld (Hall Domain)).
  cbv beta iota zeta.
  rewrite run_bind,
    (run_fetchByIds_settled _ _ _ _ _ _ _ Hle (Hall Entity)).
  cbv beta iota zeta.
  rewrite run_bind,
    (run_fetchByIds_settled _ _ _ _ _ _ _ Hlr (Hall Reference)).
  cbv beta iota zeta.
  rewrite run_bind, run_push_scalar_some by done. cbv beta iota zeta.
  rewrite run_bind, run_push_scalar_some by done. cbv beta iota zeta.
  rewrite run_bind, run_push_scalar_some by done. cbv beta iota zeta.
  cbn [run].
  change (embed "personas") with (embed (container_tag Persona)).
  change (embed "domains") with (embed (container_tag Domain)).
  change (embed "entities") with (embed (container_tag Entity)).
  change (embed "references") with (embed (container_tag Reference)).
  rewrite !embed_container.
  f_equal.
  - do 3 f_equal.
    etransitivity; [| apply document_lines_nonempty]. f_equal.
    unfold document_lines, initiator_block, push. cbn [app].
    by rewrite <- !app_assoc.
  - cbn [app]. unfold child_requests, category_requests.
    by rewrite !app_nil_r.
Qed.
End HydrateBody.

(** ** The hydrate tool *)

Lemma initiator_record_inv net env context headers base init :
  initiator_record net env context headers base = Some init ->
  exists r, net (initiator_request env context headers base) = Responds r /\
            ok r = true /\ json r = Normal init.
Proof.
  unfold initiator_record.
  destruct (net (initiator_request env context headers base)) as [r |]; [| done].
  destruct (ok r) eqn:Hok; [| done].
  destruct (json r) as [v | e] eqn:Hj; [| done].
  intros Heq. injection Heq as ->. by exists r.
Qed.

Lemma hydrate_configured env context headers :
  airtableHeadersOrNull env = Some headers ->
  truthy (resolve_base env context) = true ->
  airtableGetHydratedContentContext env context =
  try_catch (hydrate_body env context headers (resolve_base env context))
            (fun error => Ret (Failed (message error))).
Proof.
  intros Hh Hb. unfold airtableGetHydratedContentContext. by rewrite Hh, Hb.
Qed.

(** A hydrated result comes from a run of the body, past both guards. *)
Lemma hydrate_hydrated_inv net env context id xml counts sent :
  run net (airtableGetHydratedContentContext env context) =
    (Normal (Hydrated id xml counts), sent) ->
  exists headers,
    airtableHeadersOrNull env = Some headers /\
    truthy (resolve_base env context) = true /\
    run net (hydrate_body env context headers (resolve_base env context)) =
      (Normal (Hydrated id xml counts), sent).
Proof.
  unfold airtableGetHydratedContentContext.
  destruct (airtableHeadersOrNull env) as [headers |]; [| done].
  destruct (truthy (resolve_base env context)); [| done]. cbn [negb].
  rewrite run_try_catch.
  destruct (run net (hydrate_body _ _ _ _)) as [[res | e] sent'] eqn:Hrun.
  - intros Heq. injection Heq as -> ->. eauto.
  - done.
Qed.

Lemma fails_http_not_kept net headers base table id :
  fails_http net headers base table id = true ->
  kept_record net headers base table id = None.
Proof.
  unfold fails_http, kept_record.
  destruct (net (child_request headers base table id)) as [r |]; [| done].
  by destruct (ok r).
Qed.

(** A child whose fetch fails at HTTP level contributes nothing: the texts
    are those collected from the remaining ids. *)
Lemma collected_drop_failed net headers base table xmlField ids :
  collected net headers base table xmlField ids =
  collected net headers base table xmlField
    (List.filter (fun id => negb (fails_http net headers base table id)) ids).
Proof.
  unfold collected. do 2 f_equal.
  induction ids as [| id rest IH]; [done |].
  cbn [omap list_omap List.filter].
  destruct (fails_http net headers base table id) eqn:Hfail; cbn [negb].
  - by rewrite fails_http_not_kept.
  - cbn [omap list_omap]. by rewrite IH.
Qed.

(** C4. When both guards pass and the fetch of the initiator record answers
    with a status outside 200..299, the hydrate tool returns
    [{ ok: false, status, reason }] carrying that status and the body text,
    and the initiator request is the only request it sends: no linked record
    of any category is fetched. *)
Theorem hydrate_root_failure_is_reported
  net env context headers (r : response) :
  airtableHeadersOrNull env = Some headers ->
  truthy (resolve_base env context) = true ->
  net (initiator_request env context headers (resolve_base env context)) =
    Responds r ->
  ok r = false ->
  run net (airtableGetHydratedContentContext env context) =
  (Normal (HttpFailure (status r) (text r)),
   [initiator_request env context headers (resolve_base env context)]).
Proof.
  intros Hh Hb Hnet Hok.
  rewrite (hydrate_configured _ _ _ Hh Hb), run_try_catch.
  unfold hydrate_body. rewrite run_bind, run_fetch.
  unfold initiator_request in Hnet. rewrite Hnet. cbv beta iota zeta.
  by rewrite Hok.
Qed.

Lemma hydrate_root_failure_is_reported_witness :
  run Examples.store_without_rec1
      (airtableGetHydratedContentContext Examples.env Examples.rec1) =
  (Normal (HttpFailure 404 "NOT_FOUND"),
   [initiator_request Examples.env Examples.rec1 Examples.headers
      (resolve_base Examples.env Examples.rec1)]).
Proof.
  apply (hydrate_root_failure_is_reported Examples.store_without_rec1
           Examples.env Examples.rec1 Examples.headers
           (Response 404 "NOT_FOUND"
              (Normal (VObj {[ "error" := VStr "NOT_FOUND" ]}))));
    vm_compute; reflexivity.
Defined.

(** C8. Whatever the environment, the input and the network do, running the
    hydrate tool completes normally: it returns one of the result objects
    [skipped], [{ ok: false, status, reason }], [{ ok: false, error }] or the
    hydrated bundle, and never completes by throwing. *)
Theorem hydrate_never_throws net env context :
  exists result,
    outcome net (airtableGetHydratedContentContext env context) = Normal result /\
    match result with
    | Skipped _ | HttpFailure _ _ | Failed _ | Hydrated _ _ _ => True
    | _ => False
    end.
Proof.
  unfold outcome, airtableGetHydratedContentContext.
  destruct (airtableHeadersOrNull env) as [headers |]; [| by eexists].
  destruct (truthy (resolve_base env context)); cbn [negb]; [| by eexists].
  rewrite run_try_catch.
  destruct (run net (hydrate_body _ _ _ _)) as [[result | e] sent] eqn:Hrun.
  - exists result. split; [done |].
    apply hydrate_body_returns in Hrun
      as [(r & _ & _ & -> & _) | (r & init & ids & _ & _ & _ & _ & -> & _)];
      done.
  - by eexists.
Qed.

(** C6. Two runs of the hydrate tool, in the same environment and on the
    same input, against networks that answer every request of the first run
    alike, complete alike and send the same requests; in particular they
    return the same document. *)
Theorem hydrate_deterministic net1 net2 env context :
  agree_on (requests net1 (airtableGetHydratedContentContext env context))
           net1 net2 ->
  run net1 (airtableGetHydratedContentContext env context) =
  run net2 (airtableGetHydratedContentContext env context).
Proof.
  intros Hag. apply run_agree. intros req Hin.
  unfold agree_on in Hag. rewrite Forall_forall in Hag. by apply Hag.
Qed.

Lemma hydrate_deterministic_witness :
  run Examples.store
      (airtableGetHydratedContentContext Examples.env Examples.rec1) =
  run Examples.store_other_record_changed
      (airtableGetHydratedContentContext Examples.env Examples.rec1).
Proof.
  apply (hydrate_deterministic Examples.store
           Examples.store_other_record_changed Examples.env Examples.rec1).
  unfold agree_on.
  apply (Forall_forall (fun req =>
           Examples.store req = Examples.store_other_record_changed req)).
  vm_compute requests. intros req Hin.
  repeat (apply elem_of_cons in Hin as [-> | Hin]; [vm_compute; reflexivity |]).
  by apply elem_of_nil in Hin.
Defined.

(** C1, amended. When both guards pass, the initiator record is read, its
    four relations can be iterated and every child fetch settles (the network
    answers, with whatever status, and a 2xx answer parses), the hydrate tool
    returns the hydrated bundle, however many children answered with a status
    outside 200..299: the texts of a category are those collected from the
    ids that did not fail so. *)
Theorem hydrate_tolerates_http_failures net env context headers init ids :
  airtableHeadersOrNull env = Some headers ->
  truthy (resolve_base env context) = true ->
  initiator_record net env context headers (resolve_base env context) =
    Some init ->
  (forall c, linked_ids init c = Some (ids c)) ->
  (forall c,
     forallb (settles net headers (resolve_base env context)
                (category_table env c)) (ids c) = true) ->
  let base := resolve_base env context in
  let texts := category_texts net env headers base ids in
  outcome net (airtableGetHydratedContentContext env context) =
    Normal (Hydrated (initiatorId context)
              (join newline (document_lines (initiatorId context) init texts))
              (counts_of texts)) /\
  forall c,
    texts c =
    collected net headers base (category_table env c) (knowledge_field c)
      (List.filter
         (fun id => negb (fails_http net headers base (category_table env c) id))
         (ids c)).
Proof.
  intros Hh Hb Hinit Hids Hall base texts. split.
  - apply initiator_record_inv in Hinit as (r & Hnet & Hok & Hj).
    unfold outcome. rewrite (hydrate_configured _ _ _ Hh Hb), run_try_catch.
    by rewrite (hydrate_body_settled _ _ _ _ _ r init ids).
  - intros c. apply collected_drop_failed.
Qed.

Lemma hydrate_tolerates_http_failures_witness :
  fails_http Examples.store Examples.headers
    (resolve_base Examples.env Examples.rec1)
    (category_table Examples.env Persona) (VStr "p3") = true /\
  exists xml,
    outcome Examples.store
      (airtableGetHydratedContentContext Examples.env Examples.rec1) =
    Normal (Hydrated "rec1" xml (LinkedCounts 1 0 1 0)).
Proof.
  split; [vm_compute; reflexivity |].
  eexists.
  etransitivity;
    [apply (hydrate_tolerates_http_failures Examples.store Examples.env
              Examples.rec1 Examples.headers Examples.rec1_fields
              Examples.rec1_ids);
     try (intros []); vm_compute; reflexivity |].
  vm_compute. reflexivity.
Defined.

(** C1 as stated fails: with the initiator record read and all its relations
    well formed, a child fetch that rejects (the connection to the store
    drops while persona [p1] is fetched) makes the tool return
    [{ ok: false, error }]. *)
Lemma hydrate_child_rejection_fails_the_call :
  initiator_record Examples.store_p1_unreachable Examples.env Examples.rec1
    Examples.headers (resolve_base Examples.env Examples.rec1) =
    Some Examples.rec1_fields /\
  (forall c, linked_ids Examples.rec1_fields c = Some (Examples.rec1_ids c)) /\
  Examples.store_p1_unreachable
    (child_request Examples.headers (resolve_base Examples.env Examples.rec1)
       (category_table Examples.env Persona) (VStr "p1")) =
    Rejects (Error "fetch failed") /\
  outcome Examples.store_p1_unreachable
    (airtableGetHydratedContentContext Examples.env Examples.rec1) =
  Normal (Failed "fetch failed").
Proof.
  split_and!; try (intros []); vm_compute; reflexivity.
Qed.

(** C3. In a hydrated result, the count reported for a category is the
    number of its linked ids that resolve to a non-empty knowledge text (the
    child fetch answers 2xx, parses, and the field is truthy), whatever the
    number of linked ids. *)
Theorem linked_counts_count_resolved_texts
  net env context headers init c ids id xml counts :
  airtableHeadersOrNull env = Some headers ->
  initiator_record net env context headers (resolve_base env context) =
    Some init ->
  linked_ids init c = Some ids ->
  outcome net (airtableGetHydratedContentContext env context) =
    Normal (Hydrated id xml counts) ->
  count_of c counts =
  length (List.filter
            (resolves_nonempty net headers (resolve_base env context)
               (category_table env c) (knowledge_field c))
            ids) /\
  (count_of c counts <= length ids)%nat.
Proof.
  intros Hh Hinit Hids Hout. unfold outcome in Hout.
  destruct (run net _) as [res sent] eqn:Hrun. cbn [fst] in Hout. subst res.
  apply hydrate_hydrated_inv in Hrun as (headers' & Hh' & Hb & Hrun).
  assert (headers' = headers) as -> by congruence.
  apply hydrate_body_normal in Hrun
    as (r & init' & ids' & Hnet & Hok & Hj & Hids' & -> & -> & -> & ->).
  assert (init' = init) as ->.
  { unfold initiator_record in Hinit. rewrite Hnet, Hok, Hj in Hinit.
    congruence. }
  assert (ids' c = ids) as Hc by (specialize (Hids' c); congruence).
  assert (count_of c (counts_of (category_texts net env headers
                                   (resolve_base env context) ids')) =
          length (category_texts net env headers (resolve_base env context)
                    ids' c)) as -> by (by destruct c).
  unfold category_texts. rewrite Hc, collected_length. split; [done |].
  apply filter_length_le.
Qed.

Lemma linked_counts_count_resolved_texts_witness :
  length (Examples.rec1_ids Persona) = 3%nat /\
  length (List.filter
            (resolves_nonempty Examples.store Examples.headers
               (resolve_base Examples.env Examples.rec1)
               (category_table Examples.env Persona) (knowledge_field Persona))
            (Examples.rec1_ids Persona)) = 1%nat.
Proof.
  split; [reflexivity |].
  assert (Hout : outcome Examples.store
            (airtableGetHydratedContentContext Examples.env Examples.rec1) =
          Normal (Hydrated "rec1"
                    (join newline
                       (document_lines "rec1" Examples.rec1_fields
                          (category_texts Examples.store Examples.env
                             Examples.headers
                             (resolve_base Examples.env Examples.rec1)
                             Examples.rec1_ids)))
                    (LinkedCounts 1 0 1 0)))
    by (vm_compute; reflexivity).
  destruct (linked_counts_count_resolved_texts Examples.store Examples.env
              Examples.rec1 Examples.headers Examples.rec1_fields Persona
              (Examples.rec1_ids Persona) _ _ _ eq_refl eq_refl eq_refl Hout)
    as [Hcount _].
  rewrite <- Hcount. reflexivity.
Defined.

Lemma collected_nil net headers base table xmlField ids :
  collected net headers base table xmlField ids = [] <->
  forallb (fun id => negb (resolves_nonempty net headers base table xmlField id))
          ids = true.
Proof.
  unfold collected.
  induction ids as [| id rest IH]; [done |].
  cbn [omap list_omap forallb]. unfold resolves_nonempty at 1.
  destruct (kept_record net headers base table id) as [record |].
  - cbn [map List.filter].
    destruct (truthy (xml_of xmlField record)); cbn [negb andb]; [done |].
    apply IH.
  - cbn [negb andb]. apply IH.
Qed.

(** C5. The document of a hydrated result is the initiator block, then the
    containers of Persona, Domain, Entity and Reference in this order, then
    the closing line, joined by newlines.  The container of a category is
    empty, with no opening or closing line, exactly when none of its linked
    ids resolves to a non-empty text (no ids, fetches that failed, blank
    texts); otherwise it is its opening line, one line per collected text
    and its closing line. *)
Theorem hydrated_document_layout net env context id xml counts :
  outcome net (airtableGetHydratedContentContext env context) =
    Normal (Hydrated id xml counts) ->
  exists headers init ids,
    airtableHeadersOrNull env = Some headers /\
    (forall c, linked_ids init c = Some (ids c)) /\
    let base := resolve_base env context in
    let texts := category_texts net env headers base ids in
    xml = join newline
            (initiator_block id init ++
             container Persona (texts Persona) ++
             container Domain (texts Domain) ++
             container Entity (texts Entity) ++
             container Reference (texts Reference) ++
             ["</bundle>"]) /\
    forall c,
      length (texts c) = count_of c counts /\
      (forallb (fun id => negb (resolves_nonempty net headers base
                                  (category_table env c) (knowledge_field c) id))
               (ids c) = true ->
       container c (texts c) = []) /\
      (texts c <> [] ->
       container c (texts c) =
       ["  <" +:+ container_tag c +:+ ">"] ++
       map (fun text => "    " +:+ to_string text) (texts c) ++
       ["  </" +:+ container_tag c +:+ ">"]).
Proof.
  intros Hout. unfold outcome in Hout.
  destruct (run net _) as [res sent] eqn:Hrun. cbn [fst] in Hout. subst res.
  apply hydrate_hydrated_inv in Hrun as (headers & Hh & Hb & Hrun).
  apply hydrate_body_normal in Hrun
    as (r & init & ids & Hnet & Hok & Hj & Hids & -> & -> & -> & ->).
  exists headers, init, ids.
  split; [done |]. split; [done |]. cbv zeta. split; [done |].
  intros c. split; [| split].
  - by destruct c.
  - intros Hnone. unfold category_texts.
    by rewrite (proj2 (collected_nil _ _ _ _ _ _) Hnone).
  - unfold container. by destruct (category_texts _ _ _ _ _ c).
Qed.

Lemma hydrated_document_layout_witness :
  exists xml,
    outcome Examples.store
      (airtableGetHydratedContentContext Examples.env Examples.rec1) =
      Normal (Hydrated "rec1" xml (LinkedCounts 1 0 1 0)) /\
    exists init texts,
      xml = join newline
              (initiator_block "rec1" init ++
               container Persona (texts Persona) ++
               container Domain (texts Domain) ++
               container Entity (texts Entity) ++
               container Reference (texts Reference) ++
               ["</bundle>"]).
Proof.
  eexists. split; [vm_compute; reflexivity |].
  destruct (hydrated_document_layout Examples.store Examples.env Examples.rec1
              "rec1" _ (LinkedCounts 1 0 1 0) eq_refl)
    as (headers & init & ids & _ & _ & Hxml & _).
  exists init, (category_texts Examples.store Examples.env headers
                  (resolve_base Examples.env Examples.rec1) ids).
  exact Hxml.
Defined.

(** ** The legacy bundle tool *)

Lemma trim_end_visible c s :
  is_js_space c = false -> str_nonempty (trim_end (String c s)) = true.
Proof.
  intros Hc. cbn [trim_end]. destruct (trim_end s); [by rewrite Hc | done].
Qed.

Lemma trim_nonempty s : str_nonempty (trim s) = has_visible_char s.
Proof.
  unfold trim, has_visible_char.
  induction s as [| c s IH]; [done |].
  cbn [trim_start chars existsb].
  destruct (is_js_space c) eqn:Hc; cbn [negb orb]; [done |].
  by apply trim_end_visible.
Qed.

Lemma prebuilt_usable_visible v : prebuilt_usable v = is_visible_string v.
Proof.
  unfold prebuilt_usable, is_visible_string.
  destruct v as [| | b | n | s | items | props]; cbn [truthy is_string];
    rewrite ?andb_false_r; try done.
  cbn [to_string andb]. rewrite andb_true_r, trim_nonempty.
  by destruct s.
Qed.

Section BundleSteps.
Variable string_gt_zero : string -> bool.
Variable net : network.

Lemma run_push_linked_array c items parts :
  run net (push_linked string_gt_zero (container_tag c) (VArr items) parts) =
  (Normal (parts ++ linked_line c (VArr items)), []).
Proof.
  unfold push_linked, read, linked_line, push.
  cbn [get_prop]. rewrite bool_decide_eq_true_2 by done.
  cbn [bind js_gt_zero]. destruct items as [| x rest].
  - cbn. by rewrite app_nil_r.
  - replace (0 <? Z.of_nat (length (x :: rest))) with true
      by (symmetry; apply Z.ltb_lt; cbn [length]; lia).
    reflexivity.
Qed.

(** The assembled mode never yields anything but an assembled bundle. *)
Lemma run_assemble_bundle_normal context record result sent :
  run net (assemble_bundle string_gt_zero context record) =
    (Normal result, sent) ->
  exists xml linked, result = Assembled (initiatorId context) xml linked.
Proof.
  unfold assemble_bundle. intros Hrun.
  do 11 (apply run_bind_normal in Hrun as (? & ? & ? & _ & Hrun & _)).
  cbn [run] in Hrun. injection Hrun as <- _. eauto.
Qed.

Lemma relation_value_array record c v :
  field_value record (relation_field c) = Some v ->
  relation_is_array record c = true ->
  exists items, js_or v (VArr []) = VArr items /\
                relation_value record c = VArr items.
Proof.
  unfold relation_is_array, relation_value. intros ->.
  cbn [default from_option id].
  destruct (js_or v (VArr [])) as [| | b | n | s | items | props]; try done.
  intros _. by exists items.
Qed.

Lemma run_assemble_bundle_arrays context record :
  (forall k, is_Some (field_value record k)) ->
  (forall c, relation_is_array record c = true) ->
  run net (assemble_bundle string_gt_zero context record) =
  (Normal (Assembled (initiatorId context)
             (join newline (assembled_lines (initiatorId context) record))
             (LinkedResources (relation_value record Persona)
                (relation_value record Domain)
                (relation_value record Entity)
                (relation_value record Reference))),
   []).
Proof.
  intros Hsome Harr.
  destruct (Hsome "Personas") as [vp Hp].
  destruct (Hsome "Content Domains") as [vd Hd].
  destruct (Hsome "Entity") as [ve He].
  destruct (Hsome "References") as [vr Hr].
  destruct (relation_value_array record Persona vp Hp (Harr _))
    as (ip & Hip & Hvp).
  destruct (relation_value_array record Domain vd Hd (Harr _))
    as (id & Hid & Hvd).
  destruct (relation_value_array record Entity ve He (Harr _))
    as (ie & Hie & Hve).
  destruct (relation_value_array record Reference vr Hr (Harr _))
    as (ir & Hir & Hvr).
  unfold assemble_bundle.
  rewrite run_bind, (run_field_some _ _ _ _ Hp). cbv beta iota zeta.
  rewrite run_bind, (run_field_some _ _ _ _ Hd). cbv beta iota zeta.
  rewrite run_bind, (run_field_some _ _ _ _ He). cbv beta iota zeta.
  rewrite run_bind, (run_field_some _ _ _ _ Hr). cbv beta iota zeta.
  rewrite run_bind, run_push_scalar_some by done. cbv beta iota zeta.
  rewrite run_bind, run_push_scalar_some by done. cbv beta iota zeta.
  rewrite run_bind, run_push_scalar_some by done. cbv beta iota zeta.
  rewrite Hip, Hid, Hie, Hir.
  change "personas" with (container_tag Persona).
  change "domains" with (container_tag Domain).
  change "entities" with (container_tag Entity).
  change "references" with (container_tag Reference).
  rewrite run_bind, run_push_linked_array. cbv beta iota zeta.
  rewrite run_bind, run_push_linked_array. cbv beta iota zeta.
  rewrite run_bind, run_push_linked_array. cbv beta iota zeta.
  rewrite run_bind, run_push_linked_array. cbv beta iota zeta.
  cbn [run app]. rewrite Hvp, Hvd, Hve, Hvr. do 4 f_equal.
  unfold assembled_lines, initiator_block, push. cbn [app].
  rewrite Hvp, Hvd, Hve, Hvr. by rewrite <- !app_assoc.
Qed.

Lemma bundle_configured env context headers :
  airtableHeadersOrNull env = Some headers ->
  truthy (resolve_base env context) = true ->
  airtableGetContentBundle string_gt_zero env context =
  try_catch (bundle_body string_gt_zero env context headers
               (resolve_base env context))
            (fun error => Ret (Failed (message error))).
Proof.
  intros Hh Hb. unfold airtableGetContentBundle. by rewrite Hh, Hb.
Qed.

(** Past the guards, with the initiator record read and its [fields]
    readable, the tool is decided by the prebuilt check alone. *)
Lemma run_bundle_read env context headers record v :
  airtableHeadersOrNull env = Some headers ->
  truthy (resolve_base env context) = true ->
  initiator_record net env context headers (resolve_base env context) =
    Some record ->
  field_value record (bundle_field env) = Some v ->
  run net (airtableGetContentBundle string_gt_zero env context) =
  let '(c, sent) :=
    run net (try_catch
               (if is_visible_string v then
                  Ret (Prebuilt (initiatorId context) (to_string v)
                         "Content Initiator bundle field")
                else assemble_bundle string_gt_zero context record)
               (fun error => Ret (Failed (message error)))) in
  (c, initiator_request env context headers (resolve_base env context) :: sent).
Proof.
  intros Hh Hb Hrec Hv.
  apply initiator_record_inv in Hrec as (r & Hnet & Hok & Hj).
  rewrite (bundle_configured _ _ _ Hh Hb), !run_try_catch.
  unfold bundle_body. rewrite run_bind, run_fetch.
  unfold initiator_request in Hnet. rewrite Hnet. cbv beta iota zeta.
  rewrite Hok. cbn [negb].
  rewrite run_bind, run_res_json, Hj. cbv beta iota zeta.
  unfold bundle_field in Hv.
  rewrite run_bind, (run_field_some _ _ _ _ Hv). cbv beta iota zeta.
  rewrite prebuilt_usable_visible.
  destruct (run net (if is_visible_string v then _ else _))
    as [[result | e] sent]; reflexivity.
Qed.
End BundleSteps.

Lemma has_visible_char_spec s :
  has_visible_char s = true <-> exists c, c ∈ chars s /\ is_js_space c = false.
Proof.
  unfold has_visible_char. rewrite existsb_exists. split.
  - intros (c & Hin & Hc). exists c. split; [by apply list_elem_of_In |].
    by destruct (is_js_space c).
  - intros (c & Hin & Hc). exists c. split; [by apply list_elem_of_In |].
    by rewrite Hc.
Qed.

Lemma is_visible_string_spec v :
  is_visible_string v = true <->
  exists s, v = VStr s /\ exists c, c ∈ chars s /\ is_js_space c = false.
Proof.
  split.
  - destruct v; try done. cbn [is_visible_string].
    intros Hs%has_visible_char_spec. eauto.
  - intros (s & -> & Hs). by apply has_visible_char_spec.
Qed.

(** C7, amended. When the prebuilt bundle field of the initiator record
    holds a string with at least one character that is not white space, the
    legacy bundle tool returns that string, unchanged, as the document of a
    [prebuilt] result; the initiator request is the only request sent and
    nothing is assembled from the relation fields. *)
Theorem bundle_returns_prebuilt
  string_gt_zero net env context headers record (s : string) :
  airtableHeadersOrNull env = Some headers ->
  truthy (resolve_base env context) = true ->
  initiator_record net env context headers (resolve_base env context) =
    Some record ->
  field_value record (bundle_field env) = Some (VStr s) ->
  has_visible_char s = true ->
  run net (airtableGetContentBundle string_gt_zero env context) =
  (Normal (Prebuilt (initiatorId context) s "Content Initiator bundle field"),
   [initiator_request env context headers (resolve_base env context)]).
Proof.
  intros Hh Hb Hrec Hv Hs.
  rewrite (run_bundle_read _ _ _ _ _ _ _ Hh Hb Hrec Hv).
  cbn [is_visible_string]. by rewrite Hs.
Qed.

Lemma bundle_returns_prebuilt_witness :
  run (Examples.store_with_bundle (VStr " <bundle/> "))
      (airtableGetContentBundle Examples.never_positive Examples.env
         Examples.rec1) =
  (Normal (Prebuilt "rec1" " <bundle/> " "Content Initiator bundle field"),
   [initiator_request Examples.env Examples.rec1 Examples.headers
      (resolve_base Examples.env Examples.rec1)]).
Proof.
  apply (bundle_returns_prebuilt Examples.never_positive
           (Examples.store_with_bundle (VStr " <bundle/> ")) Examples.env
           Examples.rec1 Examples.headers
           (Examples.rec1_with_bundle (VStr " <bundle/> ")) " <bundle/> ");
    vm_compute; reflexivity.
Defined.

(** C7 as stated fails: a prebuilt bundle field holding a non-empty value
    that is blank (the string of one space) or that is not a string (the
    one-element array a lookup field gives) is not returned; the tool
    assembles the bundle from the relation fields instead. *)
Lemma bundle_blank_prebuilt_is_reassembled :
  (field_value (Examples.rec1_with_bundle (VStr " "))
     (bundle_field Examples.env) = Some (VStr " ") /\
   truthy (VStr " ") = true /\
   exists xml linked,
     outcome (Examples.store_with_bundle (VStr " "))
       (airtableGetContentBundle Examples.never_positive Examples.env
          Examples.rec1) =
     Normal (Assembled "rec1" xml linked) /\
     linked_personas linked = VArr [VStr "p1"; VStr "p2"]) /\
  (field_value (Examples.rec1_with_bundle (VArr [VStr "<bundle/>"]))
     (bundle_field Examples.env) = Some (VArr [VStr "<bundle/>"]) /\
   truthy (VArr [VStr "<bundle/>"]) = true /\
   exists xml linked,
     outcome (Examples.store_with_bundle (VArr [VStr "<bundle/>"]))
       (airtableGetContentBundle Examples.never_positive Examples.env
          Examples.rec1) =
     Normal (Assembled "rec1" xml linked) /\
     linked_personas linked = VArr [VStr "p1"; VStr "p2"]).
Proof.
  split; (split; [vm_compute; reflexivity |]); (split; [reflexivity |]);
    do 2 eexists; split; vm_compute; reflexivity.
Qed.

(** C9. With the initiator record read and its [fields] readable, the legacy
    bundle tool returns a [prebuilt] result if and only if the bundle field
    holds a string with at least one character that is not white space.  In
    every other case (field missing, value not a string, string of white
    space only) and with each relation absent or an array, it returns the
    [assembled] result, whose document lists the ids of each non-empty
    relation in a [linkedIds] attribute. *)
Theorem bundle_prebuilt_iff_visible_string
  string_gt_zero net env context headers record v :
  airtableHeadersOrNull env = Some headers ->
  truthy (resolve_base env context) = true ->
  initiator_record net env context headers (resolve_base env context) =
    Some record ->
  field_value record (bundle_field env) = Some v ->
  let result :=
    outcome net (airtableGetContentBundle string_gt_zero env context) in
  ((exists xml source,
      result = Normal (Prebuilt (initiatorId context) xml source)) <->
   (exists s, v = VStr s /\ exists c, c ∈ chars s /\ is_js_space c = false)) /\
  (is_visible_string v = false ->
   (forall c, relation_is_array record c = true) ->
   result =
   Normal (Assembled (initiatorId context)
             (join newline (assembled_lines (initiatorId context) record))
             (LinkedResources (relation_value record Persona)
                (relation_value record Domain)
                (relation_value record Entity)
                (relation_value record Reference)))).
Proof.
  intros Hh Hb Hrec Hv result. subst result. unfold outcome.
  rewrite (run_bundle_read _ _ _ _ _ _ _ Hh Hb Hrec Hv).
  rewrite <- is_visible_string_spec, run_try_catch.
  destruct (is_visible_string v) eqn:Hvis.
  - cbn. split; [| done]. split; [done |]. intros _. eauto.
  - split.
    + split; [| done]. intros (xml & source & Hres).
      destruct (run net (assemble_bundle _ _ _)) as [[res | e] sent] eqn:Hrun.
      * apply run_assemble_bundle_normal in Hrun as (xml' & linked & ->).
        cbn in Hres. discriminate.
      * cbn in Hres. discriminate.
    + intros _ Harr.
      rewrite run_assemble_bundle_arrays; [done | | done].
      intros k. apply (field_value_total record (bundle_field env)). eauto.
Qed.

Lemma bundle_prebuilt_iff_visible_string_witness :
  is_visible_string (VNum 5) = false /\
  exists xml,
    outcome (Examples.store_with_bundle (VNum 5))
      (airtableGetContentBundle Examples.never_positive Examples.env
         Examples.rec1) =
    Normal (Assembled "rec1" xml
              (LinkedResources (VArr [VStr "p1"; VStr "p2"]) (VArr [])
                 (VArr []) (VArr []))).
Proof.
  split; [reflexivity |]. eexists.
  etransitivity;
    [apply (bundle_prebuilt_iff_visible_string Examples.never_positive
              (Examples.store_with_bundle (VNum 5)) Examples.env Examples.rec1
              Examples.headers (Examples.rec1_with_bundle (VNum 5)) (VNum 5));
     try (intros []); vm_compute; reflexivity |].
  vm_compute. reflexivity.
Defined.

(** ** The guards *)

Lemma env_read_absent (env : gmap string string) k :
  bool_decide (env !! k = None) = true -> env_read env k = VUndef.
Proof. intros H%bool_decide_eq_true. unfold env_read. by rewrite H. Qed.

Lemma airtable_headers_absent (env : gmap string string) :
  forallb (fun k => bool_decide (env !! k = None))
          ["AIRTABLE_PAT"; "AIRTABLE_API_KEY"; "AIRTABLE_TOKEN"] = true ->
  airtableHeadersOrNull env = None.
Proof.
  cbn [forallb]. rewrite !andb_true_iff. intros (H1 & H2 & H3 & _).
  unfold airtableHeadersOrNull. by rewrite !env_read_absent.
Qed.

Section GuardProperties.
Variable string_gt_zero : string -> bool.
Variable JSON_stringify : value -> string.
Variable new_URL : string -> option string.
Variable search_set : string -> string -> string -> string.
Variable params_toString : list (string * string) -> string.
Variable not_a_function : value -> js_error.

(** C2, amended. Invoked with none of its required configuration keys set,
    a tool sends no request.  Every Airtable tool (hydrate, legacy bundle,
    create request, write-back, the persona and domain lookups by slug, query,
    bulk create, bulk update and both versions of [airtableFetchPersona]), the
    SQL bridge and both versions of the webhook trigger return
    [{ ok: false, skipped: true, reason }] with a non-empty reason; both
    versions of web search return [{ results: [], query, note }], an object
    with neither an [ok] nor a [skipped] property. *)
Theorem unconfigured_tool_sends_nothing net env call :
  unconfigured env call = true ->
  requests net
    (execute string_gt_zero JSON_stringify new_URL search_set params_toString
             not_a_function env call) = [] /\
  exists r,
    outcome net
      (execute string_gt_zero JSON_stringify new_URL search_set params_toString
               not_a_function env call) = Normal r /\
    match call with
    | CallSearch query =>
        exists note,
          r = OfTool (SearchResults query [] note None) /\
          note <> "" /\
          result_ok (SearchResults query [] note None) = None /\
          result_skipped (SearchResults query [] note None) = None /\
          skipped_reason r = None
    | CallTavilySearch context =>
        exists note,
          r = OfSearch (Tavily.NotEnabled (Tavily.query context) note) /\
          note <> "" /\
          skipped_reason r = None
    | _ =>
        exists reason, skipped_reason r = Some reason /\ reason <> ""
    end.
Proof.
  unfold unconfigured, requests, outcome.
  destruct call; cbn [required_keys execute]; intros Hkeys;
    try (pose proof (airtable_headers_absent _ Hkeys) as Hnone);
    unfold returning.
  - unfold airtableGetHydratedContentContext. rewrite Hnone.
    split; [done |]. eexists. split; [done |]. by eexists.
  - unfold airtableGetContentBundle. rewrite Hnone.
    split; [done |]. eexists. split; [done |]. by eexists.
  - unfold airtableCreateContentRequest. rewrite Hnone.
    split; [done |]. eexists. split; [done |]. by eexists.
  - unfold airtableUpdateContentOutput. rewrite Hnone.
    split; [done |]. eexists. split; [done |]. by eexists.
  - unfold airtableGetPersonaContext, lookup_by_slug. rewrite Hnone.
    split; [done |]. eexists. split; [done |]. by eexists.
  - unfold airtableGetDomainKnowledge, lookup_by_slug. rewrite Hnone.
    split; [done |]. eexists. split; [done |]. by eexists.
  - unfold Query.airtableQuery. rewrite Hnone.
    split; [done |]. eexists. split; [done |]. by eexists.
  - unfold Bulk.airtableCreate. rewrite Hnone.
    split; [done |]. eexists. split; [done |]. by eexists.
  - unfold Bulk.airtableUpdate. rewrite Hnone.
    split; [done |]. eexists. split; [done |]. by eexists.
  - unfold Query.airtableFetchPersona. cbv zeta. rewrite Hnone.
    split; [done |]. eexists. split; [done |]. by eexists.
  - cbn [forallb] in Hkeys. apply andb_true_iff in Hkeys as [Hk1 Hk2].
    apply andb_true_iff in Hk2 as [Hk2 _].
    unfold airtableFetchPersona.
    rewrite (env_read_absent _ _ Hk1), (env_read_absent _ _ Hk2).
    cbn [js_or truthy negb orb].
    split; [done |]. eexists. split; [done |]. by eexists.
  - cbn [forallb] in Hkeys. apply andb_true_iff in Hkeys as [Hk _].
    unfold mindsdbQuery. rewrite (env_read_absent _ _ Hk).
    split; [done |]. eexists. split; [done |]. by eexists.
  - cbn [forallb] in Hkeys. apply andb_true_iff in Hkeys as [Hk _].
    unfold n8nTrigger. rewrite (env_read_absent _ _ Hk).
    split; [done |]. eexists. split; [done |]. by eexists.
  - cbn [forallb] in Hkeys. apply andb_true_iff in Hkeys as [Hk _].
    unfold n8nTrigger_legacy. rewrite (env_read_absent _ _ Hk).
    split; [done |]. eexists. split; [done |]. by eexists.
  - cbn [forallb] in Hkeys. apply andb_true_iff in Hkeys as [Hk _].
    unfold webSearch. rewrite (env_read_absent _ _ Hk).
    split; [done |]. eexists. split; [done |]. by eexists.
  - cbn [forallb] in Hkeys. apply andb_true_iff in Hkeys as [Hk _].
    unfold Tavily.webSearch. rewrite (env_read_absent _ _ Hk).
    split; [done |]. eexists. split; [done |]. by eexists.
Qed.
End GuardProperties.

Lemma unconfigured_tool_sends_nothing_witness :
  unconfigured ∅ (CallPersona (SlugInput None "nurse-educator")) = true /\
  requests Examples.store
    (execute Examples.never_positive Cases.plain_json Cases.any_url
             Cases.append_param Cases.plain_params Cases.any_type_error
             ∅ (CallPersona (SlugInput None "nurse-educator"))) = [] /\
  exists r,
    outcome Examples.store
      (execute Examples.never_positive Cases.plain_json Cases.any_url
               Cases.append_param Cases.plain_params Cases.any_type_error
               ∅ (CallPersona (SlugInput None "nurse-educator"))) = Normal r /\
    exists reason, skipped_reason r = Some reason /\ reason <> "".
Proof.
  assert (Hkeys : unconfigured ∅ (CallPersona (SlugInput None "nurse-educator")) =
                  true)
    by (vm_compute; reflexivity).
  split; [exact Hkeys |].
  exact (unconfigured_tool_sends_nothing Examples.never_positive
           Cases.plain_json Cases.any_url Cases.append_param
           Cases.plain_params Cases.any_type_error
           Examples.store ∅ (CallPersona (SlugInput None "nurse-educator"))
           Hkeys).
Defined.

(** C2 as stated fails: with BROWSERBASE_API_KEY absent, web search returns
    an object that has neither [ok: false] nor [skipped: true]. *)
Lemma unconfigured_web_search_is_not_skipped :
  unconfigured ∅ (CallSearch "rn job market") = true /\
  outcome Examples.store (webSearch ∅ "rn job market") =
    Normal (SearchResults "rn job market" []
              "Web search requires BROWSERBASE_API_KEY to be configured" None) /\
  result_ok (SearchResults "rn job market" []
               "Web search requires BROWSERBASE_API_KEY to be configured" None)
    <> Some false /\
  result_skipped (SearchResults "rn job market" []
                    "Web search requires BROWSERBASE_API_KEY to be configured"
                    None)
    <> Some true.
Proof. split_and!; done. Qed.

(** Web scrape, in the same situation, throws. *)
Lemma unconfigured_web_scrape_throws net url :
  run net (webScrape ∅ url) =
  (Throw (Error "BROWSERBASE_API_KEY required for web scraping"), []).
Proof. reflexivity. Qed.

(** ** The webhook URL *)

Lemma append_assoc (s1 s2 s3 : string) :
  (s1 +:+ s2) +:+ s3 = s1 +:+ s2 +:+ s3.
Proof.
  induction s1 as [| c s1 IH]; [done |].
  change (String c ((s1 +:+ s2) +:+ s3) = String c (s1 +:+ s2 +:+ s3)).
  by rewrite IH.
Qed.

Lemma ends_with_spec suffix s :
  ends_with suffix s = true <-> exists stem, s = stem +:+ suffix.
Proof.
  split.
  - induction s as [| c s IH]; cbn [ends_with].
    + rewrite orb_false_r. intros ->%bool_decide_eq_true. by exists "".
    + intros [->%bool_decide_eq_true | Hs]%orb_true_iff; [by exists "" |].
      destruct (IH Hs) as [stem ->]. by exists (String c stem).
  - intros [stem ->]. induction stem as [| c stem IH].
    + change ("" +:+ suffix) with suffix.
      destruct suffix; cbn [ends_with]; by rewrite bool_decide_eq_true_2.
    + change (String c stem +:+ suffix) with (String c (stem +:+ suffix)).
      cbn [ends_with]. rewrite IH. apply orb_true_r.
Qed.

Lemma strip_leading_no_slash s :
  starts_with_slash (strip_leading_slashes s) = false.
Proof.
  induction s as [| c s IH]; [done |]. cbn [strip_leading_slashes].
  by destruct (is_slash c) eqn:Hc.
Qed.

Lemma strip_trailing_no_slash s : ends_with "/" (strip_trailing_slashes s) = false.
Proof.
  induction s as [| c s IH]; [done |]. cbn [strip_trailing_slashes].
  destruct (strip_trailing_slashes s) as [| c' r].
  - destruct (is_slash c) eqn:Hc; [done |].
    unfold is_slash in Hc. apply bool_decide_eq_false in Hc.
    cbn [ends_with]. rewrite bool_decide_eq_false_2 by congruence. done.
  - cbn [ends_with] in *. rewrite IH. by rewrite bool_decide_eq_false_2.
Qed.

Lemma strip_trailing_slashes_only n : strip_trailing_slashes (slashes n) = "".
Proof.
  induction n as [| n IH]; [done |]. cbn [slashes strip_trailing_slashes].
  by rewrite IH.
Qed.

Lemma strip_trailing_app_slashes s n :
  strip_trailing_slashes (s +:+ slashes n) = strip_trailing_slashes s.
Proof.
  induction s as [| c s IH].
  - apply strip_trailing_slashes_only.
  - change (String c s +:+ slashes n) with (String c (s +:+ slashes n)).
    cbn [strip_trailing_slashes]. by rewrite IH.
Qed.

Lemma strip_leading_app_slashes m s :
  strip_leading_slashes (slashes m +:+ s) = strip_leading_slashes s.
Proof. induction m as [| m IH]; [done |]. exact IH. Qed.

Lemma strip_trailing_fixed s :
  ends_with "/" s = false -> strip_trailing_slashes s = s.
Proof.
  induction s as [| c s IH]; [done |]. cbn [ends_with strip_trailing_slashes].
  intros [Hc Hs]%orb_false_iff. apply bool_decide_eq_false in Hc.
  destruct s as [| c' s'].
  - cbn. unfold is_slash. rewrite bool_decide_eq_false_2; [done | congruence].
  - rewrite (IH Hs). done.
Qed.

Lemma ends_with_app_webhook stem :
  ends_with "/" (stem +:+ "/webhook") = false.
Proof.
  induction stem as [| c stem IH]; [done |].
  change (String c stem +:+ "/webhook") with (String c (stem +:+ "/webhook")).
  cbn [ends_with]. rewrite IH, orb_false_r. apply bool_decide_eq_false_2.
  intros [= _ Heq]. by destruct stem.
Qed.

Lemma strip_leading_decompose s :
  exists m, s = slashes m +:+ strip_leading_slashes s.
Proof.
  induction s as [| c s IH]; [by exists 0%nat |].
  cbn [strip_leading_slashes]. destruct (is_slash c) eqn:Hc.
  - destruct IH as [m Hm]. exists (S m).
    apply bool_decide_eq_true in Hc. subst c.
    change (slashes (S m) +:+ strip_leading_slashes s)
      with (String "/" (slashes m +:+ strip_leading_slashes s)).
    by rewrite <- Hm.
  - by exists 0%nat.
Qed.

Lemma append_empty_r (s : string) : s +:+ "" = s.
Proof.
  induction s as [| c s IH]; [done |].
  change (String c (s +:+ "") = String c s). by rewrite IH.
Qed.

Lemma strip_trailing_decompose s :
  exists n, s = strip_trailing_slashes s +:+ slashes n.
Proof.
  induction s as [| c s IH]; [by exists 0%nat |].
  destruct IH as [n Hn]. cbn [strip_trailing_slashes].
  destruct (strip_trailing_slashes s) as [| c' r] eqn:Hs.
  - destruct (is_slash c) eqn:Hc.
    + exists (S n). apply bool_decide_eq_true in Hc. subst c.
      change ("" +:+ slashes n) with (slashes n) in Hn. by rewrite Hn.
    + exists n. change ("" +:+ slashes n) with (slashes n) in Hn.
      by rewrite Hn at 1.
  - exists n. by rewrite Hn at 1.
Qed.

Lemma no_leading_slash path :
  starts_with_slash path = false -> forall s, path <> "/" +:+ s.
Proof. intros Hp s ->. done. Qed.

Lemma no_suffix suffix stem :
  ends_with suffix stem = false -> forall s, stem <> s +:+ suffix.
Proof.
  intros He s ->. rewrite (proj2 (ends_with_spec suffix _)) in He; [done |].
  by exists s.
Qed.

(** C10. Every base is a stem followed by slashes, or a stem followed by
    [/webhook] and slashes, and every scenario is slashes followed by a
    path that does not start with a slash; the URL [joinWebhookUrl] builds
    is then the stem, [/webhook/] and that path.  So exactly one [/webhook]
    segment and single slashes stand between base and scenario, whether or
    not the base already ends in [/webhook] and however many slashes end the
    base or start the scenario. *)
Theorem joinWebhookUrl_one_webhook_segment base scenario :
  (exists stem path n m,
     scenario = slashes m +:+ path /\
     (forall s, path <> "/" +:+ s) /\
     ((base = stem +:+ slashes n /\
       (forall s, stem <> s +:+ "/") /\
       (forall s, stem <> s +:+ "/webhook")) \/
      base = stem +:+ "/webhook" +:+ slashes n) /\
     joinWebhookUrl base scenario = stem +:+ "/webhook/" +:+ path) /\
  (forall stem path n m,
     (forall s, path <> "/" +:+ s) ->
     joinWebhookUrl (stem +:+ "/webhook" +:+ slashes n) (slashes m +:+ path) =
     stem +:+ "/webhook/" +:+ path) /\
  (forall n m, joinWebhookUrl (base +:+ slashes n) (slashes m +:+ scenario) =
               joinWebhookUrl base scenario).
Proof.
  split_and!.
  - destruct (strip_leading_decompose scenario) as [m Hm].
    destruct (strip_trailing_decompose base) as [n Hn].
    pose proof (strip_leading_no_slash scenario) as Hpath.
    pose proof (strip_trailing_no_slash base) as Hb.
    unfold joinWebhookUrl.
    destruct (ends_with "/webhook" (strip_trailing_slashes base)) eqn:Hw.
    + destruct (proj1 (ends_with_spec _ _) Hw) as [stem Hstem].
      exists stem, (strip_leading_slashes scenario), n, m.
      split_and!; [done | by apply no_leading_slash | | ].
      * right. rewrite Hn at 1. by rewrite Hstem, append_assoc.
      * by rewrite Hstem, append_assoc.
    + exists (strip_trailing_slashes base), (strip_leading_slashes scenario), n, m.
      split_and!; [done | by apply no_leading_slash | | ].
      * left. split_and!; [done | by apply no_suffix | by apply no_suffix].
      * by rewrite append_assoc.
  - intros stem path n m Hpath. unfold joinWebhookUrl.
    rewrite <- (append_assoc stem "/webhook" (slashes n)).
    rewrite strip_trailing_app_slashes.
    rewrite (strip_trailing_fixed _ (ends_with_app_webhook stem)).
    rewrite (proj2 (ends_with_spec _ _)) by eauto.
    rewrite strip_leading_app_slashes.
    assert (strip_leading_slashes path = path) as ->.
    { destruct path as [| c path']; [done |]. cbn [strip_leading_slashes].
      destruct (is_slash c) eqn:Hc; [| done].
      apply bool_decide_eq_true in Hc. subst c. by destruct (Hpath path'). }
    by rewrite append_assoc.
  - intros n m. unfold joinWebhookUrl.
    by rewrite strip_trailing_app_slashes, strip_leading_app_slashes.
Qed.

Example joinWebhookUrl_examples :
  joinWebhookUrl "http://n8n:5678" "repurposer" =
    "http://n8n:5678/webhook/repurposer" /\
  joinWebhookUrl "http://n8n:5678/webhook///" "//repurposer/test" =
    "http://n8n:5678/webhook/repurposer/test".
Proof. split; reflexivity. Qed.

(** * Further properties *)

(** ** Requests of a program *)

Lemma requests_bind {A B : Type} net (m : prog A) (f : A -> prog B) :
  requests net (bind m f) =
  requests net m ++
  match outcome net m with
  | Normal a => requests net (f a)
  | Throw _ => []
  end.
Proof.
  unfold requests, outcome. rewrite run_bind.
  destruct (run net m) as [[a | e] sent]; cbn [fst snd].
  - by destruct (run net (f a)).
  - by rewrite app_nil_r.
Qed.

Lemma requests_try_catch {A : Type} net (m : prog A) (h : js_error -> prog A) :
  requests net (try_catch m h) =
  requests net m ++
  match outcome net m with
  | Normal _ => []
  | Throw e => requests net (h e)
  end.
Proof.
  unfold requests, outcome. rewrite run_try_catch.
  destruct (run net m) as [[a | e] sent]; cbn [fst snd].
  - by rewrite app_nil_r.
  - by destruct (run net (h e)).
Qed.

Lemma Forall_requests_bind {A B : Type} (P : request -> Prop) net
  (m : prog A) (f : A -> prog B) :
  Forall P (requests net m) ->
  (forall a, Forall P (requests net (f a))) ->
  Forall P (requests net (bind m f)).
Proof.
  intros Hm Hf. rewrite requests_bind. apply Forall_app. split; [done |].
  destruct (outcome net m); [apply Hf | constructor].
Qed.

Lemma no_fetch_requests {A : Type} net (m : prog A) :
  no_fetch m -> requests net m = [].
Proof. by destruct m. Qed.

Lemma no_fetch_bind {A B : Type} (m : prog A) (f : A -> prog B) :
  no_fetch m -> (forall a, no_fetch (f a)) -> no_fetch (bind m f).
Proof. destruct m; cbn; auto. Qed.

Lemma no_fetch_read v k : no_fetch (read v k).
Proof. unfold read. by destruct (get_prop v k). Qed.

Lemma no_fetch_field record k : no_fetch (field record k).
Proof.
  unfold field. apply no_fetch_bind; [apply no_fetch_read |].
  intros a. apply no_fetch_read.
Qed.

Lemma no_fetch_res_json r : no_fetch (res_json r).
Proof. unfold res_json. by destruct (json r). Qed.

Lemma no_fetch_push_scalar record k tag parts :
  no_fetch (push_scalar record k tag parts).
Proof.
  unfold push_scalar. apply no_fetch_bind; [apply no_fetch_field |].
  intros v. destruct (truthy v); [| done].
  apply no_fetch_bind; [apply no_fetch_field | done].
Qed.

Lemma no_fetch_push_linked string_gt_zero tag xs parts :
  no_fetch (push_linked string_gt_zero tag xs parts).
Proof.
  unfold push_linked. apply no_fetch_bind; [apply no_fetch_read |].
  intros len. destruct (js_gt_zero string_gt_zero len); [| done].
  apply no_fetch_bind; [| done]. unfold call_join. by destruct xs.
Qed.

Lemma no_fetch_assemble_bundle string_gt_zero context record :
  no_fetch (assemble_bundle string_gt_zero context record).
Proof.
  unfold assemble_bundle.
  repeat first
    [ apply no_fetch_bind;
      [ first [ apply no_fetch_field | apply no_fetch_push_scalar
              | apply no_fetch_push_linked ] | intros ? ]
    | done ].
Qed.

(** ** The configuration chains *)

Lemma headers_first_nonempty env :
  airtableHeadersOrNull env = bearer_headers <$> first_nonempty (token_candidates env).
Proof.
  unfold airtableHeadersOrNull, token_candidates, env_read, bearer_headers.
  destruct (env !! "AIRTABLE_PAT") as [[| c1 s1] |];
    destruct (env !! "AIRTABLE_API_KEY") as [[| c2 s2] |];
    destruct (env !! "AIRTABLE_TOKEN") as [[| c3 s3] |]; reflexivity.
Qed.

Lemma base_first_nonempty env context :
  match first_nonempty (base_candidates env context) with
  | Some b => resolve_base env context = VStr b /\ truthy (VStr b) = true
  | None => truthy (resolve_base env context) = false
  end.
Proof.
  unfold resolve_base, base_candidates, env_read, opt_value.
  destruct (baseId context) as [[| c1 s1] |];
    destruct (env !! "AIRTABLE_BASE_ID") as [[| c2 s2] |];
    destruct (env !! "AIRTABLE_CONTENT_BASE_ID") as [[| c3 s3] |];
    cbn; auto.
Qed.

Lemma Forall_requests_pure {A : Type} (P : request -> Prop) net (m : prog A) :
  no_fetch m -> Forall P (requests net m).
Proof. intros Hm. rewrite no_fetch_requests by done. constructor. Qed.

Lemma requests_fetch net req : requests net (fetch req) = [req].
Proof. unfold requests. by rewrite run_fetch. Qed.

Lemma child_request_is_read headers base tables table id :
  table ∈ tables ->
  is_record_read headers base tables (child_request headers base table id).
Proof.
  intros Htable. unfold is_record_read, child_request.
  split_and!; try done. by exists table, id.
Qed.

Lemma fetch_each_reads net headers base tables table ids acc :
  table ∈ tables ->
  Forall (is_record_read headers base tables)
         (requests net (fetch_each headers base table ids acc)).
Proof.
  intros Htable. revert acc. induction ids as [| id rest IH]; intros acc.
  - constructor.
  - rewrite fetch_each_cons. apply Forall_requests_bind.
    + rewrite requests_fetch. by apply Forall_singleton, child_request_is_read.
    + intros r. destruct (ok r); [| apply IH].
      apply Forall_requests_bind;
        [apply Forall_requests_pure, no_fetch_res_json | intros record; apply IH].
Qed.

Lemma fetchByIds_reads net headers base tables table ids xmlField :
  table ∈ tables ->
  Forall (is_record_read headers base tables)
         (requests net (fetchByIds headers base table ids xmlField)).
Proof.
  intros Htable. unfold fetchByIds. destruct (iterate ids) as [l |]; [| constructor].
  apply Forall_requests_bind; [by apply fetch_each_reads |].
  intros results. constructor.
Qed.

Lemma hydrate_body_reads net env context headers base :
  Forall (is_record_read headers base (hydrate_tables env))
         (requests net (hydrate_body env context headers base)).
Proof.
  unfold hydrate_body. apply Forall_requests_bind.
  { rewrite requests_fetch. apply Forall_singleton.
    apply (child_request_is_read headers base _ _ (VStr (initiatorId context))).
    unfold hydrate_tables. set_solver. }
  intros r. destruct (negb (ok r)); [constructor |].
  apply Forall_requests_bind;
    [apply Forall_requests_pure, no_fetch_res_json | intros init].
  do 4 (apply Forall_requests_bind;
          [apply Forall_requests_pure, no_fetch_field | intros ?]).
  apply Forall_requests_bind;
    [apply fetchByIds_reads; unfold hydrate_tables, category_table; set_solver
    | intros ?].
  apply Forall_requests_bind;
    [apply fetchByIds_reads; unfold hydrate_tables, category_table; set_solver
    | intros ?].
  apply Forall_requests_bind;
    [apply fetchByIds_reads; unfold hydrate_tables, category_table; set_solver
    | intros ?].
  apply Forall_requests_bind;
    [apply fetchByIds_reads; unfold hydrate_tables, category_table; set_solver
    | intros ?].
  do 3 (apply Forall_requests_bind;
          [apply Forall_requests_pure, no_fetch_push_scalar | intros ?]).
  constructor.
Qed.

Lemma requests_catch_value {A : Type} net (m : prog A) (h : js_error -> A) :
  requests net (try_catch m (fun e => Ret (h e))) = requests net m.
Proof.
  rewrite requests_try_catch. destruct (outcome net m); apply app_nil_r.
Qed.

(** The body of the legacy tool sends the initiator request and nothing
    else. *)
Lemma bundle_body_requests string_gt_zero net env context headers base :
  requests net (bundle_body string_gt_zero env context headers base) =
  [initiator_request env context headers base].
Proof.
  unfold bundle_body. rewrite requests_bind, requests_fetch.
  change (get_request _ headers) with (initiator_request env context headers base).
  destruct (outcome net (fetch _)) as [r | e]; [| done].
  destruct (negb (ok r)); [done |].
  rewrite no_fetch_requests; [done |].
  apply no_fetch_bind; [apply no_fetch_res_json | intros record].
  apply no_fetch_bind; [apply no_fetch_field | intros v].
  destruct (prebuilt_usable v); [done | apply no_fetch_assemble_bundle].
Qed.

Lemma bundle_body_not_skipped string_gt_zero net env context headers base :
  completion_skipped
    (outcome net (try_catch
                    (bundle_body string_gt_zero env context headers base)
                    (fun error => Ret (Failed (message error))))) = false.
Proof.
  unfold outcome. rewrite run_try_catch.
  destruct (run net (bundle_body _ _ _ _ _)) as [[result | e] sent] eqn:Hrun;
    [| done].
  cbn [fst]. unfold bundle_body in Hrun.
  apply run_bind_normal in Hrun as (r & ? & ? & _ & Hrun & _).
  destruct (negb (ok r)); [by injection Hrun as <- |].
  apply run_bind_normal in Hrun as (record & ? & ? & _ & Hrun & _).
  apply run_bind_normal in Hrun as (v & ? & ? & _ & Hrun & _).
  destruct (prebuilt_usable v); [by injection Hrun as <- |].
  by apply run_assemble_bundle_normal in Hrun as (xml & linked & ->).
Qed.

Lemma hydrate_body_not_skipped net env context headers base :
  completion_skipped
    (outcome net (try_catch (hydrate_body env context headers base)
                    (fun error => Ret (Failed (message error))))) = false.
Proof.
  unfold outcome. rewrite run_try_catch.
  destruct (run net (hydrate_body _ _ _ _)) as [[result | e] sent] eqn:Hrun;
    [| done].
  cbn [fst].
  by apply hydrate_body_returns in Hrun
    as [(r & _ & _ & -> & _) | (r & init & ids & _ & _ & _ & _ & -> & _)].
Qed.

Lemma hydrate_cases env context :
  match first_nonempty (token_candidates env),
        first_nonempty (base_candidates env context) with
  | None, _ =>
      airtableGetHydratedContentContext env context =
      Ret (Skipped "Airtable not configured (no PAT/API key)")
  | Some _, None =>
      airtableGetHydratedContentContext env context =
      Ret (Skipped "No Airtable Base ID configured")
  | Some token, Some base =>
      airtableGetHydratedContentContext env context =
      try_catch (hydrate_body env context (bearer_headers token) (VStr base))
                (fun error => Ret (Failed (message error)))
  end.
Proof.
  unfold airtableGetHydratedContentContext. rewrite headers_first_nonempty.
  pose proof (base_first_nonempty env context) as Hbase.
  destruct (first_nonempty (token_candidates env)) as [token |];
    cbn [fmap option_fmap option_map].
  2: { by destruct (first_nonempty (base_candidates env context)). }
  destruct (first_nonempty (base_candidates env context)) as [base |].
  - destruct Hbase as [-> Hb]. by rewrite Hb.
  - by rewrite Hbase.
Qed.

Lemma bundle_cases string_gt_zero env context :
  match first_nonempty (token_candidates env),
        first_nonempty (base_candidates env context) with
  | None, _ =>
      airtableGetContentBundle string_gt_zero env context =
      Ret (Skipped "Airtable not configured (no PAT/API key)")
  | Some _, None =>
      airtableGetContentBundle string_gt_zero env context =
      Ret (Skipped "No Airtable Base ID configured")
  | Some token, Some base =>
      airtableGetContentBundle string_gt_zero env context =
      try_catch (bundle_body string_gt_zero env context
                   (bearer_headers token) (VStr base))
                (fun error => Ret (Failed (message error)))
  end.
Proof.
  unfold airtableGetContentBundle. rewrite headers_first_nonempty.
  pose proof (base_first_nonempty env context) as Hbase.
  destruct (first_nonempty (token_candidates env)) as [token |];
    cbn [fmap option_fmap option_map].
  2: { by destruct (first_nonempty (base_candidates env context)). }
  destruct (first_nonempty (base_candidates env context)) as [base |].
  - destruct Hbase as [-> Hb]. by rewrite Hb.
  - by rewrite Hbase.
Qed.

(** X1. The two bundle tools report [skipped] exactly when no token or no
    base id is configured, an empty string counting as not set.  The token
    is the first usable one of AIRTABLE_PAT, AIRTABLE_API_KEY and
    AIRTABLE_TOKEN; the base id is the first usable one of the [baseId]
    input, AIRTABLE_BASE_ID and AIRTABLE_CONTENT_BASE_ID.  Without a token,
    or with a token and no base id, both tools return the matching reason
    and send nothing; with both, neither returns [skipped]. *)
Theorem bundle_tools_skip_exactly_when_unconfigured
  string_gt_zero net env context :
  let hydrate := airtableGetHydratedContentContext env context in
  let bundle := airtableGetContentBundle string_gt_zero env context in
  match first_nonempty (token_candidates env),
        first_nonempty (base_candidates env context) with
  | None, _ =>
      run net hydrate =
        (Normal (Skipped "Airtable not configured (no PAT/API key)"), []) /\
      run net bundle =
        (Normal (Skipped "Airtable not configured (no PAT/API key)"), [])
  | Some _, None =>
      run net hydrate = (Normal (Skipped "No Airtable Base ID configured"), []) /\
      run net bundle = (Normal (Skipped "No Airtable Base ID configured"), [])
  | Some token, Some base =>
      completion_skipped (outcome net hydrate) = false /\
      completion_skipped (outcome net bundle) = false
  end.
Proof.
  intros hydrate bundle. subst hydrate bundle.
  pose proof (hydrate_cases env context) as Hh.
  pose proof (bundle_cases string_gt_zero env context) as Hb.
  destruct (first_nonempty (token_candidates env)) as [token |];
    [destruct (first_nonempty (base_candidates env context)) as [base |] |];
    rewrite Hh, Hb; try done.
  split; [apply hydrate_body_not_skipped | apply bundle_body_not_skipped].
Qed.

Example skip_with_empty_token_and_no_base :
  run Examples.store
      (airtableGetHydratedContentContext Cases.env_without_base Examples.rec1) =
  (Normal (Skipped "No Airtable Base ID configured"), []).
Proof. vm_compute. reflexivity. Qed.

(** X2. Every request the hydrate tool sends, in any run, is a GET without
    body that carries the bearer token, and the string handed to [fetch] is
    the record URL built from the configured base id, one of the five
    configured tables (initiators, personas, domains, entities, references)
    and an id: the tool never sends a write.  Base id and ids are inserted
    as they are, so the statement is about the URL as a string and not about
    the path it resolves to. *)
Theorem hydrate_only_reads_the_store net env context :
  Forall (fun req =>
            exists token base,
              first_nonempty (token_candidates env) = Some token /\
              first_nonempty (base_candidates env context) = Some base /\
              is_record_read (bearer_headers token) (VStr base)
                             (hydrate_tables env) req)
         (requests net (airtableGetHydratedContentContext env context)).
Proof.
  pose proof (hydrate_cases env context) as Hh.
  destruct (first_nonempty (token_candidates env)) as [token |];
    [destruct (first_nonempty (base_candidates env context)) as [base |] |];
    rewrite Hh; try constructor.
  rewrite requests_catch_value.
  eapply Forall_impl; [apply hydrate_body_reads |].
  intros req Hreq. by exists token, base.
Qed.

(** X3. Once token and base id are configured, the legacy bundle tool sends
    exactly one request, the read of the initiator record, whatever the
    store answers; unconfigured it sends none.  It never fetches a linked
    record. *)
Theorem bundle_sends_one_request string_gt_zero net env context :
  requests net (airtableGetContentBundle string_gt_zero env context) =
  match first_nonempty (token_candidates env),
        first_nonempty (base_candidates env context) with
  | Some token, Some base =>
      [initiator_request env context (bearer_headers token) (VStr base)]
  | _, _ => []
  end.
Proof.
  pose proof (bundle_cases string_gt_zero env context) as Hb.
  destruct (first_nonempty (token_candidates env)) as [token |];
    [destruct (first_nonempty (base_candidates env context)) as [base |] |];
    rewrite Hb; try done.
  rewrite requests_catch_value. apply bundle_body_requests.
Qed.

(** X4. A run of the hydrate tool that returns the hydrated bundle sent the
    initiator request first and then one request per linked id, category by
    category in the order Persona, Domain, Entity, Reference and, within a
    category, in the order of the relation: one plus the number of linked
    ids in all. *)
Theorem hydrate_request_sequence net env context id xml counts sent :
  run net (airtableGetHydratedContentContext env context) =
    (Normal (Hydrated id xml counts), sent) ->
  exists headers init ids,
    airtableHeadersOrNull env = Some headers /\
    initiator_record net env context headers (resolve_base env context) =
      Some init /\
    (forall c, linked_ids init c = Some (ids c)) /\
    let base := resolve_base env context in
    sent =
      initiator_request env context headers base ::
      map (child_request headers base (category_table env Persona)) (ids Persona) ++
      map (child_request headers base (category_table env Domain)) (ids Domain) ++
      map (child_request headers base (category_table env Entity)) (ids Entity) ++
      map (child_request headers base (category_table env Reference))
          (ids Reference) /\
    length sent =
      S (length (ids Persona) + length (ids Domain) +
         length (ids Entity) + length (ids Reference)).
Proof.
  intros Hrun.
  apply hydrate_hydrated_inv in Hrun as (headers & Hh & Hb & Hrun).
  apply hydrate_body_normal in Hrun
    as (r & init & ids & Hnet & Hok & Hj & Hids & -> & -> & -> & ->).
  exists headers, init, ids. split; [done |]. split.
  { unfold initiator_record. by rewrite Hnet, Hok, Hj. }
  split; [done |]. cbv zeta. split; [done |].
  unfold child_requests, category_requests.
  cbn [length]. rewrite !length_app, !length_map. lia.
Qed.

Lemma hydrate_request_sequence_witness :
  exists sent,
    run Examples.store
        (airtableGetHydratedContentContext Examples.env Examples.rec1) =
      (Normal (Hydrated "rec1"
                 (join newline
                    (document_lines "rec1" Examples.rec1_fields
                       (category_texts Examples.store Examples.env
                          Examples.headers
                          (resolve_base Examples.env Examples.rec1)
                          Examples.rec1_ids)))
                 (LinkedCounts 1 0 1 0)), sent) /\
    length sent = 5%nat.
Proof.
  eexists. split; [vm_compute; reflexivity |].
  match goal with
  | |- length ?sent = _ =>
      destruct (hydrate_request_sequence Examples.store Examples.env
                  Examples.rec1 "rec1"
                  (join newline
                     (document_lines "rec1" Examples.rec1_fields
                        (category_texts Examples.store Examples.env
                           Examples.headers
                           (resolve_base Examples.env Examples.rec1)
                           Examples.rec1_ids)))
                  (LinkedCounts 1 0 1 0) sent)
        as (headers & init & ids & _ & _ & _ & _ & _)
  end; vm_compute; reflexivity.
Defined.

(** ** Edge cases of the hydrate tool *)

Lemma collected_empty net headers base table xmlField :
  collected net headers base table xmlField [] = [].
Proof. reflexivity. Qed.

(** X5. For an initiator record without linked ids (each relation absent,
    falsy or an empty array), the hydrate tool sends the initiator request
    only and returns a document made of the initiator block and the closing
    line, with no category container, and counts that are all zero. *)
Theorem hydrate_without_links net env context headers init :
  airtableHeadersOrNull env = Some headers ->
  truthy (resolve_base env context) = true ->
  initiator_record net env context headers (resolve_base env context) =
    Some init ->
  (forall c, linked_ids init c = Some []) ->
  run net (airtableGetHydratedContentContext env context) =
  (Normal (Hydrated (initiatorId context)
             (join newline
                (initiator_block (initiatorId context) init ++ ["</bundle>"]))
             (LinkedCounts 0 0 0 0)),
   [initiator_request env context headers (resolve_base env context)]).
Proof.
  intros Hh Hb Hinit Hids.
  apply initiator_record_inv in Hinit as (r & Hnet & Hok & Hj).
  rewrite (hydrate_configured _ _ _ Hh Hb), run_try_catch.
  by rewrite (hydrate_body_settled _ _ _ _ _ r init (fun _ => [])).
Qed.

Lemma hydrate_without_links_witness :
  run Cases.store (airtableGetHydratedContentContext Examples.env Cases.rec2) =
  (Normal (Hydrated "rec2"
             (join newline
                (initiator_block "rec2" Cases.rec2_fields ++ ["</bundle>"]))
             (LinkedCounts 0 0 0 0)),
   [initiator_request Examples.env Cases.rec2 Examples.headers
      (resolve_base Examples.env Cases.rec2)]).
Proof.
  apply (hydrate_without_links Cases.store Examples.env Cases.rec2
           Examples.headers Cases.rec2_fields);
    try (intros []); vm_compute; reflexivity.
Defined.

Lemma collected_map net headers base table xmlField ids :
  collected net headers base table xmlField ids =
  map (text_of net headers base table xmlField)
      (List.filter (resolves_nonempty net headers base table xmlField) ids).
Proof.
  unfold collected.
  induction ids as [| id rest IH]; [done |].
  cbn [omap list_omap List.filter]. unfold resolves_nonempty at 1.
  destruct (kept_record net headers base table id) as [record |] eqn:Hk.
  - cbn [map List.filter].
    destruct (truthy (xml_of xmlField record)); [| done].
    cbn [map]. unfold text_of at 1. rewrite Hk. by rewrite IH.
  - done.
Qed.

(** X6. In the document of a hydrated result, the text lines of a category
    follow the order of its relation in the initiator record the store
    returned: they are, for the linked ids of that record that resolve to a
    non-empty text and in the order the relation lists them (an id listed
    twice is fetched and embedded twice), the text of the fetched record
    after four spaces, unescaped. *)
Theorem hydrated_texts_follow_the_relation
  net env context headers init ids id xml counts :
  airtableHeadersOrNull env = Some headers ->
  initiator_record net env context headers (resolve_base env context) =
    Some init ->
  (forall c, linked_ids init c = Some (ids c)) ->
  outcome net (airtableGetHydratedContentContext env context) =
    Normal (Hydrated id xml counts) ->
  let base := resolve_base env context in
  let lines c :=
    match List.filter (resolves_nonempty net headers base
                         (category_table env c) (knowledge_field c)) (ids c)
    with
    | [] => []
    | kept =>
        ["  <" +:+ container_tag c +:+ ">"] ++
        map (fun id =>
               "    " +:+
               to_string (text_of net headers base (category_table env c)
                            (knowledge_field c) id))
            kept ++
        ["  </" +:+ container_tag c +:+ ">"]
    end in
  xml = join newline
          (initiator_block (initiatorId context) init ++
           lines Persona ++ lines Domain ++ lines Entity ++ lines Reference ++
           ["</bundle>"]).
Proof.
  intros Hh Hinit Hlinked Hout. unfold outcome in Hout.
  destruct (run net _) as [res sent] eqn:Hrun. cbn [fst] in Hout. subst res.
  apply hydrate_hydrated_inv in Hrun as (headers' & Hh' & Hb & Hrun).
  assert (headers' = headers) as -> by congruence.
  apply hydrate_body_normal in Hrun
    as (r & init' & ids' & Hnet & Hok & Hj & Hids & -> & -> & -> & ->).
  assert (init' = init) as ->.
  { unfold initiator_record in Hinit. rewrite Hnet, Hok, Hj in Hinit.
    congruence. }
  assert (Hsame : forall c, ids' c = ids c).
  { intros c. specialize (Hids c). specialize (Hlinked c). congruence. }
  cbv zeta. unfold document_lines. do 2 f_equal.
  assert (Hc : forall c,
    container c (category_texts net env headers (resolve_base env context) ids' c) =
    match List.filter (resolves_nonempty net headers (resolve_base env context)
                         (category_table env c) (knowledge_field c)) (ids c)
    with
    | [] => []
    | kept =>
        ["  <" +:+ container_tag c +:+ ">"] ++
        map (fun id =>
               "    " +:+
               to_string (text_of net headers (resolve_base env context)
                            (category_table env c) (knowledge_field c) id))
            kept ++
        ["  </" +:+ container_tag c +:+ ">"]
    end).
  { intros c. unfold category_texts, container. rewrite collected_map, Hsame.
    destruct (List.filter _ (ids c)) as [| x kept]; [done |].
    cbn [map]. by rewrite map_map. }
  by rewrite !Hc.
Qed.

Lemma hydrated_texts_follow_the_relation_witness :
  outcome Cases.ordered_store
    (airtableGetHydratedContentContext Examples.env Cases.rec4) =
  Normal (Hydrated "rec4"
            (join newline
               (initiator_block "rec4" Cases.rec4_fields ++
                ["  <personas>";
                 "    <persona>B</persona>";
                 "    <persona>A</persona>";
                 "    <persona>B</persona>";
                 "  </personas>";
                 "</bundle>"]))
            (LinkedCounts 3 0 0 0)).
Proof.
  assert (Hout : exists xml,
            outcome Cases.ordered_store
              (airtableGetHydratedContentContext Examples.env Cases.rec4) =
            Normal (Hydrated "rec4" xml (LinkedCounts 3 0 0 0)))
    by (eexists; vm_compute; reflexivity).
  destruct Hout as [xml Hout]. rewrite Hout. do 2 f_equal.
  assert (Hinit : initiator_record Cases.ordered_store Examples.env Cases.rec4
                    Examples.headers (resolve_base Examples.env Cases.rec4) =
                  Some Cases.rec4_fields)
    by (vm_compute; reflexivity).
  assert (Hids : forall c, linked_ids Cases.rec4_fields c = Some (Cases.rec4_ids c))
    by (intros []; vm_compute; reflexivity).
  rewrite (hydrated_texts_follow_the_relation Cases.ordered_store Examples.env
             Cases.rec4 Examples.headers Cases.rec4_fields Cases.rec4_ids
             "rec4" xml (LinkedCounts 3 0 0 0) eq_refl Hinit Hids Hout).
  vm_compute. reflexivity.
Defined.

Lemma run_field_none net record k :
  field_value record k = None ->
  exists e, run net (field record k) = (Throw e, []).
Proof.
  unfold field, field_value, read.
  destruct (get_prop record "fields") as [fields |]; cbn [bind]; [| by eexists].
  intros ->. by eexists.
Qed.

(** X7. When the initiator record is read but its [fields] cannot be read
    (the body is [null] or has no [fields]), the hydrate tool returns
    [{ ok: false, error }] and has sent the initiator request only. *)
Theorem hydrate_root_without_fields net env context headers init :
  airtableHeadersOrNull env = Some headers ->
  truthy (resolve_base env context) = true ->
  initiator_record net env context headers (resolve_base env context) =
    Some init ->
  field_value init "Personas" = None ->
  exists error,
    run net (airtableGetHydratedContentContext env context) =
    (Normal (Failed error),
     [initiator_request env context headers (resolve_base env context)]).
Proof.
  intros Hh Hb Hinit Hnone.
  apply initiator_record_inv in Hinit as (r & Hnet & Hok & Hj).
  destruct (run_field_none net init "Personas" Hnone) as [e He].
  exists (message e).
  rewrite (hydrate_configured _ _ _ Hh Hb), run_try_catch.
  unfold hydrate_body. rewrite run_bind, run_fetch.
  unfold initiator_request in Hnet. rewrite Hnet. cbv beta iota zeta.
  rewrite Hok. cbn [negb].
  rewrite run_bind, run_res_json, Hj. cbv beta iota zeta.
  by rewrite run_bind, He.
Qed.

Lemma hydrate_root_without_fields_witness :
  exists error,
    run Cases.store (airtableGetHydratedContentContext Examples.env Cases.rec3) =
    (Normal (Failed error),
     [initiator_request Examples.env Cases.rec3 Examples.headers
        (resolve_base Examples.env Cases.rec3)]).
Proof.
  apply (hydrate_root_without_fields Cases.store Examples.env Cases.rec3
           Examples.headers Cases.rec3_body);
    vm_compute; reflexivity.
Defined.

Section ChildError.
Variable net : network.
Variable headers : list (string * string).
Variable base : value.

Lemma run_fetch_each_error table pre id post acc e :
  forallb (settles net headers base table) pre = true ->
  child_error net headers base table id = Some e ->
  run net (fetch_each headers base table (pre ++ id :: post) acc) =
  (Throw e, map (child_request headers base table) (pre ++ [id])).
Proof.
  intros Hpre Hid. revert acc.
  induction pre as [| a pre IH]; intros acc.
  - cbn [app]. rewrite fetch_each_cons, run_bind, run_fetch.
    unfold child_error in Hid.
    destruct (net (child_request headers base table id)) as [r |].
    + destruct (ok r); [| done].
      destruct (json r) as [v | e'] eqn:Hj; [done |]. injection Hid as ->.
      cbv beta iota zeta. by rewrite run_bind, run_res_json, Hj.
    + by injection Hid as ->.
  - cbn [forallb] in Hpre. apply andb_prop in Hpre as [Ha Hpre].
    cbn [app map]. rewrite fetch_each_cons. unfold settles in Ha.
    destruct (net (child_request headers base table a)) as [r |] eqn:Hnet;
      [| done].
    rewrite run_bind, run_fetch, Hnet. cbv beta iota zeta.
    destruct (ok r).
    + destruct (json r) as [record | e'] eqn:Hj; [| done].
      rewrite run_bind, run_res_json, Hj. cbv beta iota zeta.
      by rewrite (IH Hpre).
    + by rewrite (IH Hpre).
Qed.

Lemma run_fetchByIds_error table ids xmlField pre id post e :
  iterate ids = Some (pre ++ id :: post) ->
  forallb (settles net headers base table) pre = true ->
  child_error net headers base table id = Some e ->
  run net (fetchByIds headers base table ids xmlField) =
  (Throw e, map (child_request headers base table) (pre ++ [id])).
Proof.
  intros Hit Hpre Hid. unfold fetchByIds. rewrite Hit.
  by rewrite run_bind, (run_fetch_each_error _ _ _ _ _ e).
Qed.
End ChildError.

(** X8. The hydrate tool stops at the first child fetch that throws.  When
    the initiator record is read, every child of the earlier categories and
    every earlier child of category [c] settles, and the fetch of the next
    child rejects (or its 2xx body does not parse), the tool returns
    [{ ok: false, error }] with the message of that error, and the requests
    sent end with the request for that child: no later child is fetched. *)
Theorem hydrate_stops_at_first_child_error
  net env context headers init ids c pre id post e :
  airtableHeadersOrNull env = Some headers ->
  truthy (resolve_base env context) = true ->
  initiator_record net env context headers (resolve_base env context) =
    Some init ->
  (forall c', linked_ids init c' = Some (ids c')) ->
  (forall c',
     precedes c' c = true ->
     forallb (settles net headers (resolve_base env context)
                (category_table env c')) (ids c') = true) ->
  ids c = pre ++ id :: post ->
  forallb (settles net headers (resolve_base env context)
             (category_table env c)) pre = true ->
  child_error net headers (resolve_base env context) (category_table env c) id =
    Some e ->
  run net (airtableGetHydratedContentContext env context) =
  (Normal (Failed (message e)),
   initiator_request env context headers (resolve_base env context) ::
   child_requests env headers (resolve_base env context)
     (ids_until ids c (pre ++ [id]))).
Proof.
  intros Hh Hb Hinit Hids Hbefore Hc Hpre He.
  apply initiator_record_inv in Hinit as (r & Hnet & Hok & Hj).
  destruct (linked_ids_inv init Persona _ (Hids Persona)) as (vp & Hp & Hlp).
  destruct (linked_ids_inv init Domain _ (Hids Domain)) as (vd & Hd & Hld).
  destruct (linked_ids_inv init Entity _ (Hids Entity)) as (ve & Hen & Hle).
  destruct (linked_ids_inv init Reference _ (Hids Reference))
    as (vr & Hr & Hlr).
  cbn [relation_field] in Hp, Hd, Hen, Hr.
  rewrite (hydrate_configured _ _ _ Hh Hb), run_try_catch.
  unfold hydrate_body. rewrite run_bind, run_fetch.
  unfold initiator_request in Hnet. rewrite Hnet. cbv beta iota zeta.
  rewrite Hok. cbn [negb].
  rewrite run_bind, run_res_json, Hj. cbv beta iota zeta.
  rewrite run_bind, (run_field_some _ _ _ _ Hp). cbv beta iota zeta.
  rewrite run_bind, (run_field_some _ _ _ _ Hd). cbv beta iota zeta.
  rewrite run_bind, (run_field_some _ _ _ _ Hen). cbv beta iota zeta.
  rewrite run_bind, (run_field_some _ _ _ _ Hr). cbv beta iota zeta.
  unfold child_requests, category_requests, ids_until.
  destruct c; cbn [precedes category_table] in *.
  - rewrite Hc in Hlp.
    rewrite run_bind, (run_fetchByIds_error _ _ _ _ _ _ _ _ _ e Hlp Hpre He).
    cbn. by rewrite !app_nil_r.
  - rewrite run_bind,
      (run_fetchByIds_settled _ _ _ _ _ _ _ Hlp (Hbefore Persona eq_refl)).
    cbv beta iota zeta. rewrite Hc in Hld.
    rewrite run_bind, (run_fetchByIds_error _ _ _ _ _ _ _ _ _ e Hld Hpre He).
    cbn. by rewrite !app_nil_r.
  - rewrite run_bind,
      (run_fetchByIds_settled _ _ _ _ _ _ _ Hlp (Hbefore Persona eq_refl)).
    cbv beta iota zeta.
    rewrite run_bind,
      (run_fetchByIds_settled _ _ _ _ _ _ _ Hld (Hbefore Domain eq_refl)).
    cbv beta iota zeta. rewrite Hc in Hle.
    rewrite run_bind, (run_fetchByIds_error _ _ _ _ _ _ _ _ _ e Hle Hpre He).
    cbn. by rewrite !app_nil_r.
  - rewrite run_bind,
      (run_fetchByIds_settled _ _ _ _ _ _ _ Hlp (Hbefore Persona eq_refl)).
    cbv beta iota zeta.
    rewrite run_bind,
      (run_fetchByIds_settled _ _ _ _ _ _ _ Hld (Hbefore Domain eq_refl)).
    cbv beta iota zeta.
    rewrite run_bind,
      (run_fetchByIds_settled _ _ _ _ _ _ _ Hle (Hbefore Entity eq_refl)).
    cbv beta iota zeta. rewrite Hc in Hlr.
    rewrite run_bind, (run_fetchByIds_error _ _ _ _ _ _ _ _ _ e Hlr Hpre He).
    cbn. by rewrite !app_nil_r.
Qed.

Lemma hydrate_stops_at_first_child_error_witness :
  exists sent,
    run Cases.store_p2_unreachable
        (airtableGetHydratedContentContext Examples.env Examples.rec1) =
      (Normal (Failed "socket hang up"), sent) /\
    map req_url sent =
      [Examples.api +:+ "Content%20Initiators/rec1";
       Examples.api +:+ "Personas/p1";
       Examples.api +:+ "Personas/p2"].
Proof.
  eexists. split.
  - apply (hydrate_stops_at_first_child_error Cases.store_p2_unreachable
             Examples.env Examples.rec1 Examples.headers Examples.rec1_fields
             Examples.rec1_ids Persona [VStr "p1"] (VStr "p2") [VStr "p3"]
             (Error "socket hang up"));
      try (intros []); try discriminate; vm_compute; reflexivity.
  - vm_compute. reflexivity.
Defined.

(** ** The webhook trigger *)

Lemma env_read_set (env : gmap string string) k s :
  env !! k = Some s -> env_read env k = VStr s.
Proof. intros H. unfold env_read. by rewrite H. Qed.

Lemma truthy_nonempty s : s <> "" -> truthy (VStr s) = true.
Proof. by destruct s. Qed.

(** X9. With N8N_WEBHOOK_BASE set, the webhook trigger sends exactly one
    request, a POST of the payload to the URL [joinWebhookUrl] builds.  A
    status outside 2xx is returned as [{ ok: false, status, reason }]; a 2xx
    answer gives [{ ok: true, data }], with [data: null] when the body is not
    JSON; a rejected fetch is not caught and the tool throws. *)
Theorem n8nTrigger_outcomes net env scenario payload (b : string) :
  env !! "N8N_WEBHOOK_BASE" = Some b ->
  b <> "" ->
  let req :=
    post_request (joinWebhookUrl b scenario)
                 [("Content-Type", "application/json")] payload in
  run net (n8nTrigger env scenario payload) =
  (match net req with
   | Rejects e => Throw e
   | Responds r =>
       if ok r then
         Normal (WebhookData (match json r with
                              | Normal data => data
                              | Throw _ => VNull
                              end))
       else Normal (HttpFailure (status r) (text r))
   end,
   [req]).
Proof.
  intros Hb Hne req. subst req. unfold n8nTrigger.
  rewrite (env_read_set _ _ _ Hb), (truthy_nonempty _ Hne). cbn [negb to_string].
  rewrite run_bind, run_fetch.
  destruct (net _) as [r | e]; [| done].
  destruct (ok r); cbn [negb]; [| done].
  rewrite run_try_catch, run_bind, run_res_json.
  by destruct (json r).
Qed.

Lemma n8nTrigger_outcomes_witness :
  run (fun _ => Responds (Response 200 "Workflow was started" (Throw (Error "Unexpected token W"))))
      (n8nTrigger {[ "N8N_WEBHOOK_BASE" := "http://n8n:5678/" ]} "/repurposer"
         (VObj {[ "id" := VStr "rec1" ]})) =
  (Normal (WebhookData VNull),
   [post_request "http://n8n:5678/webhook/repurposer"
      [("Content-Type", "application/json")] (VObj {[ "id" := VStr "rec1" ]})]).
Proof.
  apply (n8nTrigger_outcomes
           (fun _ => Responds (Response 200 "Workflow was started"
                                 (Throw (Error "Unexpected token W"))))
           {[ "N8N_WEBHOOK_BASE" := "http://n8n:5678/" ]} "/repurposer"
           (VObj {[ "id" := VStr "rec1" ]}) "http://n8n:5678/");
    [vm_compute; reflexivity | discriminate].
Defined.

Lemma strip_leading_fixed s :
  starts_with_slash s = false -> strip_leading_slashes s = s.
Proof. destruct s as [| c s]; [done |]. cbn. by intros ->. Qed.

Lemma joinWebhookUrl_plain base scenario :
  ends_with "/webhook" base = true ->
  starts_with_slash scenario = false ->
  joinWebhookUrl base scenario = base +:+ "/" +:+ scenario.
Proof.
  intros Hb Hs. unfold joinWebhookUrl.
  destruct (proj1 (ends_with_spec _ _) Hb) as [stem ->].
  rewrite (strip_trailing_fixed _ (ends_with_app_webhook stem)), Hb.
  by rewrite (strip_leading_fixed _ Hs).
Qed.

(** X10. For a base that ends in [/webhook] and a scenario that does not
    start with a slash, the webhook trigger is the same program as its first
    version, which joined base and scenario with a single slash: the
    normalisation of the URL changes nothing for configurations that were
    already right. *)
Theorem n8nTrigger_agrees_with_first_version env scenario payload (b : string) :
  env !! "N8N_WEBHOOK_BASE" = Some b ->
  ends_with "/webhook" b = true ->
  starts_with_slash scenario = false ->
  n8nTrigger env scenario payload = n8nTrigger_legacy env scenario payload.
Proof.
  intros Hb Hw Hs. unfold n8nTrigger, n8nTrigger_legacy.
  rewrite (env_read_set _ _ _ Hb). cbn [to_string].
  by rewrite (joinWebhookUrl_plain _ _ Hw Hs).
Qed.

Lemma n8nTrigger_agrees_with_first_version_witness :
  n8nTrigger {[ "N8N_WEBHOOK_BASE" := "http://n8n:5678/webhook" ]}
             "repurposer" VNull =
  n8nTrigger_legacy {[ "N8N_WEBHOOK_BASE" := "http://n8n:5678/webhook" ]}
                    "repurposer" VNull.
Proof.
  apply (n8nTrigger_agrees_with_first_version
           {[ "N8N_WEBHOOK_BASE" := "http://n8n:5678/webhook" ]}
           "repurposer" VNull "http://n8n:5678/webhook");
    vm_compute; reflexivity.
Defined.

(** ** The SQL bridge *)

Lemma mindsdb_headers_eq (env : gmap string string) :
  (if truthy (env_read env "MINDSDB_KEY") then
     [("Content-Type", "application/json")] ++
     [("Authorization", "Bearer " +:+ to_string (env_read env "MINDSDB_KEY"))]
   else [("Content-Type", "application/json")]) =
  mindsdb_headers env.
Proof.
  unfold mindsdb_headers, env_read. cbn [first_nonempty].
  by destruct (env !! "MINDSDB_KEY") as [[| c s] |].
Qed.

(** X11. With MINDSDB_URL set, the SQL bridge sends exactly one request in
    every run: a POST of [{ query: sql }] to [<MINDSDB_URL>/api/sql/query],
    with an Authorization header only when MINDSDB_KEY is set and not empty.
    A status outside 2xx is returned as [{ ok: false, status, reason }]; a
    rejected fetch is not caught and the tool throws. *)
Theorem mindsdbQuery_request net env sql (u : string) :
  env !! "MINDSDB_URL" = Some u ->
  u <> "" ->
  let req :=
    post_request (u +:+ "/api/sql/query") (mindsdb_headers env)
                 (VObj {[ "query" := VStr sql ]}) in
  requests net (mindsdbQuery env sql) = [req] /\
  match net req with
  | Rejects e => outcome net (mindsdbQuery env sql) = Throw e
  | Responds r =>
      ok r = false ->
      outcome net (mindsdbQuery env sql) =
      Normal (HttpFailure (status r) (text r))
  end.
Proof.
  intros Hu Hne req. subst req. unfold requests, outcome, mindsdbQuery.
  rewrite (env_read_set _ _ _ Hu), (truthy_nonempty _ Hne). cbn [negb to_string].
  rewrite mindsdb_headers_eq, run_bind, run_fetch.
  destruct (net _) as [r | e]; [| done].
  destruct (ok r); cbn [negb].
  - split; [| done].
    rewrite run_bind, run_res_json. destruct (json r) as [data | e]; [| done].
    unfold read. destruct (get_prop data "data"); cbn; [| done].
    by destruct (get_prop data "column_names").
  - done.
Qed.

Lemma mindsdbQuery_request_witness :
  requests Examples.empty_store (mindsdbQuery Cases.sql_env "SELECT 1") =
  [post_request "http://mindsdb:47334/api/sql/query"
     [("Content-Type", "application/json")]
     (VObj {[ "query" := VStr "SELECT 1" ]})].
Proof.
  assert (Hu : Cases.sql_env !! "MINDSDB_URL" = Some "http://mindsdb:47334")
    by (vm_compute; reflexivity).
  assert (Hne : "http://mindsdb:47334" <> "") by discriminate.
  destruct (mindsdbQuery_request Examples.empty_store _ "SELECT 1" _ Hu Hne)
    as [Hreq _].
  rewrite Hreq. vm_compute. reflexivity.
Defined.

(** X12. When the answer of the SQL bridge is a 2xx JSON object whose [data]
    is an array, or is missing or falsy, the result is
    [{ ok: true, rows, columnNames, rowCount }] with [rows] an array ([data],
    or the empty array) and [rowCount] the number of its elements. *)
Theorem mindsdbQuery_row_count net env sql (u : string) r data rows :
  env !! "MINDSDB_URL" = Some u ->
  u <> "" ->
  net (post_request (u +:+ "/api/sql/query") (mindsdb_headers env)
         (VObj {[ "query" := VStr sql ]})) = Responds r ->
  ok r = true ->
  json r = Normal data ->
  get_prop data "data" = Some rows ->
  (exists items, rows = VArr items) \/ truthy rows = false ->
  exists items columns,
    outcome net (mindsdbQuery env sql) =
      Normal (SqlRows (VArr items) columns (VNum (Z.of_nat (length items)))) /\
    (truthy rows = true -> rows = VArr items).
Proof.
  intros Hu Hne Hnet Hok Hj Hrows Hshape.
  assert (Hcols : exists cols, get_prop data "column_names" = Some cols).
  { destruct data; try done; cbn; eauto. }
  destruct Hcols as [cols Hcols].
  assert (Hrun : outcome net (mindsdbQuery env sql) =
                 Normal (SqlRows (js_or rows (VArr [])) (js_or cols (VArr []))
                           (js_or (get_opt rows "length") (VNum 0)))).
  { unfold outcome, mindsdbQuery.
    rewrite (env_read_set _ _ _ Hu), (truthy_nonempty _ Hne).
    cbn [negb to_string].
    rewrite mindsdb_headers_eq, run_bind, run_fetch, Hnet. cbv beta iota zeta.
    rewrite Hok. cbn [negb]. rewrite run_bind, run_res_json, Hj.
    cbv beta iota zeta. unfold read. by rewrite Hrows, Hcols. }
  destruct Hshape as [[items ->] | Hfalsy].
  - exists items, (js_or cols (VArr [])). split; [| done]. rewrite Hrun.
    do 2 f_equal. unfold js_or, get_opt. cbn.
    by destruct items.
  - exists [], (js_or cols (VArr [])). split; [| by rewrite Hfalsy].
    rewrite Hrun. unfold js_or. rewrite Hfalsy.
    destruct rows as [| | b | n | s | items | props]; try done.
    + by destruct s.
Qed.

Lemma mindsdbQuery_row_count_witness :
  exists columns,
    outcome Cases.sql_store (mindsdbQuery Cases.sql_env "SELECT n") =
    Normal (SqlRows Cases.sql_rows columns (VNum 2)).
Proof.
  assert (Hu : Cases.sql_env !! "MINDSDB_URL" = Some "http://mindsdb:47334")
    by (vm_compute; reflexivity).
  assert (Hne : "http://mindsdb:47334" <> "") by discriminate.
  assert (Hrows : get_prop
                    (VObj {[ "data" := Cases.sql_rows;
                             "column_names" := VArr [VStr "n"] ]}) "data" =
                  Some Cases.sql_rows) by (vm_compute; reflexivity).
  destruct (mindsdbQuery_row_count Cases.sql_store Cases.sql_env "SELECT n"
              "http://mindsdb:47334" _ _ Cases.sql_rows Hu Hne eq_refl
              eq_refl eq_refl Hrows (or_introl (ex_intro _ _ eq_refl)))
    as (items & columns & Hout & Hitems).
  assert (Hi : Cases.sql_rows = VArr items) by (apply Hitems; reflexivity).
  unfold Cases.sql_rows in Hi at 1. injection Hi as <-.
  exists columns. exact Hout.
Defined.

(** ** The model choice of the research agent *)

Lemma trim_visible s : has_visible_char s = true -> trim s <> "".
Proof. rewrite <- trim_nonempty. by destruct (trim s). Qed.

Lemma trim_blank s : has_visible_char s = false -> trim s = "".
Proof. rewrite <- trim_nonempty. by destruct (trim s). Qed.

(** X13. [pickModel] never yields an empty model id: MODEL is used, trimmed,
    when it has a visible character, and the default of the provider
    otherwise (unset, empty or blank).  The provider is Anthropic exactly
    when LLM_VENDOR is [anthropic] in any letter case; every other value,
    set or not, selects OpenAI. *)
Theorem pickModel_never_empty env :
  let vendor := toLowerCase (default "" (env !! "LLM_VENDOR")) in
  let chosen := first_nonempty [trim <$> env !! "MODEL"] in
  snd (pickModel env) <> "" /\
  fst (pickModel env) =
    (if bool_decide (vendor = "anthropic") then Anthropic else OpenAI) /\
  snd (pickModel env) =
    match chosen, fst (pickModel env) with
    | Some id, _ => id
    | None, OpenAI => "gpt-4o"
    | None, Anthropic => "claude-3-5-sonnet-20240620"
    end.
Proof.
  intros vendor chosen. subst vendor chosen. unfold pickModel.
  assert (Hv : to_string (js_or (env_read env "LLM_VENDOR") (VStr "")) =
               default "" (env !! "LLM_VENDOR")).
  { unfold env_read. by destruct (env !! "LLM_VENDOR") as [[| c s] |]. }
  rewrite Hv. clear Hv.
  set (vendor := toLowerCase (default "" (env !! "LLM_VENDOR"))).
  assert (Hid : forall d : string, d <> "" ->
    let id := to_string (js_or match env !! "MODEL" with
                                | Some s => VStr (trim s)
                                | None => VUndef
                                end (VStr d)) in
    id <> "" /\
    id = match first_nonempty [trim <$> env !! "MODEL"] with
         | Some m => m
         | None => d
         end).
  { intros d Hd. destruct (env !! "MODEL") as [m |]; cbn; [| done].
    destruct (trim m) as [| c t]; cbn; done. }
  destruct (Hid "gpt-4o" ltac:(done)) as [Ho1 Ho2].
  destruct (Hid "claude-3-5-sonnet-20240620" ltac:(done)) as [Ha1 Ha2].
  case_bool_decide as Hopenai.
  - rewrite bool_decide_eq_false_2 by (rewrite Hopenai; discriminate).
    cbn [fst snd]. split_and!; [done | done |].
    rewrite Ho2. by destruct (first_nonempty _).
  - case_bool_decide as Hanth; cbn [fst snd]; by split_and!.
Qed.

Example pickModel_examples :
  pickModel {[ "LLM_VENDOR" := "Anthropic"; "MODEL" := "  " ]} =
    (Anthropic, "claude-3-5-sonnet-20240620") /\
  pickModel {[ "LLM_VENDOR" := "mistral"; "MODEL" := " gpt-4o-mini " ]} =
    (OpenAI, "gpt-4o-mini") /\
  pickModel ∅ = (OpenAI, "gpt-4o").
Proof. split_and!; vm_compute; reflexivity. Qed.

(** ** Record URLs *)

Lemma chars_append s1 s2 : chars (s1 +:+ s2) = chars s1 ++ chars s2.
Proof.
  induction s1 as [| c s1 IH]; [done |].
  change (String c s1 +:+ s2) with (String c (s1 +:+ s2)).
  cbn [chars app]. by rewrite IH.
Qed.

Lemma encode_unit_chars c :
  forallb url_segment_char (chars (encode_unit c)) = true.
Proof.
  destruct c as [[] [] [] [] [] [] [] []]; vm_compute; reflexivity.
Qed.

Lemma encodeURIComponent_chars s :
  forallb url_segment_char (chars (encodeURIComponent s)) = true.
Proof.
  induction s as [| c s IH]; [done |].
  cbn [encodeURIComponent]. rewrite chars_append, forallb_app.
  by rewrite encode_unit_chars, IH.
Qed.

Lemma encodeURIComponent_unreserved s :
  forallb uri_unreserved (chars s) = true -> encodeURIComponent s = s.
Proof.
  induction s as [| c s IH]; [done |].
  cbn [chars forallb encodeURIComponent].
  intros [Hc Hs]%andb_prop. unfold encode_unit. rewrite Hc.
  change (String c "" +:+ encodeURIComponent s)
    with (String c (encodeURIComponent s)).
  by rewrite IH.
Qed.

(** X14. The URL of a record is the API root, the base id, one segment for
    the table and the record id.  The table segment consists of unreserved
    characters and percent signs only, whatever the table name: it contains
    no slash, question mark, hash or space, so a table name cannot change
    the path or start a query.  A table name of unreserved characters is
    used as it is.  Base id and record id are inserted unencoded. *)
Theorem record_url_table_segment base table id :
  exists segment,
    record_url base table id =
      "https://api.airtable.com/v0/" +:+ to_string base +:+ "/" +:+
      segment +:+ "/" +:+ to_string id /\
    forallb url_segment_char (chars segment) = true /\
    forallb (fun c => negb (bool_decide (c ∈ chars "/?#& =+")))
            (chars segment) = true /\
    (if forallb uri_unreserved (chars (to_string table))
     then segment = to_string table else True).
Proof.
  exists (encodeURIComponent (to_string table)). split_and!.
  - reflexivity.
  - apply encodeURIComponent_chars.
  - pose proof (encodeURIComponent_chars (to_string table)) as H.
    rewrite forallb_forall in H. apply forallb_forall.
    intros c Hc. specialize (H c Hc). clear Hc. revert H.
    destruct c as [[] [] [] [] [] [] [] []]; vm_compute; congruence.
  - destruct (forallb uri_unreserved (chars (to_string table))) eqn:Hu; [| done].
    by apply encodeURIComponent_unreserved.
Qed.

(** ** The write tools *)

Lemma base_id_first_nonempty env baseId :
  match first_nonempty (base_id_candidates env baseId) with
  | Some b => resolve_base_id env baseId = VStr b /\ truthy (VStr b) = true
  | None => truthy (resolve_base_id env baseId) = false
  end.
Proof.
  unfold resolve_base_id, base_id_candidates, env_read, opt_value.
  destruct baseId as [[| c1 s1] |];
    destruct (env !! "AIRTABLE_BASE_ID") as [[| c2 s2] |];
    destruct (env !! "AIRTABLE_CONTENT_BASE_ID") as [[| c3 s3] |];
    cbn; auto.
Qed.

Lemma no_fetch_read_first v : no_fetch (read_first v).
Proof. unfold read_first. by destruct (get_first v). Qed.

Lemma no_fetch_first_record_prop result k : no_fetch (first_record_prop result k).
Proof.
  unfold first_record_prop.
  apply no_fetch_bind; [apply no_fetch_read | intros records].
  apply no_fetch_bind; [apply no_fetch_read_first | intros first].
  apply no_fetch_read.
Qed.

Lemma requests_fetch_then {A : Type} net req (k : response -> prog A) :
  (forall r, no_fetch (k r)) ->
  requests net (bind (fetch req) k) = [req].
Proof.
  intros Hk. rewrite requests_bind, requests_fetch.
  destruct (outcome net (fetch req)); [| done].
  by rewrite no_fetch_requests.
Qed.

Lemma create_cases env context :
  match first_nonempty (token_candidates env),
        first_nonempty (base_id_candidates env (create_baseId context)) with
  | None, _ =>
      airtableCreateContentRequest env context =
      Ret (WriteSkipped "Airtable not configured (no PAT/API key)")
  | Some _, None =>
      airtableCreateContentRequest env context =
      Ret (WriteSkipped "No Airtable Base ID configured")
  | Some token, Some base =>
      airtableCreateContentRequest env context =
      try_catch
        (let! res :=
           fetch (write_request "POST" (initiators_url env base)
                    (bearer_headers token) (create_payload context)) in
         if negb (ok res) then Ret (WriteHttpFailure (status res) (text res))
         else
           let! result := res_json res in
           let! recordId := first_record_prop result "id" in
           let! fields' := first_record_prop result "fields" in
           Ret (Created recordId fields'))
        (fun error => Ret (WriteFailed (message error)))
  end.
Proof.
  unfold airtableCreateContentRequest. rewrite headers_first_nonempty.
  pose proof (base_id_first_nonempty env (create_baseId context)) as Hbase.
  destruct (first_nonempty (token_candidates env)) as [token |];
    cbn [fmap option_fmap option_map].
  2: { by destruct (first_nonempty (base_id_candidates env _)). }
  destruct (first_nonempty (base_id_candidates env _)) as [base |].
  - destruct Hbase as [-> Hb]. by rewrite Hb.
  - by rewrite Hbase.
Qed.

Lemma note_slugs_other k xs fields k' :
  k <> k' -> note_slugs k xs fields !! k' = fields !! k'.
Proof.
  intros Hne. unfold note_slugs. destruct xs as [l |]; [| done].
  destruct (0 <? length l)%nat; [| done]. by rewrite lookup_insert_ne.
Qed.

Lemma set_if_given_other k x fields k' :
  k <> k' -> set_if_given k x fields !! k' = fields !! k'.
Proof.
  intros Hne. unfold set_if_given.
  destruct (truthy (opt_value x)); [| done]. by rewrite lookup_insert_ne.
Qed.

(** X15. The create tool never throws and sends at most one request: once
    token and base id are configured, exactly one POST to the initiators
    table, whatever the store answers.  The record it posts always carries
    the goal and never sets a relation field: persona and domain slugs are
    not linked. *)
Theorem create_request_posts_once net env context :
  (exists result,
     outcome net (airtableCreateContentRequest env context) = Normal result) /\
  requests net (airtableCreateContentRequest env context) =
    match first_nonempty (token_candidates env),
          first_nonempty (base_id_candidates env (create_baseId context)) with
    | Some token, Some base =>
        [write_request "POST" (initiators_url env base) (bearer_headers token)
           (create_payload context)]
    | _, _ => []
    end /\
  create_fields context !! "Goal" = Some (VStr (goal context)) /\
  (create_fields context !! "Personas" = None /\
   create_fields context !! "Content Domains" = None /\
   create_fields context !! "Entity" = None /\
   create_fields context !! "References" = None).
Proof.
  pose proof (create_cases env context) as Hc.
  split_and!.
  - destruct (first_nonempty (token_candidates env)) as [token |];
      [destruct (first_nonempty (base_id_candidates env _)) as [base |] |];
      rewrite Hc; try by eexists.
    apply try_catch_returns.
  - destruct (first_nonempty (token_candidates env)) as [token |];
      [destruct (first_nonempty (base_id_candidates env _)) as [base |] |];
      rewrite Hc; try done.
    rewrite requests_catch_value. apply requests_fetch_then.
    intros r. destruct (negb (ok r)); [done |].
    apply no_fetch_bind; [apply no_fetch_res_json | intros result].
    apply no_fetch_bind; [apply no_fetch_first_record_prop | intros rid].
    apply no_fetch_bind; [apply no_fetch_first_record_prop | done].
  - unfold create_fields.
    rewrite !note_slugs_other, !set_if_given_other by done.
    apply lookup_singleton_eq.
  - unfold create_fields.
    rewrite !note_slugs_other, !set_if_given_other by done. done.
  - unfold create_fields.
    rewrite !note_slugs_other, !set_if_given_other by done. done.
  - unfold create_fields.
    rewrite !note_slugs_other, !set_if_given_other by done. done.
  - unfold create_fields.
    rewrite !note_slugs_other, !set_if_given_other by done. done.
Qed.

Lemma run_first_record_prop net result items k :
  get_prop result "records" = Some (VArr items) ->
  run net (first_record_prop result k) =
  match items with
  | [] => run net (read VUndef k)
  | first :: _ => run net (read first k)
  end.
Proof.
  intros Hrec. unfold first_record_prop, read at 1. rewrite Hrec.
  cbn [bind]. unfold read_first. cbn [get_first].
  by destruct items.
Qed.

(** X16. When the store answers the create request with a 2xx JSON body
    whose [records] is an array, the tool returns the id and the fields of
    the first record of that array; when the array is empty (or its first
    element is [null]) it returns [{ ok: false, error }]. *)
Theorem create_result_is_first_record net env context token base r result items :
  first_nonempty (token_candidates env) = Some token ->
  first_nonempty (base_id_candidates env (create_baseId context)) = Some base ->
  net (write_request "POST" (initiators_url env base) (bearer_headers token)
         (create_payload context)) = Responds r ->
  ok r = true ->
  json r = Normal result ->
  get_prop result "records" = Some (VArr items) ->
  match items with
  | first :: _ =>
      match get_prop first "id", get_prop first "fields" with
      | Some recordId, Some fields =>
          outcome net (airtableCreateContentRequest env context) =
          Normal (Created recordId fields)
      | _, _ =>
          exists error,
            outcome net (airtableCreateContentRequest env context) =
            Normal (WriteFailed error)
      end
  | [] =>
      exists error,
        outcome net (airtableCreateContentRequest env context) =
        Normal (WriteFailed error)
  end.
Proof.
  intros Ht Hb Hnet Hok Hj Hrec.
  pose proof (create_cases env context) as Hc. rewrite Ht, Hb in Hc.
  unfold outcome. rewrite Hc, run_try_catch, run_bind, run_fetch, Hnet.
  cbv beta iota zeta. rewrite Hok. cbn [negb].
  rewrite run_bind, run_res_json, Hj. cbv beta iota zeta.
  rewrite run_bind, (run_first_record_prop _ _ _ _ Hrec).
  destruct items as [| first rest].
  - cbn. by eexists.
  - unfold read.
    destruct (get_prop first "id") as [rid |] eqn:Hid; cbn [run].
    + cbv beta iota zeta.
      rewrite run_bind, (run_first_record_prop _ _ _ _ Hrec). unfold read.
      destruct (get_prop first "fields") as [f |] eqn:Hf; cbn; [done |].
      exfalso. destruct first; cbn in Hid, Hf; congruence.
    + cbn. by eexists.
Qed.

Lemma create_result_is_first_record_witness :
  outcome Cases.creating_store
    (airtableCreateContentRequest Examples.env Cases.blog_request) =
    Normal (Created (VStr "recNEW")
              (VObj {[ "Goal" := VStr "Announce the launch" ]})) /\
  exists error,
    outcome Cases.store_without_records
      (airtableCreateContentRequest Examples.env Cases.blog_request) =
    Normal (WriteFailed error).
Proof.
  assert (Ht : first_nonempty (token_candidates Examples.env) = Some "patKEY")
    by (vm_compute; reflexivity).
  assert (Hb : first_nonempty
                 (base_id_candidates Examples.env
                    (create_baseId Cases.blog_request)) = Some "app1")
    by (vm_compute; reflexivity).
  split.
  - assert (Hrec : get_prop
                     (VObj {[ "records" :=
                                VArr [VObj {[ "id" := VStr "recNEW";
                                              "fields" := VObj {[ "Goal" := VStr "Announce the launch" ]} ]}] ]})
                     "records" =
                   Some (VArr [VObj {[ "id" := VStr "recNEW";
                                       "fields" := VObj {[ "Goal" := VStr "Announce the launch" ]} ]}]))
      by (vm_compute; reflexivity).
    pose proof (create_result_is_first_record Cases.creating_store
                  Examples.env Cases.blog_request "patKEY" "app1" _ _ _
                  Ht Hb eq_refl eq_refl eq_refl Hrec) as H.
    vm_compute in H. vm_compute. exact H.
  - assert (Hrec : get_prop (VObj {[ "records" := VArr [] ]}) "records" =
                   Some (VArr [])) by (vm_compute; reflexivity).
    exact (create_result_is_first_record Cases.store_without_records
             Examples.env Cases.blog_request "patKEY" "app1" _ _ _
             Ht Hb eq_refl eq_refl eq_refl Hrec).
Defined.

Section UpdateProperties.
Variable JSON_stringify : value -> string.

Lemma update_cases env context :
  match first_nonempty (token_candidates env),
        first_nonempty (base_id_candidates env (update_baseId context)) with
  | None, _ =>
      airtableUpdateContentOutput JSON_stringify env context =
      Ret (WriteSkipped "Airtable not configured (no PAT/API key)")
  | Some _, None =>
      airtableUpdateContentOutput JSON_stringify env context =
      Ret (WriteSkipped "No Airtable Base ID configured")
  | Some token, Some base =>
      airtableUpdateContentOutput JSON_stringify env context =
      try_catch
        (let! res :=
           fetch (write_request "PATCH" (initiators_url env base)
                    (bearer_headers token)
                    (update_payload JSON_stringify context)) in
         if negb (ok res) then Ret (WriteHttpFailure (status res) (text res))
         else
           let! result := res_json res in
           let! fields' := first_record_prop result "fields" in
           Ret (Updated (update_initiatorId context) fields'))
        (fun error => Ret (WriteFailed (message error)))
  end.
Proof.
  unfold airtableUpdateContentOutput. rewrite headers_first_nonempty.
  pose proof (base_id_first_nonempty env (update_baseId context)) as Hbase.
  destruct (first_nonempty (token_candidates env)) as [token |];
    cbn [fmap option_fmap option_map].
  2: { by destruct (first_nonempty (base_id_candidates env _)). }
  destruct (first_nonempty (base_id_candidates env _)) as [base |].
  - destruct Hbase as [-> Hb]. by rewrite Hb.
  - by rewrite Hbase.
Qed.

(** X17. Once token and base id are configured, the write-back tool sends
    exactly one request, a PATCH of the initiators table that names the
    given record id; the fields always carry the output, and carry a status
    only when one is given and not empty.  It never throws: a rejected fetch
    is returned as [{ ok: false, error }], a status outside 2xx as
    [{ ok: false, status, reason }], and on success the result echoes the
    given record id. *)
Theorem update_output_patches_once net env context token base :
  first_nonempty (token_candidates env) = Some token ->
  first_nonempty (base_id_candidates env (update_baseId context)) = Some base ->
  let tool := airtableUpdateContentOutput JSON_stringify env context in
  let req :=
    write_request "PATCH" (initiators_url env base) (bearer_headers token)
                  (update_payload JSON_stringify context) in
  requests net tool = [req] /\
  update_fields JSON_stringify context !! "Output" =
    Some (VStr (output context)) /\
  update_fields JSON_stringify context !! "Status" =
    VStr <$> first_nonempty [update_status context] /\
  match net req with
  | Rejects e => outcome net tool = Normal (WriteFailed (message e))
  | Responds r =>
      if ok r then
        exists result,
          outcome net tool = Normal result /\
          match result with
          | Updated recordId _ => recordId = update_initiatorId context
          | WriteFailed _ => True
          | _ => False
          end
      else outcome net tool = Normal (WriteHttpFailure (status r) (text r))
  end.
Proof.
  intros Ht Hb tool req. subst tool req.
  pose proof (update_cases env context) as Hc. rewrite Ht, Hb in Hc.
  split_and!.
  - rewrite Hc, requests_catch_value. apply requests_fetch_then.
    intros r. destruct (negb (ok r)); [done |].
    apply no_fetch_bind; [apply no_fetch_res_json | intros result].
    apply no_fetch_bind; [apply no_fetch_first_record_prop | done].
  - unfold update_fields.
    destruct (metadata context);
      rewrite ?lookup_insert_ne, set_if_given_other by done;
      apply lookup_singleton_eq.
  - unfold update_fields.
    assert (Hs : set_if_given "Status" (update_status context)
                   ({[ "Output" := VStr (output context) ]} : gmap string value)
                 !! "Status" =
                 VStr <$> first_nonempty [update_status context]).
    { unfold set_if_given. cbn [first_nonempty].
      destruct (update_status context) as [[| c s] |]; cbn [opt_value truthy str_nonempty];
        by rewrite ?lookup_insert_eq. }
    destruct (metadata context); by rewrite ?lookup_insert_ne by done.
  - unfold outcome. rewrite Hc, run_try_catch, run_bind, run_fetch.
    destruct (net _) as [r | e]; [| done].
    destruct (ok r); cbn [negb]; [| done].
    cbv beta iota zeta. rewrite run_bind, run_res_json.
    destruct (json r) as [result | e]; [| by eexists].
    cbv beta iota zeta. rewrite run_bind.
    destruct (run net (first_record_prop result "fields")) as [[f | e] sent];
      by eexists.
Qed.
End UpdateProperties.

Lemma update_output_patches_once_witness :
  requests Cases.creating_store
    (airtableUpdateContentOutput Cases.no_metadata Examples.env Cases.write_back) =
  [write_request "PATCH" (initiators_url Examples.env "app1")
     (bearer_headers "patKEY")
     (update_payload Cases.no_metadata Cases.write_back)].
Proof.
  assert (Ht : first_nonempty (token_candidates Examples.env) = Some "patKEY")
    by (vm_compute; reflexivity).
  assert (Hb : first_nonempty
                 (base_id_candidates Examples.env
                    (update_baseId Cases.write_back)) = Some "app1")
    by (vm_compute; reflexivity).
  exact (proj1 (update_output_patches_once Cases.no_metadata
                  Cases.creating_store Examples.env Cases.write_back
                  "patKEY" "app1" Ht Hb)).
Defined.

(** ** The lookups by slug *)

Section LookupProperties.
Variable new_URL : string -> option string.
Variable search_set : string -> string -> string -> string.

Lemma lookup_cases kind env context :
  match first_nonempty (token_candidates env),
        first_nonempty (base_id_candidates env (slug_baseId context)) with
  | None, _ =>
      lookup_by_slug new_URL search_set kind env context =
      Ret (LookupSkipped "Airtable not configured (no PAT/API key)")
  | Some _, None =>
      lookup_by_slug new_URL search_set kind env context =
      Ret (LookupSkipped "No Airtable Base ID configured")
  | Some token, Some base =>
      lookup_by_slug new_URL search_set kind env context =
      try_catch (lookup_body new_URL search_set kind env context
                   (bearer_headers token) (VStr base))
                (fun error => Ret (LookupFailed (message error)))
  end.
Proof.
  unfold lookup_by_slug. rewrite headers_first_nonempty.
  pose proof (base_id_first_nonempty env (slug_baseId context)) as Hbase.
  destruct (first_nonempty (token_candidates env)) as [token |];
    cbn [fmap option_fmap option_map].
  2: { by destruct (first_nonempty (base_id_candidates env _)). }
  destruct (first_nonempty (base_id_candidates env _)) as [base |].
  - destruct Hbase as [-> Hb]. by rewrite Hb.
  - by rewrite Hbase.
Qed.

(** The part of the body after the answer, up to the slug echoed. *)
Lemma lookup_body_run kind env context headers base net :
  run net (lookup_body new_URL search_set kind env context headers base) =
  match new_URL (table_url base (slug_table env kind)) with
  | None => (Throw (type_error "Invalid URL"), [])
  | Some url =>
      let req :=
        get_request
          (search_set url "filterByFormula" (slug_formula "Slug" (slug context)))
          headers in
      (match net req with
       | Rejects e => Throw e
       | Responds res =>
           if ok res then
             match json res with
             | Throw e => Throw e
             | Normal data =>
                 fst (run net
                        (let! v := read data "records" in
                         let records := js_or v (VArr []) in
                         let! len := read records "length" in
                         if is_zero len then
                           Ret (NotFound ("No " +:+ slug_noun kind +:+
                                          " found with slug: " +:+ slug context))
                         else
                           let! found := read_first records in
                           let! xml :=
                             field found (to_string (slug_xml_field env kind)) in
                           let! name := field found "Name" in
                           let! recordId := read found "id" in
                           Ret (Found (slug context) (js_or xml (VStr ""))
                                      (js_or name (VStr "")) recordId)))
             end
           else Normal (LookupHttpFailure (status res) (text res))
       end,
       [req])
  end.
Proof.
  unfold lookup_body, construct_url.
  destruct (new_URL _) as [url |]; [| done].
  cbn [bind]. cbv zeta. rewrite run_bind, run_fetch.
  destruct (net _) as [res | e]; [| done].
  destruct (ok res); cbn [negb]; [| done].
  rewrite run_bind, run_res_json. destruct (json res) as [data | e]; [| done].
  cbv beta iota zeta.
  match goal with
  | |- context [run net ?m] =>
      assert (Hpure : no_fetch m); [| generalize Hpure; generalize m]
  end.
  { apply no_fetch_bind; [apply no_fetch_read | intros v].
    apply no_fetch_bind; [apply no_fetch_read | intros len].
    destruct (is_zero len); [done |].
    apply no_fetch_bind; [apply no_fetch_read_first | intros found].
    apply no_fetch_bind; [apply no_fetch_field | intros xml].
    apply no_fetch_bind; [apply no_fetch_field | intros name].
    apply no_fetch_bind; [apply no_fetch_read | done]. }
  intros m Hm. by destruct m.
Qed.
End LookupProperties.

Section LookupTheorems.
Variable new_URL : string -> option string.
Variable search_set : string -> string -> string -> string.

(** X18. The lookups by slug do not distinguish upper and lower case in the
    slug: for two slugs with the same lower-case form the persona lookup and
    the domain lookup send the same requests, and their results differ at most
    in the slug echoed in the result and in the not-found message. *)
Theorem lookup_ignores_case kind env baseId slug1 slug2 net :
  toLowerCase slug1 = toLowerCase slug2 ->
  requests net (lookup_by_slug new_URL search_set kind env (SlugInput baseId slug1)) =
  requests net (lookup_by_slug new_URL search_set kind env (SlugInput baseId slug2)) /\
  same_up_to_slug
    (outcome net (lookup_by_slug new_URL search_set kind env (SlugInput baseId slug1)))
    (outcome net (lookup_by_slug new_URL search_set kind env (SlugInput baseId slug2))).
Proof.
  intros Hlower. unfold requests, outcome.
  pose proof (lookup_cases new_URL search_set kind env (SlugInput baseId slug1)) as H1.
  pose proof (lookup_cases new_URL search_set kind env (SlugInput baseId slug2)) as H2.
  cbn [slug_baseId] in H1, H2.
  destruct (first_nonempty (token_candidates env)) as [token |].
  2: { rewrite H1, H2. by split. }
  destruct (first_nonempty (base_id_candidates env baseId)) as [base |].
  2: { rewrite H1, H2. by split. }
  rewrite H1, H2, !run_try_catch, !lookup_body_run. cbn [slug].
  unfold slug_formula. rewrite Hlower.
  destruct (new_URL _) as [url |]; [| by split].
  cbv zeta. destruct (net _) as [res | e]; [| by split].
  destruct (ok res); [| by split].
  destruct (json res) as [data | e]; [| by split].
  match goal with
  | |- context [match (run net ?m1).1 with _ => _ end.2 =
                match (run net ?m2).1 with _ => _ end.2] =>
      assert (Hrel : same_up_to_slug (run net m1).1 (run net m2).1);
      [| destruct (run net m1).1 as [[] | ], (run net m2).1 as [[] | ];
         cbn in Hrel |- *; try done; by simplify_eq ]
  end.
  rewrite !run_bind.
  destruct (run net (read data "records")) as [[v | e] sent0]; [| done].
  rewrite !run_bind.
  destruct (run net (read (js_or v (VArr [])) "length")) as [[len | e] sent]; [| done].
  destruct (is_zero len); [done |].
  rewrite !run_bind.
  destruct (run net (read_first (js_or v (VArr [])))) as [[found | e] sent1]; [| done].
  rewrite !run_bind.
  destruct (run net (field found _)) as [[xml | e] sent2]; [| done].
  rewrite !run_bind.
  destruct (run net (field found "Name")) as [[name | e] sent3]; [| done].
  rewrite !run_bind.
  destruct (run net (read found "id")) as [[recordId | e] sent4]; [| done].
  done.
Qed.

(** X19. When the store answers a lookup by slug with a 2xx JSON body whose
    [records] is an array, an empty array gives the not-found result with the
    slug as given; otherwise the result is built from the first record alone.
    When the [fields] of that record is an object, the result carries its
    XML field and its name, each replaced by the empty string when missing
    or empty, and the record's id; when the record has no [fields] (or
    [null]) the result is [{ ok: false, error }].  The name of the XML field
    comes from the environment and is assumed not to be the name of a member
    of [Object.prototype], for which the read would yield the inherited
    member. *)
Theorem lookup_returns_first_match kind env context net token base url res data items :
  inherited_name (to_string (slug_xml_field env kind)) = false ->
  first_nonempty (token_candidates env) = Some token ->
  first_nonempty (base_id_candidates env (slug_baseId context)) = Some base ->
  new_URL (table_url (VStr base) (slug_table env kind)) = Some url ->
  net (get_request
         (search_set url "filterByFormula" (slug_formula "Slug" (slug context)))
         (bearer_headers token)) = Responds res ->
  ok res = true ->
  json res = Normal data ->
  get_prop data "records" = Some (VArr items) ->
  match items with
  | [] =>
      outcome net (lookup_by_slug new_URL search_set kind env context) =
      Normal (NotFound ("No " +:+ slug_noun kind +:+ " found with slug: " +:+
                        slug context))
  | found :: _ =>
      match get_prop found "fields" with
      | Some (VObj fields) =>
          outcome net (lookup_by_slug new_URL search_set kind env context) =
          Normal (Found (slug context)
                        (js_or (default VUndef
                                  (fields !! to_string (slug_xml_field env kind)))
                               (VStr ""))
                        (js_or (default VUndef (fields !! "Name")) (VStr ""))
                        (get_opt found "id"))
      | Some VUndef | Some VNull | None =>
          exists error,
            outcome net (lookup_by_slug new_URL search_set kind env context) =
            Normal (LookupFailed error)
      | Some _ => True
      end
  end.
Proof.
  intros _ Htoken Hbase Hurl Hnet Hok Hjson Hrecords. unfold outcome.
  pose proof (lookup_cases new_URL search_set kind env context) as Hcases.
  rewrite Htoken, Hbase in Hcases.
  rewrite Hcases, run_try_catch, lookup_body_run, Hurl. cbv zeta.
  rewrite Hnet, Hok, Hjson.
  destruct items as [| found rest].
  { unfold read. rewrite Hrecords. by cbn. }
  assert (Hstep : forall k : value -> prog lookup_result,
    run net (let! v := read data "records" in
             let records := js_or v (VArr []) in
             let! len := read records "length" in
             if is_zero len then
               Ret (NotFound ("No " +:+ slug_noun kind +:+
                              " found with slug: " +:+ slug context))
             else let! first := read_first records in k first) =
    run net (k found)).
  { intros k. unfold read at 1. rewrite Hrecords. cbn [bind js_or truthy].
    unfold read at 1. cbn [get_prop]. rewrite bool_decide_eq_true_2 by done.
    cbn [bind is_zero length].
    replace (Z.of_nat (S (length rest)) =? 0) with false
      by (symmetry; apply Z.eqb_neq; lia).
    unfold read_first. by cbn [get_first head default from_option id bind]. }
  rewrite Hstep. clear Hstep. unfold get_opt, field, read.
  destruct (get_prop found "fields") as [fields |] eqn:Hfields; cbn [bind].
  2: { cbn. by eexists. }
  destruct fields as [| | b | n | str | l | fields]; try done.
  - cbn. by eexists.
  - cbn. by eexists.
  - cbn [get_prop bind].
    assert (Hid : exists i, get_prop found "id" = Some i).
    { destruct found; cbn in Hfields |- *; by eauto. }
    destruct Hid as [i Hid]. rewrite Hid. by cbn.
Qed.

(** X20. The persona lookup and the domain lookup never throw, whatever the
    environment, the input and the store do (an invalid URL, a rejected
    fetch, a body that does not parse, a body of any shape), and they send at
    most one request, a GET without body. *)
Theorem lookup_never_throws kind env context net :
  exists result,
    outcome net (lookup_by_slug new_URL search_set kind env context) = Normal result /\
    (length (requests net (lookup_by_slug new_URL search_set kind env context)) <= 1)%nat /\
    Forall (fun req => req_method req = "GET" /\ req_body req = VUndef)
           (requests net (lookup_by_slug new_URL search_set kind env context)).
Proof.
  unfold outcome, requests.
  pose proof (lookup_cases new_URL search_set kind env context) as Hcases.
  destruct (first_nonempty (token_candidates env)) as [token |].
  2: { rewrite Hcases. cbn. eexists. split_and!; [done | lia | constructor]. }
  destruct (first_nonempty (base_id_candidates env _)) as [base |].
  2: { rewrite Hcases. cbn. eexists. split_and!; [done | lia | constructor]. }
  rewrite Hcases, run_try_catch, lookup_body_run.
  destruct (new_URL _) as [url |].
  2: { cbn. eexists. split_and!; [done | lia | constructor]. }
  cbv zeta.
  match goal with
  | |- context [(?c, [?req])] => generalize c; intros c'
  end.
  destruct c' as [result | e]; cbn; eexists;
    (split_and!; [done | lia | by repeat constructor]).
Qed.
End LookupTheorems.

Lemma lookup_ignores_case_witness :
  toLowerCase "Nurse-Educator" = toLowerCase "nurse-educator" /\
  requests Cases.persona_store
    (airtableGetPersonaContext Cases.any_url Cases.append_param Examples.env
       (SlugInput None "Nurse-Educator")) =
  requests Cases.persona_store
    (airtableGetPersonaContext Cases.any_url Cases.append_param Examples.env
       (SlugInput None "nurse-educator")).
Proof.
  split; [reflexivity |].
  apply (lookup_ignores_case Cases.any_url Cases.append_param PersonaSlug
           Examples.env None "Nurse-Educator" "nurse-educator"
           Cases.persona_store).
  reflexivity.
Defined.

Lemma lookup_returns_first_match_witness :
  outcome Cases.persona_store
    (airtableGetPersonaContext Cases.any_url Cases.append_param Examples.env
       (SlugInput None "Nurse-Educator")) =
  Normal (Found "Nurse-Educator" (VStr "<persona>A</persona>")
                (VStr "Nurse educator") (VStr "p1")).
Proof.
  assert (Htoken : first_nonempty (token_candidates Examples.env) = Some "patKEY")
    by (vm_compute; reflexivity).
  assert (Hbase : first_nonempty (base_id_candidates Examples.env None) = Some "app1")
    by (vm_compute; reflexivity).
  assert (Hname : inherited_name
                    (to_string (slug_xml_field Examples.env PersonaSlug)) = false)
    by (vm_compute; reflexivity).
  pose proof (lookup_returns_first_match Cases.any_url Cases.append_param
                PersonaSlug Examples.env (SlugInput None "Nurse-Educator")
                Cases.persona_store "patKEY" "app1" _ _ _ _
                Hname Htoken Hbase eq_refl eq_refl eq_refl eq_refl eq_refl) as H.
  exact H.
Defined.

(** ** airtableFetchPersona *)

Lemma js_or_kept (l : list (option string)) (acc : value) :
  truthy acc = true ->
  fold_left (fun a o => js_or a (opt_value o)) l acc = acc.
Proof.
  induction l as [| o l IH]; intros Hacc; [done |].
  cbn [fold_left]. unfold js_or at 2. by rewrite Hacc, IH.
Qed.

Lemma js_or_candidates (l : list (option string)) (acc : value) :
  truthy acc = false ->
  match first_nonempty l with
  | Some s =>
      fold_left (fun a o => js_or a (opt_value o)) l acc = VStr s /\
      truthy (VStr s) = true
  | None => truthy (fold_left (fun a o => js_or a (opt_value o)) l acc) = false
  end.
Proof.
  revert acc. induction l as [| o l IH]; intros acc Hacc; [done |].
  cbn [fold_left first_nonempty]. unfold js_or at 2 4. rewrite Hacc.
  destruct o as [[| c s] |]; cbn [opt_value str_nonempty].
  - by apply IH.
  - by rewrite js_or_kept.
  - by apply IH.
Qed.

Section FetchPersonaProperties.
Variable new_URL : string -> option string.
Variable search_set : string -> string -> string -> string.

Lemma fetch_persona_run env context net :
  run net (airtableFetchPersona new_URL search_set env context) =
  match first_nonempty (fetch_persona_keys env),
        first_nonempty (fetch_persona_bases env context) with
  | Some key, Some base =>
      match new_URL (fetch_persona_url env context base) with
      | None => (Throw (type_error "Invalid URL"), [])
      | Some url =>
          (match net (fetch_persona_request search_set context key url) with
           | Rejects e => Throw e
           | Responds r =>
               if ok r then
                 match json r with
                 | Throw e => Throw e
                 | Normal body =>
                     match get_prop body "records" with
                     | Some records => Normal (Records (records_or_empty records))
                     | None =>
                         Throw (type_error
                                  ("Cannot read properties of " +:+
                                   to_string body +:+ " (reading 'records')"))
                     end
                 end
               else Normal (LookupHttpFailure (status r) (text r))
           end,
           [fetch_persona_request search_set context key url])
      end
  | _, _ =>
      (Normal (LookupSkipped "Airtable not configured (missing key or baseId)"), [])
  end.
Proof.
  unfold airtableFetchPersona.
  pose proof (js_or_candidates (fetch_persona_keys env) VUndef eq_refl) as Hkey.
  pose proof (js_or_candidates (fetch_persona_bases env context) VUndef eq_refl)
    as Hbase.
  unfold fetch_persona_keys, fetch_persona_bases in Hkey, Hbase.
  cbn [fold_left] in Hkey, Hbase.
  change (js_or VUndef ?v) with v in Hkey, Hbase.
  change (opt_value (env !! ?k)) with (env_read env k) in Hkey, Hbase.
  fold (fetch_persona_keys env) in Hkey.
  fold (fetch_persona_bases env context) in Hbase.
  destruct (first_nonempty (fetch_persona_keys env)) as [key |].
  2: { rewrite Hkey. by cbn. }
  destruct Hkey as [-> Hkey]. rewrite Hkey.
  destruct (first_nonempty (fetch_persona_bases env context)) as [base |].
  2: { rewrite Hbase. by cbn. }
  destruct Hbase as [-> Hbase]. rewrite Hbase. cbn [negb orb to_string].
  unfold construct_url. fold (fetch_persona_url env context base).
  destruct (new_URL _) as [url |]; [| done].
  cbn [bind]. cbv zeta. rewrite run_bind, run_fetch.
  fold (fetch_persona_request search_set context key url).
  destruct (net _) as [r | e]; [| done].
  destruct (ok r); cbn [negb]; [| done].
  rewrite run_bind, run_res_json. destruct (json r) as [body | e]; [| done].
  cbv beta iota zeta. unfold read.
  by destruct (get_prop body "records").
Qed.
End FetchPersonaProperties.

Section FetchPersonaTheorems.
Variable new_URL : string -> option string.
Variable search_set : string -> string -> string -> string.

(** X21. [airtableFetchPersona] returns its skipped result exactly when
    neither AIRTABLE_API_KEY nor AIRTABLE_PAT holds a non-empty key, or none
    of the input's base id and its six environment fallbacks is non-empty;
    it then sends no request.  AIRTABLE_TOKEN plays no part. *)
Theorem fetchPersona_skips_exactly_when_unconfigured env context net :
  (first_nonempty (fetch_persona_keys env) = None \/
   first_nonempty (fetch_persona_bases env context) = None) <->
  run net (airtableFetchPersona new_URL search_set env context) =
  (Normal (LookupSkipped "Airtable not configured (missing key or baseId)"), []).
Proof.
  rewrite fetch_persona_run.
  destruct (first_nonempty (fetch_persona_keys env)) as [key |];
    [| by split; [| left]].
  destruct (first_nonempty (fetch_persona_bases env context)) as [base |];
    [| by split; [| right]].
  split; [by intros [|] |].
  destruct (new_URL _) as [url |]; [| done].
  intros H. by injection H.
Qed.

(** X22. A configured [airtableFetchPersona] whose URL parses sends exactly
    one request, a GET carrying the key as bearer token, with the lower-case
    slug in the formula and the view when one is given.  A status outside 2xx
    gives [{ ok: false, status, reason }]; a 2xx JSON body gives all of its
    [records], or the empty array when it has none; nothing is caught, so a
    rejected fetch, a body that does not parse and a [null] body make the
    tool throw. *)
Theorem fetchPersona_outcomes env context net key base url :
  first_nonempty (fetch_persona_keys env) = Some key ->
  first_nonempty (fetch_persona_bases env context) = Some base ->
  new_URL (fetch_persona_url env context base) = Some url ->
  let req := fetch_persona_request search_set context key url in
  run net (airtableFetchPersona new_URL search_set env context) =
  (match net req with
   | Rejects e => Throw e
   | Responds r =>
       if ok r then
         match json r with
         | Throw e => Throw e
         | Normal body =>
             match get_prop body "records" with
             | Some records => Normal (Records (records_or_empty records))
             | None =>
                 Throw (type_error
                          ("Cannot read properties of " +:+
                           to_string body +:+ " (reading 'records')"))
             end
         end
       else Normal (LookupHttpFailure (status r) (text r))
   end,
   [req]).
Proof.
  intros Hkey Hbase Hurl req. by rewrite fetch_persona_run, Hkey, Hbase, Hurl.
Qed.

(** X23. With both AIRTABLE_PAT and AIRTABLE_API_KEY set, the two persona
    lookups authenticate with different keys: every request of
    [airtableGetPersonaContext] carries the PAT and every request of
    [airtableFetchPersona] carries the API key. *)
Theorem persona_lookups_pick_different_keys env net context context' pat key :
  env !! "AIRTABLE_PAT" = Some pat ->
  pat <> "" ->
  env !! "AIRTABLE_API_KEY" = Some key ->
  key <> "" ->
  Forall (fun req => req_headers req = bearer_headers pat)
         (requests net (airtableGetPersonaContext new_URL search_set env context)) /\
  Forall (fun req => req_headers req = [("Authorization", "Bearer " +:+ key)])
         (requests net (airtableFetchPersona new_URL search_set env context')).
Proof.
  intros Hpat Hpat' Hkey Hkey'. unfold requests. split.
  - unfold airtableGetPersonaContext.
    pose proof (lookup_cases new_URL search_set PersonaSlug env context) as Hcases.
    assert (Htoken : first_nonempty (token_candidates env) = Some pat).
    { unfold token_candidates. rewrite Hpat. by destruct pat. }
    rewrite Htoken in Hcases.
    destruct (first_nonempty (base_id_candidates env _)) as [base |].
    2: { rewrite Hcases. constructor. }
    rewrite Hcases, run_try_catch, lookup_body_run.
    destruct (new_URL _) as [url |]; [| constructor].
    cbv zeta.
    match goal with
    | |- context [(?c, [?req])] => generalize c; intros c'
    end.
    destruct c' as [result | e]; cbn; by repeat constructor.
  - rewrite fetch_persona_run.
    assert (Hfirst : first_nonempty (fetch_persona_keys env) = Some key).
    { unfold fetch_persona_keys. rewrite Hkey. by destruct key. }
    rewrite Hfirst.
    destruct (first_nonempty (fetch_persona_bases env context')) as [base |];
      [| constructor].
    destruct (new_URL _) as [url |]; [| constructor].
    cbn [snd]. by repeat constructor.
Qed.
End FetchPersonaTheorems.

Example fetchPersona_ignores_AIRTABLE_TOKEN :
  airtableHeadersOrNull Cases.env_with_token_only = Some (bearer_headers "tokKEY") /\
  run Cases.persona_store
      (airtableFetchPersona Cases.any_url Cases.append_param
         Cases.env_with_token_only
         (FetchPersonaInput None "Personas" None "nurse")) =
  (Normal (LookupSkipped "Airtable not configured (missing key or baseId)"), []).
Proof. split; vm_compute; reflexivity. Qed.

Lemma fetchPersona_outcomes_witness :
  outcome Cases.persona_store
    (airtableFetchPersona Cases.any_url Cases.append_param Examples.env
       (FetchPersonaInput None "Personas" None "Nurse")) =
  Normal (Records
            (VArr [Examples.record "p1"
                     [("XML Bundle", VStr "<persona>A</persona>");
                      ("Name", VStr "Nurse educator")];
                   Examples.record "p2"
                     [("XML Bundle", VStr "<persona>B</persona>")]])).
Proof.
  assert (Hkey : first_nonempty (fetch_persona_keys Examples.env) = Some "patKEY")
    by (vm_compute; reflexivity).
  assert (Hbase : first_nonempty
                    (fetch_persona_bases Examples.env
                       (FetchPersonaInput None "Personas" None "Nurse")) =
                  Some "app1")
    by (vm_compute; reflexivity).
  unfold outcome.
  rewrite (fetchPersona_outcomes Cases.any_url Cases.append_param Examples.env
             (FetchPersonaInput None "Personas" None "Nurse")
             Cases.persona_store "patKEY" "app1" _ Hkey Hbase eq_refl).
  reflexivity.
Defined.

Lemma persona_lookups_pick_different_keys_witness :
  Forall (fun req => req_headers req = bearer_headers "patKEY")
         (requests Cases.persona_store
            (airtableGetPersonaContext Cases.any_url Cases.append_param
               Cases.env_with_two_keys (SlugInput None "nurse"))) /\
  Forall (fun req => req_headers req = [("Authorization", "Bearer apiKEY")])
         (requests Cases.persona_store
            (airtableFetchPersona Cases.any_url Cases.append_param
               Cases.env_with_two_keys
               (FetchPersonaInput None "Personas" None "nurse"))).
Proof.
  apply (persona_lookups_pick_different_keys Cases.any_url Cases.append_param
           Cases.env_with_two_keys Cases.persona_store
           (SlugInput None "nurse")
           (FetchPersonaInput None "Personas" None "nurse") "patKEY" "apiKEY").
  - vm_compute; reflexivity.
  - discriminate.
  - vm_compute; reflexivity.
  - discriminate.
Defined.

(** ** The Tavily search *)

Lemma no_fetch_map_items f items :
  (forall x, no_fetch (f x)) -> no_fetch (map_items f items).
Proof.
  intros Hf. induction items as [| x rest IH]; [done |].
  cbn [map_items]. apply no_fetch_bind; [apply Hf | intros y].
  apply no_fetch_bind; [apply IH | done].
Qed.

Lemma no_fetch_search_item r : no_fetch (Tavily.search_item r).
Proof.
  unfold Tavily.search_item.
  apply no_fetch_bind; [apply no_fetch_read | intros url].
  apply no_fetch_bind; [apply no_fetch_read | intros title].
  apply no_fetch_bind; [apply no_fetch_read | intros snippet].
  apply no_fetch_bind; [apply no_fetch_read | done].
Qed.

Lemma search_item_entry r :
  not_nullish r = true -> Tavily.search_item r = Ret (tavily_entry r).
Proof.
  intros Hr. unfold Tavily.search_item, tavily_entry, read, get_opt.
  by destruct r.
Qed.

Lemma search_item_shape net r entry sent :
  run net (Tavily.search_item r) = (Normal entry, sent) ->
  entry = tavily_entry r /\ sent = [].
Proof.
  destruct (not_nullish r) eqn:Hr.
  - rewrite search_item_entry by done. cbn. by intros [= <- <-].
  - by destruct r.
Qed.

Lemma map_items_entries net items :
  forallb not_nullish items = true ->
  run net (map_items Tavily.search_item items) =
  (Normal (map tavily_entry items), []).
Proof.
  induction items as [| r rest IH]; [done |].
  cbn [forallb map_items map]. intros [Hr Hrest]%andb_prop.
  rewrite search_item_entry by done. cbn [bind].
  by rewrite run_bind, IH.
Qed.

Lemma map_items_shape net items results sent :
  run net (map_items Tavily.search_item items) = (Normal results, sent) ->
  results = map tavily_entry items /\ sent = [].
Proof.
  revert results sent. induction items as [| r rest IH]; intros results sent.
  { cbn. by intros [= <- <-]. }
  cbn [map_items map]. rewrite run_bind.
  destruct (run net (Tavily.search_item r)) as [[entry | e] sent1] eqn:Hitem;
    [| done].
  apply search_item_shape in Hitem as [-> ->].
  rewrite run_bind.
  destruct (run net (map_items Tavily.search_item rest)) as [[entries | e] sent2]
    eqn:Hrest; [| done].
  destruct (IH _ _ eq_refl) as [-> ->]. cbn. by intros [= <- <-].
Qed.

Lemma tavily_entry_url r : get_opt (tavily_entry r) "url" = get_opt r "url".
Proof. reflexivity. Qed.

Section TavilyProperties.
Variable not_a_function : value -> js_error.

Lemma search_body_run env context net :
  run net (Tavily.search_body not_a_function (env_read env "TAVILY_API_KEY") context) =
  (match net (tavily_request env context) with
   | Rejects e => Throw e
   | Responds resp =>
       if ok resp then
         match json resp with
         | Throw e => Throw e
         | Normal data =>
             match js_nullish_or (get_opt data "results") (VArr []) with
             | VArr items =>
                 match outcome net (map_items Tavily.search_item items) with
                 | Normal results =>
                     Normal (Tavily.Searched
                               (Tavily.query context)
                               (js_nullish_or (get_opt data "answer") VNull)
                               results
                               (map (fun r => get_opt r "url") results))
                 | Throw e => Throw e
                 end
             | listed => Throw (not_a_function listed)
             end
         end
       else
         Throw (Error ("Tavily error: " +:+ pretty (status resp) +:+ " " +:+
                       text resp))
   end,
   [tavily_request env context]).
Proof.
  unfold Tavily.search_body. fold (tavily_request env context).
  rewrite run_bind, run_fetch.
  destruct (net _) as [resp | e]; [| done].
  destruct (ok resp); cbn [negb]; [| done].
  rewrite run_bind, run_res_json. destruct (json resp) as [data | e]; [| done].
  cbv beta iota zeta. rewrite run_bind. unfold outcome.
  destruct (js_nullish_or _ _) as [| | b | n | str | items | props]; try done.
  pose proof (no_fetch_requests net (map_items Tavily.search_item items)
                (no_fetch_map_items _ _ no_fetch_search_item)) as Hsent.
  unfold requests in Hsent.
  destruct (run net (map_items Tavily.search_item items)) as [[results | e] sent].
  - cbn in Hsent |- *. by rewrite Hsent.
  - cbn in Hsent |- *. by rewrite Hsent.
Qed.

(** X24. The Tavily search sends no request without TAVILY_API_KEY and
    otherwise exactly one, a POST to the search endpoint whose body carries
    the key and the query; its [max_results] lies between 1 and 10, is the
    requested number when that lies in this range, and is 5 when none is
    requested. *)
Theorem tavily_search_request env context net :
  requests net (Tavily.webSearch not_a_function env context) =
  (if truthy (env_read env "TAVILY_API_KEY") then [tavily_request env context]
   else []) /\
  req_url (tavily_request env context) = "https://api.tavily.com/search" /\
  req_method (tavily_request env context) = "POST" /\
  get_prop (req_body (tavily_request env context)) "api_key" =
    Some (env_read env "TAVILY_API_KEY") /\
  get_prop (req_body (tavily_request env context)) "query" =
    Some (VStr (Tavily.query context)) /\
  exists n,
    get_prop (req_body (tavily_request env context)) "max_results" = Some (VNum n) /\
    1 <= n <= 10 /\
    (forall m, Tavily.maxResults context = Some m -> 1 <= m <= 10 -> n = m) /\
    (Tavily.maxResults context = None -> n = 5).
Proof.
  split_and!; try reflexivity.
  - unfold requests, Tavily.webSearch.
    destruct (truthy _); cbn [negb]; [| done].
    rewrite run_try_catch, search_body_run.
    lazymatch goal with
    | |- (match ?c with _ => _ end).2 = _ => generalize c; intros c'
    end.
    by destruct c'.
  - exists (Z.max 1 (Z.min (default 5 (Tavily.maxResults context)) 10)).
    split_and!.
    + reflexivity.
    + lia.
    + lia.
    + intros m -> Hm. cbn. lia.
    + by intros ->.
Qed.

(** X25. The Tavily search never returns a failure value: without the key it
    returns the empty result list with a note; with the key it either returns
    the results, with [citations] the URLs of [results] in the same order, or
    throws an error whose message starts with [Web search failed: ]. *)
Theorem tavily_search_returns_or_throws env context net :
  match outcome net (Tavily.webSearch not_a_function env context) with
  | Normal (Tavily.NotEnabled asked note) =>
      truthy (env_read env "TAVILY_API_KEY") = false /\
      asked = Tavily.query context
  | Normal (Tavily.Searched asked answer results citations) =>
      truthy (env_read env "TAVILY_API_KEY") = true /\
      asked = Tavily.query context /\
      citations = map (fun r => get_opt r "url") results /\
      length citations = length results
  | Throw e =>
      truthy (env_read env "TAVILY_API_KEY") = true /\
      exists reason, message e = "Web search failed: " +:+ reason
  end.
Proof.
  unfold outcome, Tavily.webSearch.
  destruct (truthy _); cbn [negb]; [| done].
  rewrite run_try_catch, search_body_run.
  destruct (net _) as [resp | e]; [| cbn; split; [done | by eexists]].
  destruct (ok resp); [| cbn; split; [done | by eexists]].
  destruct (json resp) as [data | e]; [| cbn; split; [done | by eexists]].
  destruct (js_nullish_or _ _); try (cbn; split; [done | by eexists]).
  destruct (outcome _ _) as [results | e]; cbn.
  - split_and!; try done. by rewrite length_map.
  - split; [done | by eexists].
Qed.

(** X26. When the search service answers with a 2xx JSON body whose
    [results] is an array without [null] entries, the Tavily search returns
    one entry per item, in the same order, with the item's url, title,
    content (as [snippet]) and score ([null] when the item has none), and
    [citations] lists the items' URLs. *)
Theorem tavily_search_lists_every_result env context net resp data items :
  truthy (env_read env "TAVILY_API_KEY") = true ->
  net (tavily_request env context) = Responds resp ->
  ok resp = true ->
  json resp = Normal data ->
  get_opt data "results" = VArr items ->
  forallb not_nullish items = true ->
  outcome net (Tavily.webSearch not_a_function env context) =
  Normal (Tavily.Searched (Tavily.query context)
            (js_nullish_or (get_opt data "answer") VNull)
            (map tavily_entry items)
            (map (fun r => get_opt r "url") items)).
Proof.
  intros Hkey Hnet Hok Hjson Hresults Hitems.
  unfold outcome, Tavily.webSearch. rewrite Hkey. cbn [negb].
  rewrite run_try_catch, search_body_run, Hnet, Hok, Hjson, Hresults.
  cbn [js_nullish_or]. unfold outcome. rewrite map_items_entries by done.
  cbn [fst]. by rewrite map_map.
Qed.
End TavilyProperties.

Lemma tavily_search_lists_every_result_witness :
  outcome Cases.search_service
    (Tavily.webSearch Cases.any_type_error Cases.search_env
       (Tavily.SearchInput "RN job market" (Some 50) None)) =
  Normal (Tavily.Searched "RN job market" (VStr "Rising")
            [VObj {[ "url" := VStr "https://a.example"; "title" := VStr "A";
                     "snippet" := VStr "aa"; "score" := VNum 1 ]};
             VObj {[ "url" := VStr "https://b.example"; "title" := VStr "B";
                     "snippet" := VStr "bb"; "score" := VNull ]}]
            [VStr "https://a.example"; VStr "https://b.example"]).
Proof.
  pose proof (tavily_search_lists_every_result Cases.any_type_error
                Cases.search_env
                (Tavily.SearchInput "RN job market" (Some 50) None)
                Cases.search_service _ _ _
                eq_refl eq_refl eq_refl eq_refl eq_refl eq_refl) as H.
  vm_compute in H. vm_compute. exact H.
Defined.

Example tavily_search_clamps_max_results :
  get_prop (req_body (tavily_request Cases.search_env
                        (Tavily.SearchInput "RN job market" (Some 50) None)))
           "max_results" = Some (VNum 10) /\
  get_prop (req_body (tavily_request Cases.search_env
                        (Tavily.SearchInput "RN job market" (Some (-3)) None)))
           "max_results" = Some (VNum 1).
Proof. split; vm_compute; reflexivity. Qed.

(** ** The bulk tools *)

Lemma bulk_send_run net method url headers payload :
  run net (Bulk.send method url headers payload) =
  (match net (Request method url headers payload) with
   | Rejects e => Throw e
   | Responds res =>
       if ok res then
         match json res with
         | Normal data =>
             Normal (Bulk.BulkDone (spread data ∪ {[ "ok" := VBool true ]}))
         | Throw e => Throw e
         end
       else Normal (Bulk.BulkHttpFailure (status res) (text res))
   end,
   [Request method url headers payload]).
Proof.
  unfold Bulk.send. rewrite run_bind, run_fetch.
  destruct (net _) as [res | e]; [| done].
  destruct (ok res); cbn [negb]; [| done].
  rewrite run_bind, run_res_json. by destruct (json res).
Qed.

Lemma bulk_execute_run net env call :
  run net (bulk_execute env call) =
  match first_nonempty (token_candidates env) with
  | None =>
      (Normal (Bulk.BulkSkipped "Airtable not configured (no PAT/API key)"), [])
  | Some token =>
      let req := bulk_request (bearer_headers token) call in
      (match net req with
       | Rejects e => Throw e
       | Responds res =>
           if ok res then
             match json res with
             | Normal data =>
                 Normal (Bulk.BulkDone (spread data ∪ {[ "ok" := VBool true ]}))
             | Throw e => Throw e
             end
           else Normal (Bulk.BulkHttpFailure (status res) (text res))
       end,
       [req])
  end.
Proof.
  destruct call as [context | context]; cbn [bulk_execute bulk_request];
    unfold Bulk.airtableCreate, Bulk.airtableUpdate;
    rewrite headers_first_nonempty;
    (destruct (first_nonempty (token_candidates env)) as [token |];
     cbn [fmap option_fmap option_map]; [apply bulk_send_run | done]).
Qed.

(** X27. The bulk create and update tools are skipped, without a request,
    exactly when no Airtable token is configured; otherwise they send exactly
    one request (a POST for create, a PATCH for update) to the table's URL
    with the token, and a status outside 2xx is returned as
    [{ ok: false, status, reason }] rather than thrown. *)
Theorem bulk_tools_send_one_request env call net :
  match first_nonempty (token_candidates env) with
  | None =>
      run net (bulk_execute env call) =
      (Normal (Bulk.BulkSkipped "Airtable not configured (no PAT/API key)"), [])
  | Some token =>
      requests net (bulk_execute env call) =
        [bulk_request (bearer_headers token) call] /\
      (forall reason,
         outcome net (bulk_execute env call) <> Normal (Bulk.BulkSkipped reason)) /\
      (forall res,
         net (bulk_request (bearer_headers token) call) = Responds res ->
         ok res = false ->
         outcome net (bulk_execute env call) =
         Normal (Bulk.BulkHttpFailure (status res) (text res)))
  end.
Proof.
  unfold requests, outcome. rewrite bulk_execute_run.
  destruct (first_nonempty (token_candidates env)) as [token |]; [| done].
  cbv zeta. cbn [fst snd]. split_and!.
  - done.
  - intros reason. destruct (net _) as [res | e]; [| done].
    destruct (ok res); [| done]. by destruct (json res).
  - by intros res -> ->.
Qed.

(** X28. When the store answers a bulk create or update with a 2xx JSON
    object, the result carries every property of that object unchanged, and
    its [ok] is [true] only if the answer has no [ok] of its own: an [ok] in
    the answer replaces it. *)
Theorem bulk_result_spreads_the_answer env call net token res props :
  first_nonempty (token_candidates env) = Some token ->
  net (bulk_request (bearer_headers token) call) = Responds res ->
  ok res = true ->
  json res = Normal (VObj props) ->
  exists result,
    outcome net (bulk_execute env call) = Normal (Bulk.BulkDone result) /\
    (forall k v, props !! k = Some v -> result !! k = Some v) /\
    (forall k, k <> "ok" -> result !! k = props !! k) /\
    result !! "ok" = Some (default (VBool true) (props !! "ok")).
Proof.
  intros Htoken Hnet Hok Hjson. unfold outcome.
  rewrite bulk_execute_run, Htoken. cbv zeta. rewrite Hnet, Hok, Hjson.
  cbn [fst spread]. eexists. split; [done |]. split_and!.
  - intros k v Hk. by apply lookup_union_Some_l.
  - intros k Hk. rewrite lookup_union_l; [done |].
    by rewrite lookup_singleton_ne.
  - rewrite lookup_union. rewrite lookup_singleton.
    by destruct (props !! "ok").
Qed.

Lemma bulk_result_spreads_the_answer_witness :
  exists result,
    outcome Cases.soft_failing_store (bulk_execute Examples.env Cases.two_records) =
      Normal (Bulk.BulkDone result) /\
    result !! "ok" = Some (VBool false) /\
    result !! "error" = Some (VStr "INVALID_REQUEST").
Proof.
  assert (Htoken : first_nonempty (token_candidates Examples.env) = Some "patKEY")
    by (vm_compute; reflexivity).
  destruct (bulk_result_spreads_the_answer Examples.env Cases.two_records
              Cases.soft_failing_store "patKEY" _ _ Htoken eq_refl eq_refl eq_refl)
    as (result & Hrun & Hall & _ & Hok).
  exists result. split_and!.
  - exact Hrun.
  - rewrite Hok. vm_compute. reflexivity.
  - apply Hall. vm_compute. reflexivity.
Defined.
